(** * Nayaya.ai backend: chunker, retriever, clause classifier, QA answer
      shaping and risk aggregation.

    A shallow embedding of the pure and store-passing parts of
    [backend/models/document.py], [backend/api/rag.py],
    [backend/api/vertex_ai.py] and [backend/api/qa.py].

    Conventions of the embedding.
    - A Python [float] is a binary64 primitive float; [==], [<], [<=] on floats
      are [PrimFloat.eqb], [ltb], [leb] (so NaN compares false with everything).
    - A Python [str] is a [string]; one [ascii] stands for one character.
    - A Python exception is a value of [exn]; code that may raise returns
      [result A].
    - The external services (embedding model, generation model, JSON parser,
      clock) are variables of the sections that use them. *)

From Stdlib Require Import ZArith List String Ascii Bool Lia QArith Floats Uint63.
From Stdlib Require Import Sorted DecimalString DecimalNat DecimalFacts.
From stdpp Require Import gmap strings.
Import ListNotations.

Set Warnings "-inexact-float,-register-all".
Local Open Scope string_scope.

(** ** Python values and control flow *)

Module Py.

Inductive exn : Type :=
| HTTPException (status_code : Z) (detail : string)
| JSONDecodeError
| ValueError
| AttributeError
| TypeError
| KeyError
| OverflowError
| ValidationError
| ServiceError (msg : string).

Inductive result (A : Type) : Type :=
| Ok (a : A)
| Raise (e : exn).
Arguments Ok {A} a.
Arguments Raise {A} e.

Definition bind {A B : Type} (m : result A) (k : A -> result B) : result B :=
  match m with
  | Ok a => k a
  | Raise e => Raise e
  end.

Definition is_http (e : exn) : bool :=
  match e with
  | HTTPException _ _ => true
  | _ => false
  end.

(** [s[:n]] for a string and a literal bound [n >= 0]. *)
Fixpoint slice_to (n : nat) (s : string) : string :=
  match n, s with
  | S n', String c s' => String c (slice_to n' s')
  | _, _ => EmptyString
  end.

(** [l[:k]] for a list and an arbitrary [int]: a negative [k] counts from
    the end. *)
Definition list_slice_to {A : Type} (k : Z) (l : list A) : list A :=
  if (0 <=? k)%Z then firstn (Z.to_nat k) l
  else firstn (length l - Z.to_nat (- k)) l.

(** [sub in s]. *)
Fixpoint contains (sub s : string) : bool :=
  if String.prefix sub s then true
  else match s with
       | EmptyString => false
       | String _ s' => contains sub s'
       end.

(** The line feed of ["\n"]. *)
Definition nl : string := String "010"%char EmptyString.

(** [str(n)] for a natural number. *)
Definition str_of_nat (n : nat) : string :=
  NilZero.string_of_uint (Nat.to_uint n).

(** The value [json.loads] returns: Python's parser also accepts the
    literals [NaN] and [Infinity], which arrive as floats. A JSON object is
    kept as its key/value list; [dict_get] reads it. *)
Inductive json : Type :=
| JNull
| JBool (b : bool)
| JInt (z : Z)
| JFloat (f : float)
| JStr (s : string)
| JArr (items : list json)
| JObj (fields : list (string * json)).

Fixpoint assoc (k : string) (kv : list (string * json)) : option json :=
  match kv with
  | [] => None
  | (k', v) :: rest => if String.eqb k k' then Some v else assoc k rest
  end.

(** [d.get(k, default)]: only a dict has [get]. *)
Definition dict_get (d : json) (k : string) (default : json) : result json :=
  match d with
  | JObj kv => Ok (match assoc k kv with Some v => v | None => default end)
  | _ => Raise AttributeError
  end.

(** [for x in v]: the items a loop over [v] visits. A dict yields its keys,
    a string its characters. *)
Definition iterate (v : json) : result (list json) :=
  match v with
  | JArr l => Ok l
  | JObj kv => Ok (map (fun p => JStr (fst p)) kv)
  | JStr s => Ok (map (fun c => JStr (String c EmptyString)) (list_ascii_of_string s))
  | _ => Raise TypeError
  end.

(** [v[:n]] for [n >= 0]: strings and lists can be sliced, anything else
    raises (a dict raises [KeyError] instead on the interpreters where a slice
    is hashable; no statement depends on which). *)
Definition slice_json (n : nat) (v : json) : result json :=
  match v with
  | JStr s => Ok (JStr (slice_to n s))
  | JArr l => Ok (JArr (firstn n l))
  | _ => Raise TypeError
  end.

(** [x in [s1, ..., sn]] for a list of strings: list membership compares
    with [==], and only a string equals a string. *)
Definition in_strings (v : json) (l : list string) : bool :=
  match v with
  | JStr s => existsb (String.eqb s) l
  | _ => false
  end.

End Py.
Import Py.

Notation "'let!' x ':=' m 'in' k" := (bind m (fun x => k))
  (at level 10, x name, m at level 100, k at level 200).

(** ** models/document.py *)

(** Each [str]-valued [Enum] class is a module: [t] lists the members,
    [value] is a member's string, [call] is the class called on a value
    ([ValueError] when no member has it) and [attr] is attribute access by
    member name ([AttributeError] when the class has no such member). *)

Module RiskLevel.

Inductive t : Type := HIGH | MEDIUM | LOW.

Definition members : list t := [HIGH; MEDIUM; LOW].

Definition name (r : t) : string :=
  match r with HIGH => "HIGH" | MEDIUM => "MEDIUM" | LOW => "LOW" end.

Definition value (r : t) : string :=
  match r with HIGH => "high" | MEDIUM => "medium" | LOW => "low" end.

Definition call (v : string) : result t :=
  match find (fun m => String.eqb (value m) v) members with
  | Some m => Ok m
  | None => Raise ValueError
  end.

Definition attr (n : string) : result t :=
  match find (fun m => String.eqb (name m) n) members with
  | Some m => Ok m
  | None => Raise AttributeError
  end.

End RiskLevel.

Module ProcessingStatus.

Inductive t : Type :=
  UPLOADED | PROCESSING | OCR_COMPLETE | CLASSIFIED | ANALYZED | COMPLETE | FAILED.

Definition value (s : t) : string :=
  match s with
  | UPLOADED => "uploaded"
  | PROCESSING => "processing"
  | OCR_COMPLETE => "ocr_complete"
  | CLASSIFIED => "classified"
  | ANALYZED => "analyzed"
  | COMPLETE => "complete"
  | FAILED => "failed"
  end.

End ProcessingStatus.

Module ClauseType.

Inductive t : Type :=
| PARTIES_INVOLVED | DEFINITIONS | PURPOSE_SCOPE | PAYMENT_TERMS | FEES_CHARGES
| PENALTIES | INTEREST | SECURITY_DEPOSIT | REFUND_POLICY | CONTRACT_DURATION
| TERMINATION | AUTO_RENEWAL | EXIT_FEES | WARRANTIES | OBLIGATIONS
| LIMITATION_LIABILITY | INDEMNIFICATION | GOVERNING_LAW | DISPUTE_RESOLUTION
| DATA_OWNERSHIP | DATA_SHARING | CONFIDENTIALITY | NON_COMPETE | IP_RIGHTS
| AMENDMENTS | SEVERABILITY.

Definition members : list t :=
  [ PARTIES_INVOLVED; DEFINITIONS; PURPOSE_SCOPE; PAYMENT_TERMS; FEES_CHARGES;
    PENALTIES; INTEREST; SECURITY_DEPOSIT; REFUND_POLICY; CONTRACT_DURATION;
    TERMINATION; AUTO_RENEWAL; EXIT_FEES; WARRANTIES; OBLIGATIONS;
    LIMITATION_LIABILITY; INDEMNIFICATION; GOVERNING_LAW; DISPUTE_RESOLUTION;
    DATA_OWNERSHIP; DATA_SHARING; CONFIDENTIALITY; NON_COMPETE; IP_RIGHTS;
    AMENDMENTS; SEVERABILITY ].

Definition name (c : t) : string :=
  match c with
  | PARTIES_INVOLVED => "PARTIES_INVOLVED"
  | DEFINITIONS => "DEFINITIONS"
  | PURPOSE_SCOPE => "PURPOSE_SCOPE"
  | PAYMENT_TERMS => "PAYMENT_TERMS"
  | FEES_CHARGES => "FEES_CHARGES"
  | PENALTIES => "PENALTIES"
  | INTEREST => "INTEREST"
  | SECURITY_DEPOSIT => "SECURITY_DEPOSIT"
  | REFUND_POLICY => "REFUND_POLICY"
  | CONTRACT_DURATION => "CONTRACT_DURATION"
  | TERMINATION => "TERMINATION"
  | AUTO_RENEWAL => "AUTO_RENEWAL"
  | EXIT_FEES => "EXIT_FEES"
  | WARRANTIES => "WARRANTIES"
  | OBLIGATIONS => "OBLIGATIONS"
  | LIMITATION_LIABILITY => "LIMITATION_LIABILITY"
  | INDEMNIFICATION => "INDEMNIFICATION"
  | GOVERNING_LAW => "GOVERNING_LAW"
  | DISPUTE_RESOLUTION => "DISPUTE_RESOLUTION"
  | DATA_OWNERSHIP => "DATA_OWNERSHIP"
  | DATA_SHARING => "DATA_SHARING"
  | CONFIDENTIALITY => "CONFIDENTIALITY"
  | NON_COMPETE => "NON_COMPETE"
  | IP_RIGHTS => "IP_RIGHTS"
  | AMENDMENTS => "AMENDMENTS"
  | SEVERABILITY => "SEVERABILITY"
  end.

Definition value (c : t) : string :=
  match c with
  | PARTIES_INVOLVED => "parties_involved"
  | DEFINITIONS => "definitions"
  | PURPOSE_SCOPE => "purpose_scope"
  | PAYMENT_TERMS => "payment_terms"
  | FEES_CHARGES => "fees_charges"
  | PENALTIES => "penalties"
  | INTEREST => "interest"
  | SECURITY_DEPOSIT => "security_deposit"
  | REFUND_POLICY => "refund_policy"
  | CONTRACT_DURATION => "contract_duration"
  | TERMINATION => "termination"
  | AUTO_RENEWAL => "auto_renewal"
  | EXIT_FEES => "exit_fees"
  | WARRANTIES => "warranties"
  | OBLIGATIONS => "obligations"
  | LIMITATION_LIABILITY => "limitation_liability"
  | INDEMNIFICATION => "indemnification"
  | GOVERNING_LAW => "governing_law"
  | DISPUTE_RESOLUTION => "dispute_resolution"
  | DATA_OWNERSHIP => "data_ownership"
  | DATA_SHARING => "data_sharing"
  | CONFIDENTIALITY => "confidentiality"
  | NON_COMPETE => "non_compete"
  | IP_RIGHTS => "ip_rights"
  | AMENDMENTS => "amendments"
  | SEVERABILITY => "severability"
  end.

(** [[ct.value for ct in ClauseType]]. *)
Definition values : list string := map value members.

Definition call (v : string) : result t :=
  match find (fun m => String.eqb (value m) v) members with
  | Some m => Ok m
  | None => Raise ValueError
  end.

Definition attr (n : string) : result t :=
  match find (fun m => String.eqb (name m) n) members with
  | Some m => Ok m
  | None => Raise AttributeError
  end.

End ClauseType.

(** [ClauseAnalysis]: the fields the classifier sets; [citations] keeps its
    default (empty) and the two positions their default ([None]), so they are
    not carried. *)
Record ClauseAnalysis : Type := mkClauseAnalysis {
  ca_id : string;
  ca_clause_type : ClauseType.t;
  ca_original_text : string;
  ca_plain_language : string;
  ca_risk_level : RiskLevel.t;
  ca_risk_reason : string;
  ca_recommendations : list string;
  ca_confidence_score : option float
}.

(** [Citation]. *)
Record Citation : Type := mkCitation {
  cit_source : string;
  cit_reference : string;
  cit_url : option string
}.

(** ** The document store *)

(** A paragraph dict of [extracted_data["paragraphs"]]; [None] is an absent
    key. *)
Record Paragraph : Type := mkParagraph {
  p_text : option string;
  p_page : option Z;
  p_confidence : option float
}.

(** A clause dict as stored under a document's ["clauses"]. *)
Record ClauseDict : Type := mkClauseDict {
  c_id : option string;
  c_clause_type : option string;
  c_original_text : option string;
  c_plain_language : option string;
  c_risk_level : option string;
  c_risk_reason : option string;
  c_recommendations : list string;
  c_confidence_score : option float
}.

(** A document of the [documents] collection: the fields these endpoints read
    or write. [d_user_id] is [metadata.user_id]; [d_raw_text] and
    [d_paragraphs] are what [extracted_data.get(..., default)] returns. *)
Record Document : Type := mkDocument {
  d_user_id : option string;
  d_processing_status : option string;
  d_raw_text : string;
  d_paragraphs : list Paragraph;
  d_document_type : option string;
  d_clauses : list ClauseDict;
  d_knowledge_base_created : bool;
  d_embeddings_count : option nat;
  d_error_message : option string;
  d_classification_timestamp : option Z;
  d_updated_at : option Z
}.

(** The metadata dict of a chunk: its keys depend on the chunk's kind. *)
Inductive ChunkMetadata : Type :=
| MetaFullDocument (length : nat)
| MetaClause (clause_type risk_level clause_id : string)
| MetaParagraph (paragraph_index : nat) (page : Z) (confidence : float).

Record Chunk : Type := mkChunk {
  chunk_text : string;
  chunk_type : string;
  chunk_metadata : ChunkMetadata
}.

(** A document of the [embeddings] collection. The last three fields are
    absent from the record the build writes; an [update] can add them. *)
Record EmbeddingData : Type := mkEmbeddingData {
  e_chunk_id : string;
  e_document_id : string;
  e_text : string;
  e_chunk_type : string;
  e_metadata : ChunkMetadata;
  e_embedding : list float;
  e_created_at : Z;
  e_knowledge_base_created : option bool;
  e_embeddings_count : option nat;
  e_updated_at : option Z
}.

(** A document of the [qa_history] collection. *)
Record QARecord : Type := mkQARecord {
  q_document_id : string;
  q_user_id : option string;
  q_question : string;
  q_answer : string;
  q_confidence : float;
  q_sources : list string;
  q_response_time_ms : Z;
  q_timestamp : Z
}.

(** The three collections. [embeddings] is kept in the order a query streams
    it; [set_embedding] is [batch.set] on the document named by the chunk id.
    [qa_history] grows at its end. *)
Record Firestore : Type := mkFirestore {
  documents : gmap string Document;
  embeddings : list EmbeddingData;
  qa_history : list QARecord
}.

Fixpoint set_embedding (e : EmbeddingData) (l : list EmbeddingData) : list EmbeddingData :=
  match l with
  | [] => [e]
  | e' :: rest =>
      if String.eqb (e_chunk_id e') (e_chunk_id e) then e :: rest
      else e' :: set_embedding e rest
  end.

(** [if current_user and doc_data.get("metadata", {}).get("user_id"):
       if doc_data["metadata"]["user_id"] != current_user["user_id"]: 403]
    with [current_user] reduced to its ["user_id"]. *)
Definition access_denied (current_user : option string) (doc_data : Document) : bool :=
  match current_user, d_user_id doc_data with
  | Some uid, Some owner =>
      negb (String.eqb owner "") && negb (String.eqb owner uid)
  | _, _ => false
  end.

Definition get_or {A : Type} (o : option A) (default : A) : A :=
  match o with
  | Some a => a
  | None => default
  end.

(** [enumerate(l)]. *)
Definition enumerate {A : Type} (l : list A) : list (nat * A) :=
  combine (seq 0 (length l)) l.

(** ** api/rag.py *)

Module Rag.

(** The clause chunk's f-string. *)
Definition clause_chunk_text (clause : ClauseDict) : string :=
  "Clause Type: " ++ get_or (c_clause_type clause) ""
  ++ nl ++ nl ++ "Original Text: " ++ get_or (c_original_text clause) ""
  ++ nl ++ nl ++ "Plain Language: " ++ get_or (c_plain_language clause) ""
  ++ nl ++ nl ++ "Risk: " ++ get_or (c_risk_level clause) ""
  ++ " - " ++ get_or (c_risk_reason clause) "".

Definition clause_chunk (clause : ClauseDict) : Chunk :=
  {| chunk_text := clause_chunk_text clause;
     chunk_type := "clause";
     chunk_metadata :=
       MetaClause (get_or (c_clause_type clause) "")
                  (get_or (c_risk_level clause) "")
                  (get_or (c_id clause) "") |}.

(** The body of the paragraph loop for one [(i, paragraph)]: the chunks it
    appends (one or none). *)
Definition paragraph_chunk (ip : nat * Paragraph) : list Chunk :=
  let (i, paragraph) := ip in
  if (100 <? String.length (get_or (p_text paragraph) ""))%nat then
    [ {| chunk_text := get_or (p_text paragraph) "";
         chunk_type := "paragraph";
         chunk_metadata :=
           MetaParagraph i (get_or (p_page paragraph) 1%Z)
                         (get_or (p_confidence paragraph) 0%float) |} ]
  else [].

Definition full_document_chunk (raw_text : string) : Chunk :=
  {| chunk_text := slice_to 2000 raw_text;
     chunk_type := "document";
     chunk_metadata := MetaFullDocument (String.length raw_text) |}.

Definition create_text_chunks
    (raw_text : string) (paragraphs : list Paragraph) (clauses : list ClauseDict)
    : list Chunk :=
  let chunks := [full_document_chunk raw_text] in
  let chunks := (chunks ++ map clause_chunk clauses)%list in
  if (0 <? length paragraphs)%nat then
    (chunks ++ flat_map paragraph_chunk (enumerate (firstn 10 paragraphs)))%list
  else chunks.

(** The inner product of two arrays of equal length: the products
    accumulated from [0.0] in index order, as the reference loop does. (An
    optimised kernel may add in another order; on one or two entries there is
    no other order.) *)
Definition dot_loop (vec1 vec2 : list float) : float :=
  fold_left (fun acc xy => (acc + fst xy * snd xy)%float) (combine vec1 vec2) 0%float.

(** [np.dot] of two one-dimensional arrays; arrays of different lengths raise
    [ValueError]. *)
Definition np_dot (vec1 vec2 : list float) : result float :=
  if (length vec1 =? length vec2)%nat then Ok (dot_loop vec1 vec2)
  else Raise ValueError.

(** [np.linalg.norm] of a one-dimensional real array: [sqrt(x.dot(x))]. *)
Definition np_linalg_norm (vec : list float) : float :=
  PrimFloat.sqrt (dot_loop vec vec).

(** The [try] body of [calculate_cosine_similarity]. *)
Definition cosine_similarity_body (vec1 vec2 : list float) : result float :=
  let! dot_product := np_dot vec1 vec2 in
  let norm1 := np_linalg_norm vec1 in
  let norm2 := np_linalg_norm vec2 in
  if (norm1 =? 0)%float || (norm2 =? 0)%float then Ok 0%float
  else Ok (dot_product / (norm1 * norm2))%float.

(** [try: ... except: return 0.0]. *)
Definition calculate_cosine_similarity (vec1 vec2 : list float) : float :=
  match cosine_similarity_body vec1 vec2 with
  | Ok r => r
  | Raise _ => 0%float
  end.

(** [list.sort(key=..., reverse=True)]: a stable sort, descending by key.
    [x] moves behind [y] only when its key is strictly smaller, so equal keys
    keep their order. On keys that are totally ordered (no NaN) every stable
    sort returns this list. *)
Fixpoint insert_desc {A : Type} (key : A -> float) (x : A) (l : list A) : list A :=
  match l with
  | [] => [x]
  | y :: l' =>
      if (key x <? key y)%float then y :: insert_desc key x l'
      else x :: l
  end.

Definition sort_desc {A : Type} (key : A -> float) (l : list A) : list A :=
  fold_right (insert_desc key) [] l.

(** One entry of the search results. *)
Record SearchHit : Type := mkSearchHit {
  h_chunk_id : string;
  h_text : string;
  h_chunk_type : string;
  h_metadata : ChunkMetadata;
  h_similarity : float
}.

Record SearchResponse : Type := mkSearchResponse {
  sr_query : string;
  sr_results : list SearchHit;
  sr_total_searched : nat
}.

Record KnowledgeBaseResponse : Type := mkKnowledgeBaseResponse {
  kb_success : bool;
  kb_document_id : string;
  kb_message : string;
  kb_chunks_created : nat;
  kb_embeddings_generated : nat
}.

(** The same update applied to a document of the [embeddings] collection. *)
Definition update_embedding_record (e : EmbeddingData) (count : nat) (ts : Z)
    : EmbeddingData :=
  {| e_chunk_id := e_chunk_id e;
     e_document_id := e_document_id e;
     e_text := e_text e;
     e_chunk_type := e_chunk_type e;
     e_metadata := e_metadata e;
     e_embedding := e_embedding e;
     e_created_at := e_created_at e;
     e_knowledge_base_created := Some true;
     e_embeddings_count := Some count;
     e_updated_at := Some ts |}.

(** [doc_ref.update] of the three knowledge-base fields. *)
Definition update_knowledge_base (d : Document) (count : nat) (ts : Z) : Document :=
  {| d_user_id := d_user_id d;
     d_processing_status := d_processing_status d;
     d_raw_text := d_raw_text d;
     d_paragraphs := d_paragraphs d;
     d_document_type := d_document_type d;
     d_clauses := d_clauses d;
     d_knowledge_base_created := true;
     d_embeddings_count := Some count;
     d_error_message := d_error_message d;
     d_classification_timestamp := d_classification_timestamp d;
     d_updated_at := Some ts |}.

(** The stored chunks a search scores: those of the document whose
    [embedding] is a non-empty list. *)
Definition has_vector (document_id : string) (e : EmbeddingData) : bool :=
  String.eqb (e_document_id e) document_id
  && negb (length (e_embedding e) =? 0)%nat.

Definition search_hit (query_vector : list float) (e : EmbeddingData) : SearchHit :=
  {| h_chunk_id := e_chunk_id e;
     h_text := e_text e;
     h_chunk_type := e_chunk_type e;
     h_metadata := e_metadata e;
     h_similarity := calculate_cosine_similarity query_vector (e_embedding e) |}.

Section Endpoints.

(** [embedding_model.get_embeddings([text])[0].values], or the exception the
    client raises. *)
Variable get_embeddings : string -> result (list float).
(** [firestore.SERVER_TIMESTAMP] as the store resolves it. *)
Variable server_timestamp : Z.
(** [str(e)]. *)
Variable str_of_exn : exn -> string.

(** [except HTTPException: raise
     except Exception as e: raise HTTPException(500, prefix + str(e))]. *)
Definition reraise_as_500 {A : Type} (prefix : string) (r : result A) : result A :=
  match r with
  | Ok a => Ok a
  | Raise e =>
      if is_http e then Raise e
      else Raise (HTTPException 500 (prefix ++ str_of_exn e))
  end.

(** The embedding loop: a chunk whose embedding call raises is skipped. *)
Fixpoint embed_chunks (document_id : string) (ichunks : list (nat * Chunk))
    : list EmbeddingData :=
  match ichunks with
  | [] => []
  | (i, chunk) :: rest =>
      match get_embeddings (chunk_text chunk) with
      | Ok embedding_vector =>
          {| e_chunk_id := document_id ++ "_chunk_" ++ str_of_nat i;
             e_document_id := document_id;
             e_text := chunk_text chunk;
             e_chunk_type := chunk_type chunk;
             e_metadata := chunk_metadata chunk;
             e_embedding := embedding_vector;
             e_created_at := server_timestamp;
             e_knowledge_base_created := None;
             e_embeddings_count := None;
             e_updated_at := None |}
          :: embed_chunks document_id rest
      | Raise _ => embed_chunks document_id rest
      end
  end.

(** [POST /create-knowledge-base]: the response or the exception, and the
    store afterwards. The storing loop rebinds [doc_ref] to the reference of
    each embedding it queues, so the final [doc_ref.update] reaches the main
    document only when no chunk was embedded; otherwise it lands on the last
    embedding written. *)
Definition create_knowledge_base
    (fs : Firestore) (document_id : string) (current_user : option string)
    : result KnowledgeBaseResponse * Firestore :=
  match documents fs !! document_id with
  | None => (Raise (HTTPException 404 "Document not found"), fs)
  | Some doc_data =>
      if access_denied current_user doc_data then
        (Raise (HTTPException 403 "Access denied"), fs)
      else if String.eqb (d_raw_text doc_data) "" then
        (Raise (HTTPException 400 "No text found in document"), fs)
      else
        let chunks :=
          create_text_chunks (d_raw_text doc_data) (d_paragraphs doc_data)
                             (d_clauses doc_data) in
        let embeddings_data := embed_chunks document_id (enumerate chunks) in
        let n := length embeddings_data in
        let committed :=
          fold_left (fun l e => set_embedding e l) embeddings_data (embeddings fs) in
        (Ok {| kb_success := true;
               kb_document_id := document_id;
               kb_message := "Knowledge base created successfully";
               kb_chunks_created := n;
               kb_embeddings_generated := n |},
         match rev embeddings_data with
         | [] =>
             {| documents :=
                  <[document_id := update_knowledge_base doc_data n server_timestamp]>
                    (documents fs);
                embeddings := committed;
                qa_history := qa_history fs |}
         | last_embedding :: _ =>
             {| documents := documents fs;
                embeddings :=
                  set_embedding
                    (update_embedding_record last_embedding n server_timestamp)
                    committed;
                qa_history := qa_history fs |}
         end)
  end.

(** [search_knowledge_base]: it only reads the store. *)
Definition search_knowledge_base
    (fs : Firestore) (document_id query : string) (limit : Z)
    (current_user : option string) : result SearchResponse :=
  reraise_as_500 "Knowledge base search failed: "
    match documents fs !! document_id with
    | None => Raise (HTTPException 404 "Document not found")
    | Some doc_data =>
        if access_denied current_user doc_data then
          Raise (HTTPException 403 "Access denied")
        else if negb (d_knowledge_base_created doc_data) then
          Raise (HTTPException 400 "Knowledge base not created for this document")
        else
          let! query_vector := get_embeddings query in
          let results :=
            map (search_hit query_vector)
                (List.filter (has_vector document_id) (embeddings fs)) in
          let results := sort_desc h_similarity results in
          let top_results := list_slice_to limit results in
          Ok {| sr_query := query;
                sr_results := top_results;
                sr_total_searched := length results |}
    end.

End Endpoints.

End Rag.

(** ** The generation model and the JSON parser *)

(** A prompt sent to the generation model. The constructor stands for the
    fixed template of the f-string, its arguments are the interpolated
    values. *)
Inductive Prompt : Type :=
| DocumentTypePrompt (excerpt : string)
| ClausesPrompt (clause_types text : string)
| AnswerPrompt (document_type context_text question : string).

(** [", ".join(l)]. *)
Fixpoint join_comma (l : list string) : string :=
  match l with
  | [] => ""
  | [s] => s
  | s :: rest => s ++ ", " ++ join_comma rest
  end.

(** ** api/vertex_ai.py *)

Module VertexAI.

(** The [risk_scores] dict. *)
Definition risk_scores : list (string * Z) :=
  [("high", 3%Z); ("medium", 2%Z); ("low", 1%Z)].

(** [risk_scores[k]]. *)
Fixpoint getitem (k : string) (d : list (string * Z)) : result Z :=
  match d with
  | [] => Raise KeyError
  | (k', v) :: rest => if String.eqb k k' then Ok v else getitem k rest
  end.

(** [sum(risk_scores[clause.risk_level.value] for clause in clauses)]. *)
Fixpoint sum_scores (clauses : list ClauseAnalysis) : result Z :=
  match clauses with
  | [] => Ok 0%Z
  | clause :: rest =>
      let! s := getitem (RiskLevel.value (ca_risk_level clause)) risk_scores in
      let! t := sum_scores rest in
      Ok (s + t)%Z
  end.

(** [calculate_overall_risk]. [total_score / len(clauses)] is the correctly
    rounded quotient of two integers and 2.5 and 1.5 are binary64 values, so
    for fewer than 2^51 clauses the two float comparisons are those of the
    exact quotient: the average is kept as a rational.
    [calculate_overall_risk_binary64] below is the same function on
    binary64. *)
Definition calculate_overall_risk (clauses : list ClauseAnalysis) : result string :=
  match clauses with
  | [] => Ok "medium"
  | _ :: _ =>
      let! total_score := sum_scores clauses in
      let average_score : Q := (total_score # Pos.of_nat (length clauses))%Q in
      if Qle_bool (5 # 2) average_score then Ok "high"
      else if Qle_bool (3 # 2) average_score then Ok "medium"
      else Ok "low"
  end.

(** The same function with the average computed in binary64, for sums and
    lengths below 2^63 (the conversion of such an integer is
    [PrimFloat.of_uint63]). *)
Definition float_of_small_int (z : Z) : float := PrimFloat.of_uint63 (Uint63.of_Z z).

Definition calculate_overall_risk_binary64 (clauses : list ClauseAnalysis)
    : result string :=
  match clauses with
  | [] => Ok "medium"
  | _ :: _ =>
      let! total_score := sum_scores clauses in
      let average_score :=
        (float_of_small_int total_score
         / float_of_small_int (Z.of_nat (length clauses)))%float in
      if (2.5 <=? average_score)%float then Ok "high"
      else if (1.5 <=? average_score)%float then Ok "medium"
      else Ok "low"
  end.

(** [Enum(v)] on a parsed value: only a member's value is accepted. *)
Definition clause_type_of (v : json) : result ClauseType.t :=
  match v with
  | JStr s => ClauseType.call s
  | _ => Raise ValueError
  end.

Definition risk_level_of (v : json) : result RiskLevel.t :=
  match v with
  | JStr s => RiskLevel.call s
  | _ => Raise ValueError
  end.

Definition valid_types : list string :=
  [ "rental_agreement"; "loan_contract"; "employment_contract";
    "terms_of_service"; "privacy_policy"; "nda"; "other" ].

(** [clause.dict()]. *)
Definition clause_dict (c : ClauseAnalysis) : ClauseDict :=
  {| c_id := Some (ca_id c);
     c_clause_type := Some (ClauseType.value (ca_clause_type c));
     c_original_text := Some (ca_original_text c);
     c_plain_language := Some (ca_plain_language c);
     c_risk_level := Some (RiskLevel.value (ca_risk_level c));
     c_risk_reason := Some (ca_risk_reason c);
     c_recommendations := ca_recommendations c;
     c_confidence_score := ca_confidence_score c |}.

(** The three [doc_ref.update] calls of the classification endpoint. *)
Definition update_processing (ts : Z) (d : Document) : Document :=
  {| d_user_id := d_user_id d;
     d_processing_status := Some (ProcessingStatus.value ProcessingStatus.PROCESSING);
     d_raw_text := d_raw_text d;
     d_paragraphs := d_paragraphs d;
     d_document_type := d_document_type d;
     d_clauses := d_clauses d;
     d_knowledge_base_created := d_knowledge_base_created d;
     d_embeddings_count := d_embeddings_count d;
     d_error_message := d_error_message d;
     d_classification_timestamp := d_classification_timestamp d;
     d_updated_at := Some ts |}.

Definition update_classified
    (document_type : string) (clauses : list ClauseDict) (now ts : Z) (d : Document)
    : Document :=
  {| d_user_id := d_user_id d;
     d_processing_status := Some (ProcessingStatus.value ProcessingStatus.CLASSIFIED);
     d_raw_text := d_raw_text d;
     d_paragraphs := d_paragraphs d;
     d_document_type := Some document_type;
     d_clauses := clauses;
     d_knowledge_base_created := d_knowledge_base_created d;
     d_embeddings_count := d_embeddings_count d;
     d_error_message := d_error_message d;
     d_classification_timestamp := Some now;
     d_updated_at := Some ts |}.

Definition update_failed (error_message : string) (ts : Z) (d : Document) : Document :=
  {| d_user_id := d_user_id d;
     d_processing_status := Some (ProcessingStatus.value ProcessingStatus.FAILED);
     d_raw_text := d_raw_text d;
     d_paragraphs := d_paragraphs d;
     d_document_type := d_document_type d;
     d_clauses := d_clauses d;
     d_knowledge_base_created := d_knowledge_base_created d;
     d_embeddings_count := d_embeddings_count d;
     d_error_message := Some error_message;
     d_classification_timestamp := d_classification_timestamp d;
     d_updated_at := Some ts |}.

(** [doc_ref.update(fields)]: the store refuses to update a document that
    does not exist. *)
Definition doc_update (document_id : string) (f : Document -> Document) (fs : Firestore)
    : result Firestore :=
  match documents fs !! document_id with
  | Some d =>
      Ok {| documents := <[document_id := f d]> (documents fs);
            embeddings := embeddings fs;
            qa_history := qa_history fs |}
  | None => Raise (ServiceError "404 No document to update")
  end.

Record ClassificationResponse : Type := mkClassificationResponse {
  cr_success : bool;
  cr_document_id : string;
  cr_message : string;
  cr_document_type : string;
  cr_clauses_found : nat;
  cr_clause_types : gset string
}.

Section Classifier.

(** [model.generate_content(prompt)] followed by [response.text], or the
    exception either raises. *)
Variable generate_text : Prompt -> result string.
(** [json.loads]; [None] is [json.JSONDecodeError]. *)
Variable json_loads : string -> option json.
(** What pydantic's [str] validation makes of a number or a boolean; it
    depends on the pydantic version ([None]: the value is rejected). *)
Variable coerce_str : json -> option string.
(** [s.strip().lower()]. *)
Variable strip_lower : string -> string.
(** [firestore.SERVER_TIMESTAMP] and [datetime.utcnow()]. *)
Variable server_timestamp utcnow : Z.
(** [str(e)]. *)
Variable str_of_exn : exn -> string.

(** pydantic's validation of a [str] field: a [str] is kept; [None], a list
    and a dict are rejected. *)
Definition validate_str (v : json) : result string :=
  match v with
  | JStr s => Ok s
  | JNull | JArr _ | JObj _ => Raise ValidationError
  | JBool _ | JInt _ | JFloat _ =>
      match coerce_str v with
      | Some s => Ok s
      | None => Raise ValidationError
      end
  end.

Fixpoint validate_strs (l : list json) : result (list string) :=
  match l with
  | [] => Ok []
  | v :: rest =>
      let! s := validate_str v in
      let! ss := validate_strs rest in
      Ok (s :: ss)
  end.

(** pydantic's validation of a [List[str]] field. *)
Definition validate_str_list (v : json) : result (list string) :=
  match v with
  | JArr l => validate_strs l
  | _ => Raise ValidationError
  end.

Definition classify_document_type (text : string) : result string :=
  let! response_text := generate_text (DocumentTypePrompt (slice_to 2000 text)) in
  let document_type := strip_lower response_text in
  if existsb (String.eqb document_type) valid_types then Ok document_type
  else Ok "other".

(** The body of the clause loop for one [(i, clause_data)]. The arguments of
    [ClauseAnalysis(...)] are evaluated in the order they are written, then
    the model validates its fields. *)
Definition classify_clause (ic : nat * json) : result ClauseAnalysis :=
  let (i, clause_data) := ic in
  let! clause_type := dict_get clause_data "clause_type" (JStr "other") in
  let clause_type :=
    if negb (in_strings clause_type ClauseType.values) then JStr "other"
    else clause_type in
  let! risk_level := dict_get clause_data "risk_level" (JStr "medium") in
  let risk_level :=
    if negb (in_strings risk_level (map RiskLevel.value RiskLevel.members))
    then JStr "medium" else risk_level in
  let id := "clause_" ++ str_of_nat (i + 1) in
  let! clause_type := clause_type_of clause_type in
  let! original_text := dict_get clause_data "original_text" (JStr "") in
  let! original_text := slice_json 2000 original_text in
  let! plain_language := dict_get clause_data "plain_language" (JStr "") in
  let! plain_language := slice_json 500 plain_language in
  let! risk_level := risk_level_of risk_level in
  let! risk_reason := dict_get clause_data "risk_reason" (JStr "") in
  let! risk_reason := slice_json 300 risk_reason in
  let! recommendations := dict_get clause_data "recommendations" (JArr []) in
  let! recommendations := slice_json 3 recommendations in
  let! original_text := validate_str original_text in
  let! plain_language := validate_str plain_language in
  let! risk_reason := validate_str risk_reason in
  let! recommendations := validate_str_list recommendations in
  Ok {| ca_id := id;
        ca_clause_type := clause_type;
        ca_original_text := original_text;
        ca_plain_language := plain_language;
        ca_risk_level := risk_level;
        ca_risk_reason := risk_reason;
        ca_recommendations := recommendations;
        ca_confidence_score := Some 0.8%float |}.

Fixpoint classify_clauses (items : list (nat * json)) : result (list ClauseAnalysis) :=
  match items with
  | [] => Ok []
  | ic :: rest =>
      let! clause := classify_clause ic in
      let! clauses := classify_clauses rest in
      Ok (clause :: clauses)
  end.

(** The [except json.JSONDecodeError] handler: [ClauseType.OTHER] and
    [RiskLevel.MEDIUM] are attribute accesses on the enum classes. *)
Definition fallback_clauses (text : string) : result (list ClauseAnalysis) :=
  let! other := ClauseType.attr "OTHER" in
  let! medium := RiskLevel.attr "MEDIUM" in
  Ok [ {| ca_id := "clause_1";
          ca_clause_type := other;
          ca_original_text := slice_to 2000 text;
          ca_plain_language :=
            "This document contains legal terms that require careful review. Please consult with a legal professional for detailed analysis.";
          ca_risk_level := medium;
          ca_risk_reason := "Unable to automatically parse document structure.";
          ca_recommendations :=
            [ "Review the entire document carefully";
              "Consult with a qualified attorney";
              "Ask questions about unclear terms" ];
          ca_confidence_score := Some 0.3%float |} ].

(** [segment_and_classify_clauses]: only [json.JSONDecodeError] is handled,
    every other exception of the [try] body leaves the function. *)
Definition segment_and_classify_clauses (text : string) (paragraphs : list Paragraph)
    : result (list ClauseAnalysis) :=
  let! response_text :=
    generate_text (ClausesPrompt (join_comma ClauseType.values) text) in
  match json_loads response_text with
  | Some result =>
      let! clauses := dict_get result "clauses" (JArr []) in
      let! items := iterate clauses in
      classify_clauses (enumerate items)
  | None => fallback_clauses text
  end.

(** The [try] body of [classify_document_clauses]: its outcome and the store
    it leaves. *)
Definition classify_document_clauses_body
    (fs : Firestore) (document_id : string) (current_user : option string)
    : result ClassificationResponse * Firestore :=
  match documents fs !! document_id with
  | None => (Raise (HTTPException 404 "Document not found"), fs)
  | Some doc_data =>
      if access_denied current_user doc_data then
        (Raise (HTTPException 403 "Access denied"), fs)
      else if negb (bool_decide (d_processing_status doc_data
                      = Some (ProcessingStatus.value ProcessingStatus.OCR_COMPLETE))) then
        (Raise (HTTPException 400 "Document must complete OCR processing first"), fs)
      else
        match doc_update document_id (update_processing server_timestamp) fs with
        | Raise e => (Raise e, fs)
        | Ok fs1 =>
            if String.eqb (d_raw_text doc_data) "" then
              (Raise (HTTPException 400 "No text found in document"), fs1)
            else
              match classify_document_type (d_raw_text doc_data) with
              | Raise e => (Raise e, fs1)
              | Ok document_type =>
                  match segment_and_classify_clauses (d_raw_text doc_data)
                                                     (d_paragraphs doc_data) with
                  | Raise e => (Raise e, fs1)
                  | Ok clauses =>
                      match doc_update document_id
                              (update_classified document_type (map clause_dict clauses)
                                                 utcnow server_timestamp) fs1 with
                      | Raise e => (Raise e, fs1)
                      | Ok fs2 =>
                          (Ok {| cr_success := true;
                                 cr_document_id := document_id;
                                 cr_message := "Clause classification completed successfully";
                                 cr_document_type := document_type;
                                 cr_clauses_found := length clauses;
                                 cr_clause_types :=
                                   list_to_set
                                     (map (fun c => ClauseType.value (ca_clause_type c))
                                          clauses) |},
                           fs2)
                      end
                  end
              end
        end
  end.

(** [POST /classify-clauses]: both handlers record the failure on the
    document before they raise; an exception of that update replaces the
    one being handled. *)
Definition classify_document_clauses
    (fs : Firestore) (document_id : string) (current_user : option string)
    : result ClassificationResponse * Firestore :=
  match classify_document_clauses_body fs document_id current_user with
  | (Ok response, fs') => (Ok response, fs')
  | (Raise e, fs') =>
      let error_message :=
        if is_http e then "Clause classification failed" else str_of_exn e in
      match doc_update document_id (update_failed error_message server_timestamp) fs' with
      | Raise e' => (Raise e', fs')
      | Ok fs'' =>
          if is_http e then (Raise e, fs'')
          else (Raise (HTTPException 500 ("Clause classification failed: " ++ str_of_exn e)),
                fs'')
      end
  end.

End Classifier.

End VertexAI.

(** ** api/qa.py *)

Module QA.

(** A result dict of the legal-corpus search. *)
Record LegalResult : Type := mkLegalResult {
  l_title : string;
  l_snippet : string;
  l_link : option string;
  l_source : option string;
  l_relevance_score : float
}.

(** The sentence every answer of [generate_answer] carries. *)
Definition disclaimer_sentence : string :=
  "⚠️ This analysis is for educational purposes only and does not constitute legal advice.".

(** The text the success path appends. *)
Definition disclaimer : string :=
  nl ++ nl ++ disclaimer_sentence
  ++ " Please consult with a qualified attorney for legal decisions.".

(** The dict [generate_answer] returns. [a_answer] is the Python object
    bound to ["answer"]. *)
Record AnswerData : Type := mkAnswerData {
  a_answer : json;
  a_confidence : float;
  a_sources : list string;
  a_citations : list Citation
}.

Record QARequest : Type := mkQARequest {
  rq_document_id : string;
  rq_question : string;
  rq_user_id : option string
}.

Record QAResponse : Type := mkQAResponse {
  rs_question : string;
  rs_answer : string;
  rs_confidence : float;
  rs_sources : list string;
  rs_citations : list Citation;
  rs_response_time_ms : Z
}.

(** [max(a, b)] and [min(a, b)] of two arguments: the first is kept unless
    the second compares strictly greater (smaller). *)
Definition py_max (a b : float) : float := if (a <? b)%float then b else a.
Definition py_min (a b : float) : float := if (b <? a)%float then b else a.

(** [answer += s]: a [str] is concatenated, a [list] is extended by the
    characters of [s]. *)
Definition iadd_str (answer : json) (s : string) : result json :=
  match answer with
  | JStr a => Ok (JStr (a ++ s))
  | JArr l =>
      Ok (JArr (l ++ map (fun c => JStr (String c EmptyString)) (list_ascii_of_string s)))
  | _ => Raise TypeError
  end.

(** [s.replace("_", " ")]. *)
Fixpoint replace_underscore (s : string) : string :=
  match s with
  | EmptyString => EmptyString
  | String c s' =>
      String (if Ascii.eqb c "_"%char then " "%char else c) (replace_underscore s')
  end.

(** [chr(10).join(l)]. *)
Fixpoint join_lines (l : list string) : string :=
  match l with
  | [] => ""
  | [s] => s
  | s :: rest => s ++ nl ++ join_lines rest
  end.

Definition create_citations (legal_context : list LegalResult) : list Citation :=
  map (fun ctx =>
         {| cit_source := get_or (l_source ctx) "Legal Reference";
            cit_reference := l_title ctx;
            cit_url := l_link ctx |})
      legal_context.

Definition metadata_clause_type (m : ChunkMetadata) : string :=
  match m with
  | MetaClause clause_type _ _ => clause_type
  | _ => "Unknown"
  end.

Section Answers.

Variable generate_text : Prompt -> result string.
Variable json_loads : string -> option json.
(** [float(n)] of an [int] and [float(s)] of a [str]. *)
Variable float_of_int : Z -> result float.
Variable float_of_str : string -> result float.
(** [f"{x:.2f}"]. *)
Variable format_2f : float -> string.

(** [float(v)]. *)
Definition py_float (v : json) : result float :=
  match v with
  | JFloat f => Ok f
  | JInt z => float_of_int z
  | JBool b => Ok (if b then 1%float else 0%float)
  | JStr s => float_of_str s
  | _ => Raise TypeError
  end.

Definition document_source (ctx : Rag.SearchHit) : string :=
  if String.eqb (Rag.h_chunk_type ctx) "clause" then
    "Clause: " ++ metadata_clause_type (Rag.h_metadata ctx)
  else
    "Document section (similarity: " ++ format_2f (Rag.h_similarity ctx) ++ ")".

(** The three blocks of [context_parts]. *)
Definition document_parts (document_context : list Rag.SearchHit) : list string :=
  match document_context with
  | [] => []
  | _ :: _ =>
      "=== DOCUMENT CONTEXT ==="
      :: map (fun ic : nat * Rag.SearchHit =>
                "Context " ++ str_of_nat (fst ic + 1) ++ ": "
                ++ slice_to 500 (Rag.h_text (snd ic)) ++ "...")
             (enumerate document_context)
  end.

Definition legal_parts (legal_context : list LegalResult) : list string :=
  match legal_context with
  | [] => []
  | _ :: _ =>
      (nl ++ "=== LEGAL REFERENCES ===")
      :: map (fun ic : nat * LegalResult =>
                "Legal Reference " ++ str_of_nat (fst ic + 1) ++ ": " ++ l_snippet (snd ic))
             (enumerate legal_context)
  end.

Definition clause_parts (clauses : list ClauseDict) : list string :=
  match clauses with
  | [] => []
  | _ :: _ =>
      (nl ++ "=== DOCUMENT CLAUSES SUMMARY ===")
      :: map (fun clause =>
                "- " ++ get_or (c_clause_type clause) "Unknown" ++ ": "
                ++ slice_to 200 (get_or (c_plain_language clause) "") ++ "...")
             (firstn 5 clauses)
  end.

Definition answer_sources
    (document_context : list Rag.SearchHit) (legal_context : list LegalResult)
    : list string :=
  (map document_source document_context
   ++ map (fun ctx => ("Legal: " ++ l_title ctx)%string) legal_context)%list.

(** The prompt of [generate_answer]. *)
Definition answer_prompt
    (question document_type : string)
    (document_context : list Rag.SearchHit) (legal_context : list LegalResult)
    (clauses : list ClauseDict) : Prompt :=
  let context_parts :=
    (document_parts document_context ++ legal_parts legal_context
     ++ clause_parts clauses)%list in
  let context_text := join_lines context_parts in
  AnswerPrompt (replace_underscore document_type) context_text question.

(** The [try] body of [generate_answer]. *)
Definition generate_answer_body
    (prompt : Prompt) (sources : list string) (legal_context : list LegalResult)
    : result AnswerData :=
  let! response_text := generate_text prompt in
  match json_loads response_text with
  | None => Raise JSONDecodeError
  | Some result =>
      let! answer :=
        dict_get result "answer"
          (JStr "I couldn't find relevant information in the document to answer your question.") in
      let! confidence := dict_get result "confidence" (JFloat 0.5%float) in
      let! confidence := py_float confidence in
      let! answer := iadd_str answer disclaimer in
      Ok {| a_answer := answer;
            a_confidence := py_min (py_max confidence 0%float) 1%float;
            a_sources := firstn 5 sources;
            a_citations := create_citations legal_context |}
  end.

Definition generate_answer
    (question document_type : string)
    (document_context : list Rag.SearchHit) (legal_context : list LegalResult)
    (clauses : list ClauseDict) : AnswerData :=
  let sources := answer_sources document_context legal_context in
  let prompt :=
    answer_prompt question document_type document_context legal_context clauses in
  match generate_answer_body prompt sources legal_context with
  | Ok answer_data => answer_data
  | Raise JSONDecodeError =>
      {| a_answer :=
           JStr ("I found some relevant information in your document, but I'm having trouble providing a detailed analysis right now. Please try rephrasing your question or consult the document clauses directly."
                 ++ nl ++ nl ++ disclaimer_sentence);
         a_confidence := 0.3%float;
         a_sources := firstn 3 sources;
         a_citations := [] |}
  | Raise _ =>
      {| a_answer :=
           JStr ("I encountered an issue while analyzing your question. The document appears to be a "
                 ++ replace_underscore document_type
                 ++ ", but I cannot provide a specific answer at this time. Please review the document directly or consult with a legal professional."
                 ++ nl ++ nl ++ disclaimer_sentence);
         a_confidence := 0.2%float;
         a_sources := [];
         a_citations := [] |}
  end.

(** The other services [answer_question] calls. *)
Variable get_embeddings : string -> result (list float).
Variable search_legal_corpus : string -> Z -> result (list LegalResult).
Variable str_of_exn : exn -> string.
Variable server_timestamp response_time_ms : Z.

(** [QAResponse(...)]: pydantic accepts the answer when it is a [str]. *)
Definition make_response (question : string) (answer_data : AnswerData)
    : result QAResponse :=
  match a_answer answer_data with
  | JStr answer =>
      Ok {| rs_question := question;
            rs_answer := answer;
            rs_confidence := a_confidence answer_data;
            rs_sources := a_sources answer_data;
            rs_citations := a_citations answer_data;
            rs_response_time_ms := response_time_ms |}
  | _ => Raise ValidationError
  end.

(** [POST /qa]: the response or the exception, and the store afterwards. *)
Definition answer_question
    (fs : Firestore) (request : QARequest) (current_user : option string)
    : result QAResponse * Firestore :=
  match documents fs !! rq_document_id request with
  | None => (Raise (HTTPException 404 "Document not found"), fs)
  | Some doc_data =>
      if access_denied current_user doc_data then
        (Raise (HTTPException 403 "Access denied"), fs)
      else
        let document_context :=
          if d_knowledge_base_created doc_data then
            match Rag.search_knowledge_base get_embeddings str_of_exn fs
                    (rq_document_id request) (rq_question request) 3 current_user with
            | Ok search_result => Rag.sr_results search_result
            | Raise _ => []
            end
          else [] in
        let legal_context :=
          match search_legal_corpus (rq_question request) 2 with
          | Ok results => results
          | Raise _ => []
          end in
        let document_type := get_or (d_document_type doc_data) "legal document" in
        let answer_data :=
          generate_answer (rq_question request) document_type document_context
                          legal_context (d_clauses doc_data) in
        match make_response (rq_question request) answer_data with
        | Raise e =>
            (Raise (HTTPException 500 ("Failed to answer question: " ++ str_of_exn e)), fs)
        | Ok response =>
            (Ok response,
             {| documents := documents fs;
                embeddings := embeddings fs;
                qa_history :=
                  (qa_history fs
                   ++ [ {| q_document_id := rq_document_id request;
                           q_user_id := rq_user_id request;
                           q_question := rq_question request;
                           q_answer := rs_answer response;
                           q_confidence := rs_confidence response;
                           q_sources := rs_sources response;
                           q_response_time_ms := response_time_ms;
                           q_timestamp := server_timestamp |} ])%list |})
        end
  end.

End Answers.

End QA.

(** * Vocabulary of the statements and sample data *)

Module ChunkerVocabulary.

(** A paragraph the chunker keeps: its text has more than 100 characters. *)
Definition substantial (p : Paragraph) : bool :=
  (100 <? String.length (get_or (p_text p) ""))%nat.

(** The number of chunks of one kind. *)
Definition count_type (ty : string) (chunks : list Chunk) : nat :=
  length (List.filter (fun c => String.eqb (chunk_type c) ty) chunks).

End ChunkerVocabulary.

Module ChunkerSamples.

(** A paragraph of 101 characters and one of 6. *)
Definition long_paragraph : Paragraph :=
  {| p_text := Some (string_of_list_ascii (repeat "x"%char 101));
     p_page := Some 1%Z;
     p_confidence := Some 0.9%float |}.

Definition short_paragraph : Paragraph :=
  {| p_text := Some "Page 1";
     p_page := Some 1%Z;
     p_confidence := Some 0.9%float |}.

Definition sample_clause : ClauseDict :=
  {| c_id := Some "clause_1";
     c_clause_type := Some "termination";
     c_original_text := Some "Either party may terminate with 30 days notice.";
     c_plain_language := Some "You can end this with a month of notice.";
     c_risk_level := Some "low";
     c_risk_reason := Some "Standard notice period.";
     c_recommendations := ["Keep a copy of the notice"];
     c_confidence_score := Some 0.8%float |}.

Definition three_clauses : list ClauseDict := repeat sample_clause 3.

(** Twelve paragraphs, the two short ones first, and twelve with the two
    short ones last. *)
Definition short_first : list Paragraph :=
  (repeat short_paragraph 2 ++ repeat long_paragraph 10)%list.

Definition short_last : list Paragraph :=
  (repeat long_paragraph 10 ++ repeat short_paragraph 2)%list.

End ChunkerSamples.

Module RiskVocabulary.

(** The score of a risk level: high 3, medium 2, low 1. *)
Definition score (r : RiskLevel.t) : Z :=
  match r with
  | RiskLevel.HIGH => 3
  | RiskLevel.MEDIUM => 2
  | RiskLevel.LOW => 1
  end.

Definition total_score (clauses : list ClauseAnalysis) : Z :=
  fold_right Z.add 0%Z (map (fun c => score (ca_risk_level c)) clauses).

(** The average score of a non-empty clause list. *)
Definition average_score (clauses : list ClauseAnalysis) : Q :=
  (total_score clauses # Pos.of_nat (length clauses))%Q.

End RiskVocabulary.

Module RiskSamples.

Definition clause_with (r : RiskLevel.t) : ClauseAnalysis :=
  {| ca_id := "clause_1";
     ca_clause_type := ClauseType.TERMINATION;
     ca_original_text := "Either party may terminate with 30 days notice.";
     ca_plain_language := "You can end this with a month of notice.";
     ca_risk_level := r;
     ca_risk_reason := "Standard notice period.";
     ca_recommendations := [];
     ca_confidence_score := Some 0.8%float |}.

(** A list with [h] high, [m] medium and [l] low clauses. *)
Definition clauses_with (h m l : nat) : list ClauseAnalysis :=
  (repeat (clause_with RiskLevel.HIGH) h
   ++ repeat (clause_with RiskLevel.MEDIUM) m
   ++ repeat (clause_with RiskLevel.LOW) l)%list.

Definition same_outcome (a b : result string) : bool :=
  match a, b with
  | Ok x, Ok y => String.eqb x y
  | _, _ => false
  end.

(** Do the exact and the binary64 function agree on every mix of at most
    [n] clauses? *)
Definition agree_up_to (n : nat) : bool :=
  forallb
    (fun h =>
       forallb
         (fun m =>
            forallb
              (fun l =>
                 same_outcome
                   (VertexAI.calculate_overall_risk (clauses_with h m l))
                   (VertexAI.calculate_overall_risk_binary64 (clauses_with h m l)))
              (seq 0 (n + 1 - h - m)))
         (seq 0 (n + 1 - h)))
    (seq 0 (n + 1)).

End RiskSamples.

Module LifecycleSamples.

(** A freshly uploaded document, stored alone under ["doc1"]. *)
Definition uploaded_document : Document :=
  {| d_user_id := None;
     d_processing_status := Some (ProcessingStatus.value ProcessingStatus.UPLOADED);
     d_raw_text := "";
     d_paragraphs := [];
     d_document_type := None;
     d_clauses := [];
     d_knowledge_base_created := false;
     d_embeddings_count := None;
     d_error_message := None;
     d_classification_timestamp := None;
     d_updated_at := Some 10%Z |}.

Definition uploaded_store : Firestore :=
  {| documents := {[ "doc1" := uploaded_document ]};
     embeddings := [];
     qa_history := [] |}.

(** Services that are never reached on the paths the samples exercise. *)
Definition silent_model (_ : Prompt) : result string :=
  Raise (ServiceError "unavailable").
Definition no_json (_ : string) : option json := None.
Definition no_coercion (_ : json) : option string := None.
Definition show_exn (_ : exn) : string := "error".

End LifecycleSamples.

Module RetrieverVocabulary.
Import Rag.



(** The stored chunks of a document that carry a non-empty vector. *)
Definition stored_vectors (fs : Firestore) (document_id : string) : list EmbeddingData :=
  List.filter (has_vector document_id) (embeddings fs).

(** Similarity never increases along the list. *)
Definition descending (l : list SearchHit) : Prop :=
  StronglySorted (fun a b => (h_similarity b <=? h_similarity a)%float = true) l.

End RetrieverVocabulary.

Module RetrieverSamples.


Definition kb_document : Document :=
  {| d_user_id := None;
     d_processing_status := Some (ProcessingStatus.value ProcessingStatus.CLASSIFIED);
     d_raw_text := "Lease agreement";
     d_paragraphs := [];
     d_document_type := Some "rental_agreement";
     d_clauses := [];
     d_knowledge_base_created := true;
     d_embeddings_count := Some 2;
     d_error_message := None;
     d_classification_timestamp := Some 15%Z;
     d_updated_at := Some 20%Z |}.

Definition stored_chunk (n : string) (v : list float) : EmbeddingData :=
  {| e_chunk_id := "doc1_chunk_" ++ n;
     e_document_id := "doc1";
     e_text := "Lease agreement";
     e_chunk_type := "document";
     e_metadata := MetaFullDocument 15;
     e_embedding := v;
     e_created_at := 20%Z;
     e_knowledge_base_created := None;
     e_embeddings_count := None;
     e_updated_at := None |}.

Definition kb_store : Firestore :=
  {| documents := {[ "doc1" := kb_document ]};
     embeddings := [ stored_chunk "0" [0%float; 1%float];
                     stored_chunk "1" [1%float; 0%float] ];
     qa_history := [] |}.

Definition unit_embedding (_ : string) : result (list float) :=
  Ok [1%float; 0%float].

End RetrieverSamples.

Module ClassifierSamples.

(** A reply of the model whose only clause names a type outside the enum,
    as [json.loads] returns it. *)
Definition unlisted_type_reply : json :=
  JObj [ ("clauses",
          JArr [ JObj [ ("original_text", JStr "Tenant shall pay rent monthly.");
                        ("clause_type", JStr "rent");
                        ("plain_language", JStr "You pay rent every month.");
                        ("risk_level", JStr "low");
                        ("risk_reason", JStr "Standard term.");
                        ("recommendations", JArr [JStr "Pay on time"]) ] ]) ].

(** A well-formed reply with a listed type. *)
Definition listed_type_reply : json :=
  JObj [ ("clauses",
          JArr [ JObj [ ("original_text", JStr "Tenant shall pay rent monthly.");
                        ("clause_type", JStr "payment_terms");
                        ("plain_language", JStr "You pay rent every month.");
                        ("risk_level", JStr "severe");
                        ("risk_reason", JStr "Standard term.");
                        ("recommendations",
                         JArr [JStr "a"; JStr "b"; JStr "c"; JStr "d"]) ] ]) ].

Definition reply_model (reply : string) (_ : Prompt) : result string := Ok reply.

(** A parser that knows the two sample replies. *)
Definition sample_loads (s : string) : option json :=
  if String.eqb s "unlisted" then Some unlisted_type_reply
  else if String.eqb s "listed" then Some listed_type_reply
  else None.

Definition no_coerce (_ : json) : option string := None.

End ClassifierSamples.

Module QASamples.

(** A reply of the model whose confidence is the literal [NaN], which
    [json.loads] accepts, as it is parsed. *)
Definition nan_reply : json :=
  JObj [ ("answer", JStr "Yes, with 30 days notice.");
         ("confidence", JFloat nan);
         ("reasoning", JStr "Clause 4.");
         ("limitations", JStr "None.") ].

Definition nan_loads (_ : string) : option json := Some nan_reply.
Definition nan_model (_ : Prompt) : result string := Ok "reply".
Definition no_float_of_int (_ : Z) : result float := Raise OverflowError.
Definition no_float_of_str (_ : string) : result float := Raise ValueError.
Definition plain_2f (_ : float) : string := "0.00".

End QASamples.

(** * Further functions of the cited files *)

(** ** api/rag.py: the legal corpus *)

Module LegalCorpus.
Import QA.

(** A result of the Discovery Engine client: the keys of
    [document.derived_struct_data] and the result's [relevance_score]
    attribute, [None] where absent. *)
Record DiscoveryHit : Type := mkDiscoveryHit {
  ds_title : option string;
  ds_snippet : option string;
  ds_link : option string;
  ds_source : option string;
  ds_relevance_score : option float
}.

(** The dict [search_legal_corpus] returns; ["error"] is present on the
    fallback path only. *)
Record LegalSearchResponse : Type := mkLegalSearchResponse {
  ls_query : string;
  ls_results : list LegalResult;
  ls_source : string;
  ls_error : option string
}.

(** The dict built for one result of the client. *)
Definition legal_result_of (hit : DiscoveryHit) : LegalResult :=
  {| l_title := get_or (ds_title hit) "";
     l_snippet := get_or (ds_snippet hit) "";
     l_link := Some (get_or (ds_link hit) "");
     l_source := Some (get_or (ds_source hit) "legal_corpus");
     l_relevance_score := get_or (ds_relevance_score hit) 0%float |}.

Section Corpus.

(** [str.lower]. *)
Variable lower : string -> string.
(** The environment variable [VERTEX_SEARCH_ENGINE_ID]. *)
Variable SEARCH_ENGINE_ID : option string.
(** [client.search(search_request).results] for a query and a page size, or
    the exception the client raises. *)
Variable discovery_search : string -> Z -> result (list DiscoveryHit).
(** [str(e)]. *)
Variable str_of_exn : exn -> string.

(** The table of [get_mock_legal_knowledge], scored for a query. *)
Definition mock_knowledge (query : string) : list LegalResult :=
  let query_lower := lower query in
  [ {| l_title := "Tenant Rights - Security Deposits";
       l_snippet := "Landlords must return security deposits within 30 days of lease termination, minus legitimate deductions for damages beyond normal wear and tear.";
       l_link := Some "https://example.gov/tenant-rights#security-deposits";
       l_source := Some "State Housing Law";
       l_relevance_score :=
         if contains "security deposit" query_lower then 0.95%float else 0.3%float |};
    {| l_title := "Contract Termination Rights";
       l_snippet := "Parties may terminate contracts early only if specific conditions are met, including material breach or mutual agreement. Early termination fees must be reasonable.";
       l_link := Some "https://example.gov/contract-law#termination";
       l_source := Some "Contract Law Statute";
       l_relevance_score :=
         if contains "termination" query_lower then 0.9%float else 0.4%float |};
    {| l_title := "Limitation of Liability Clauses";
       l_snippet := "Courts may void limitation of liability clauses that are unconscionable or attempt to limit liability for gross negligence or willful misconduct.";
       l_link := Some "https://example.gov/contract-law#liability";
       l_source := Some "Civil Code Section 1668";
       l_relevance_score :=
         if contains "liability" query_lower then 0.85%float else 0.2%float |};
    {| l_title := "Data Privacy Requirements";
       l_snippet := "Companies must obtain explicit consent before collecting personal data and provide clear notice of data usage practices.";
       l_link := Some "https://example.gov/privacy-law";
       l_source := Some "Privacy Protection Act";
       l_relevance_score :=
         if contains "data" query_lower || contains "privacy" query_lower
         then 0.9%float else 0.3%float |};
    {| l_title := "Employment Contract Standards";
       l_snippet := "Non-compete clauses must be reasonable in scope, duration, and geographic area to be enforceable. They cannot prevent reasonable employment opportunities.";
       l_link := Some "https://example.gov/employment-law#non-compete";
       l_source := Some "Labor Code";
       l_relevance_score :=
         if contains "employment" query_lower || contains "non-compete" query_lower
         then 0.8%float else 0.25%float |} ].

Definition get_mock_legal_knowledge (query : string) : list LegalResult :=
  firstn 3 (Rag.sort_desc l_relevance_score (mock_knowledge query)).

(** [if not SEARCH_ENGINE_ID]. *)
Definition engine_unset : bool :=
  match SEARCH_ENGINE_ID with
  | None => true
  | Some s => String.eqb s ""
  end.

(** [search_legal_corpus]: every exception of the [try] body is answered
    with the mock results. *)
Definition search_legal_corpus (query : string) (limit : Z) : LegalSearchResponse :=
  if engine_unset then
    {| ls_query := query;
       ls_results := get_mock_legal_knowledge query;
       ls_source := "mock_legal_corpus";
       ls_error := None |}
  else
    match discovery_search query limit with
    | Ok hits =>
        {| ls_query := query;
           ls_results := map legal_result_of hits;
           ls_source := "vertex_ai_search";
           ls_error := None |}
    | Raise e =>
        {| ls_query := query;
           ls_results := get_mock_legal_knowledge query;
           ls_source := "mock_legal_corpus";
           ls_error := Some ("Search service unavailable: " ++ str_of_exn e) |}
    end.

(** The call as [answer_question] makes it: [legal_search.get("results", [])]
    of the dict returned. *)
Definition legal_results (query : string) (limit : Z) : result (list LegalResult) :=
  Ok (ls_results (search_legal_corpus query limit)).

End Corpus.

End LegalCorpus.

(** ** api/qa.py: suggested questions *)

Module Suggestions.

Definition base_questions : list string :=
  [ "What are my main obligations under this contract?";
    "What happens if I want to terminate this agreement early?";
    "What fees or penalties might I be charged?";
    "What are the biggest risks I should be aware of?";
    "How can I protect myself when signing this?" ].

(** [type_questions.get(document_type, [])]. *)
Definition type_questions (document_type : string) : list string :=
  if String.eqb document_type "rental_agreement" then
    [ "What happens if I miss a rent payment?";
      "Can my landlord increase the rent?";
      "What is my security deposit used for?";
      "Who is responsible for repairs and maintenance?";
      "How much notice do I need to give before moving out?" ]
  else if String.eqb document_type "loan_contract" then
    [ "What is my total cost of borrowing?";
      "What happens if I miss a payment?";
      "Can I pay off the loan early?";
      "What collateral am I putting at risk?";
      "What are the default consequences?" ]
  else if String.eqb document_type "employment_contract" then
    [ "What are my working hours and overtime rules?";
      "What benefits am I entitled to?";
      "Can I work for competitors after leaving?";
      "What intellectual property rights do I retain?";
      "How can my employment be terminated?" ]
  else if String.eqb document_type "terms_of_service" then
    [ "What data do you collect about me?";
      "Can you change these terms without notice?";
      "What happens if I violate the terms?";
      "How do I delete my account and data?";
      "What are my rights in disputes?" ]
  else [].

(** [list(dict.fromkeys(l))]: the first occurrence of each string, in
    order. *)
Fixpoint dict_fromkeys (l : list string) : list string :=
  match l with
  | [] => []
  | x :: rest => x :: List.filter (fun y => negb (String.eqb x y)) (dict_fromkeys rest)
  end.

(** [questions.append(q)] under [if key in clause_types]. *)
Definition append_if (key : string) (clause_types : list string) (q : string)
    (questions : list string) : list string :=
  if existsb (String.eqb key) clause_types then (questions ++ [q])%list else questions.

Definition generate_suggested_questions
    (document_type : string) (clauses : list ClauseDict) : list string :=
  let questions := (base_questions ++ type_questions document_type)%list in
  let clause_types := map (fun clause => get_or (c_clause_type clause) "") clauses in
  let questions :=
    append_if "security_deposit" clause_types
      "When and how will I get my security deposit back?" questions in
  let questions :=
    append_if "non_compete" clause_types
      "What jobs am I restricted from taking after this ends?" questions in
  let questions :=
    append_if "data_sharing" clause_types
      "Who else will have access to my personal information?" questions in
  let questions :=
    append_if "limitation_liability" clause_types
      "What damages can I recover if something goes wrong?" questions in
  let unique_questions := dict_fromkeys questions in
  firstn 8 unique_questions.

Record SuggestedResponse : Type := mkSuggestedResponse {
  sg_document_id : string;
  sg_document_type : string;
  sg_suggested_questions : list string
}.

(** [GET /qa/suggested/{document_id}]: it only reads the store. *)
Definition get_suggested_questions
    (fs : Firestore) (document_id : string) (current_user : option string)
    : result SuggestedResponse :=
  match documents fs !! document_id with
  | None => Raise (HTTPException 404 "Document not found")
  | Some doc_data =>
      if access_denied current_user doc_data then
        Raise (HTTPException 403 "Access denied")
      else
        let document_type := get_or (d_document_type doc_data) "other" in
        Ok {| sg_document_id := document_id;
              sg_document_type := document_type;
              sg_suggested_questions :=
                generate_suggested_questions document_type (d_clauses doc_data) |}
  end.

End Suggestions.

(** ** api/document_ai.py: text of a layout *)

Module DocumentAI.

(** A text segment of a layout's text anchor; an unset index is 0. *)
Record TextSegment : Type := mkTextSegment {
  start_index : Z;
  end_index : Z
}.

(** An index of a slice brought into [0, len]: a negative one counts from
    the end. *)
Definition clamp_index (len i : Z) : Z :=
  if (i <? 0)%Z then Z.max (i + len) 0 else Z.min i len.

(** [s[a:b]]. *)
Definition str_slice (s : string) (a b : Z) : string :=
  let len := Z.of_nat (String.length s) in
  let a' := clamp_index len a in
  let b' := clamp_index len b in
  String.substring (Z.to_nat a') (Z.to_nat (b' - a')) s.

(** The text one segment adds: a start of 0 and an end of 0 are read as
    unset, the end then being the end of the document. *)
Definition segment_text (document_text : string) (segment : TextSegment) : string :=
  let start := if (start_index segment =? 0)%Z then 0%Z else start_index segment in
  let stop :=
    if (end_index segment =? 0)%Z then Z.of_nat (String.length document_text)
    else end_index segment in
  str_slice document_text start stop.

(** [get_text_from_layout] on the segments of the layout's text anchor (none
    when the anchor is unset or empty). *)
Definition get_text_from_layout (document_text : string) (text_segments : list TextSegment)
    : string :=
  fold_left (fun text segment => text ++ segment_text document_text segment)
            text_segments "".

End DocumentAI.

(** ** api/vertex_ai.py: the analysis stage *)

Module Analysis.
Import VertexAI.

(** The fields of a stored document that the analysis stage adds to those of
    [Document], and the file name its report reads; [None] is an absent
    key. They are kept beside the document, under the same id. *)
Record DocumentRest : Type := mkDocumentRest {
  x_file_name : option string;
  x_overall_risk : option string;
  x_summary : option json;
  x_key_findings : option json;
  x_analysis_timestamp : option Z
}.

Definition no_rest : DocumentRest :=
  {| x_file_name := None;
     x_overall_risk := None;
     x_summary := None;
     x_key_findings := None;
     x_analysis_timestamp := None |}.

Record AnalysisStore : Type := mkAnalysisStore {
  st_fs : Firestore;
  st_rest : gmap string DocumentRest
}.

Definition rest_of (st : AnalysisStore) (document_id : string) : DocumentRest :=
  match st_rest st !! document_id with
  | Some r => r
  | None => no_rest
  end.

(** A required field of a pydantic model. *)
Definition required {A : Type} (o : option A) : result A :=
  match o with
  | Some a => Ok a
  | None => Raise ValidationError
  end.

(** An enum field: a value that is no member's is a validation error. *)
Definition validated {A : Type} (r : result A) : result A :=
  match r with
  | Ok a => Ok a
  | Raise _ => Raise ValidationError
  end.

(** [ClauseAnalysis] built from the keys of a stored clause dict. *)
Definition parse_clause (clause : ClauseDict) : result ClauseAnalysis :=
  let! id := required (c_id clause) in
  let! clause_type := required (c_clause_type clause) in
  let! clause_type := validated (ClauseType.call clause_type) in
  let! original_text := required (c_original_text clause) in
  let! plain_language := required (c_plain_language clause) in
  let! risk_level := required (c_risk_level clause) in
  let! risk_level := validated (RiskLevel.call risk_level) in
  let! risk_reason := required (c_risk_reason clause) in
  Ok {| ca_id := id;
        ca_clause_type := clause_type;
        ca_original_text := original_text;
        ca_plain_language := plain_language;
        ca_risk_level := risk_level;
        ca_risk_reason := risk_reason;
        ca_recommendations := c_recommendations clause;
        ca_confidence_score := c_confidence_score clause |}.

(** The list comprehension over [clauses_data]. *)
Fixpoint parse_clauses (clauses_data : list ClauseDict) : result (list ClauseAnalysis) :=
  match clauses_data with
  | [] => Ok []
  | clause :: rest =>
      let! c := parse_clause clause in
      let! cs := parse_clauses rest in
      Ok (c :: cs)
  end.

(** [min] and [max] of a sequence of strings: the first item is kept unless
    a later one compares strictly smaller (greater); an empty sequence
    raises. *)
Fixpoint min_from (best : string) (l : list string) : string :=
  match l with
  | [] => best
  | x :: rest => min_from (if String.ltb x best then x else best) rest
  end.

Fixpoint max_from (best : string) (l : list string) : string :=
  match l with
  | [] => best
  | x :: rest => max_from (if String.ltb best x then x else best) rest
  end.

Definition py_min_str (l : list string) : result string :=
  match l with
  | [] => Raise ValueError
  | x :: rest => Ok (min_from x rest)
  end.

Definition py_max_str (l : list string) : result string :=
  match l with
  | [] => Raise ValueError
  | x :: rest => Ok (max_from x rest)
  end.

(** The line of the prompt for one clause. *)
Definition clause_summary (clause : ClauseAnalysis) : string :=
  "- " ++ ClauseType.value (ca_clause_type clause) ++ ": " ++ ca_plain_language clause
  ++ " (Risk: " ++ RiskLevel.value (ca_risk_level clause) ++ ")".

(** The dict [generate_summary_and_findings] returns: the two values are
    whatever the reply holds under the keys. *)
Record SummaryData : Type := mkSummaryData {
  sd_summary : json;
  sd_key_findings : json
}.

Record AnalyzeResponse : Type := mkAnalyzeResponse {
  ar_success : bool;
  ar_document_id : string;
  ar_message : string;
  ar_overall_risk : string;
  ar_summary : json;
  ar_key_findings : json;
  ar_clauses_analyzed : nat
}.

Record AnalysisResult : Type := mkAnalysisResult {
  res_document_id : string;
  res_file_name : string;
  res_document_type : string;
  res_overall_risk : string;
  res_summary : json;
  res_key_findings : json;
  res_clauses : list ClauseDict;
  res_processed_at : option Z;
  res_status : option string
}.

(** The update of the analysis endpoint on success, on the fields of
    [Document] and on the others. *)
Definition update_analyzed (ts : Z) (d : Document) : Document :=
  {| d_user_id := d_user_id d;
     d_processing_status := Some (ProcessingStatus.value ProcessingStatus.ANALYZED);
     d_raw_text := d_raw_text d;
     d_paragraphs := d_paragraphs d;
     d_document_type := d_document_type d;
     d_clauses := d_clauses d;
     d_knowledge_base_created := d_knowledge_base_created d;
     d_embeddings_count := d_embeddings_count d;
     d_error_message := d_error_message d;
     d_classification_timestamp := d_classification_timestamp d;
     d_updated_at := Some ts |}.

Definition rest_analyzed
    (overall_risk : string) (summary key_findings : json) (now : Z) (r : DocumentRest)
    : DocumentRest :=
  {| x_file_name := x_file_name r;
     x_overall_risk := Some overall_risk;
     x_summary := Some summary;
     x_key_findings := Some key_findings;
     x_analysis_timestamp := Some now |}.

(** [doc_ref.update] of fields of [Document] only. *)
Definition store_update (document_id : string) (f : Document -> Document)
    (st : AnalysisStore) : result AnalysisStore :=
  let! fs' := doc_update document_id f (st_fs st) in
  Ok {| st_fs := fs'; st_rest := st_rest st |}.

Section Stage.

(** [model.generate_content(prompt).text] for the summary prompt, as a
    function of the two interpolated values: the document type and the clause
    lines. *)
Variable generate_summary_text : string -> string -> result string.
Variable json_loads : string -> option json.
Variable server_timestamp utcnow : Z.
Variable str_of_exn : exn -> string.

Definition generate_summary_and_findings
    (clauses : list ClauseAnalysis) (document_type : string) : result SummaryData :=
  let! response_text :=
    generate_summary_text (QA.replace_underscore document_type)
                          (QA.join_lines (map clause_summary clauses)) in
  match json_loads response_text with
  | Some result =>
      let! summary :=
        dict_get result "summary"
                 (JStr "This document contains legal terms that require review.") in
      let! key_findings :=
        dict_get result "key_findings" (JArr [JStr "Document requires legal review"]) in
      Ok {| sd_summary := summary; sd_key_findings := key_findings |}
  | None =>
      let levels := map (fun c => RiskLevel.value (ca_risk_level c)) clauses in
      let! lowest := py_min_str levels in
      let! highest := py_max_str levels in
      Ok {| sd_summary :=
              JStr ("This " ++ QA.replace_underscore document_type
                    ++ " contains multiple clauses with varying risk levels that require careful consideration.");
            sd_key_findings :=
              JArr [ JStr ("Document contains " ++ str_of_nat (length clauses)
                           ++ " distinct clauses");
                     JStr ("Risk levels range from " ++ lowest ++ " to " ++ highest);
                     JStr "Professional legal review recommended" ] |}
  end.

(** The [try] body of [analyze_document]. *)
Definition analyze_document_body
    (st : AnalysisStore) (document_id : string) (current_user : option string)
    : result AnalyzeResponse * AnalysisStore :=
  match documents (st_fs st) !! document_id with
  | None => (Raise (HTTPException 404 "Document not found"), st)
  | Some doc_data =>
      if access_denied current_user doc_data then
        (Raise (HTTPException 403 "Access denied"), st)
      else if negb (bool_decide (d_processing_status doc_data
                      = Some (ProcessingStatus.value ProcessingStatus.CLASSIFIED))) then
        (Raise (HTTPException 400 "Document must complete clause classification first"),
         st)
      else
        match store_update document_id (update_processing server_timestamp) st with
        | Raise e => (Raise e, st)
        | Ok st1 =>
            match parse_clauses (d_clauses doc_data) with
            | Raise e => (Raise e, st1)
            | Ok [] => (Raise (HTTPException 400 "No clauses found in document"), st1)
            | Ok clauses =>
                match generate_summary_and_findings
                        clauses (get_or (d_document_type doc_data) "other") with
                | Raise e => (Raise e, st1)
                | Ok summary_data =>
                    match calculate_overall_risk clauses with
                    | Raise e => (Raise e, st1)
                    | Ok overall_risk =>
                        match doc_update document_id (update_analyzed server_timestamp)
                                         (st_fs st1) with
                        | Raise e => (Raise e, st1)
                        | Ok fs2 =>
                            (Ok {| ar_success := true;
                                   ar_document_id := document_id;
                                   ar_message := "Document analysis completed successfully";
                                   ar_overall_risk := overall_risk;
                                   ar_summary := sd_summary summary_data;
                                   ar_key_findings := sd_key_findings summary_data;
                                   ar_clauses_analyzed := length clauses |},
                             {| st_fs := fs2;
                                st_rest :=
                                  <[document_id :=
                                      rest_analyzed overall_risk (sd_summary summary_data)
                                        (sd_key_findings summary_data) utcnow
                                        (rest_of st1 document_id)]>
                                    (st_rest st1) |})
                        end
                    end
                end
            end
        end
  end.

(** [POST /analyze]: as in the classification endpoint, both handlers record
    the failure on the document before they raise. *)
Definition analyze_document
    (st : AnalysisStore) (document_id : string) (current_user : option string)
    : result AnalyzeResponse * AnalysisStore :=
  match analyze_document_body st document_id current_user with
  | (Ok response, st') => (Ok response, st')
  | (Raise e, st') =>
      let error_message :=
        if is_http e then "Document analysis failed" else str_of_exn e in
      match store_update document_id (update_failed error_message server_timestamp) st' with
      | Raise e' => (Raise e', st')
      | Ok st'' =>
          if is_http e then (Raise e, st'')
          else (Raise (HTTPException 500 ("Document analysis failed: " ++ str_of_exn e)),
                st'')
      end
  end.

(** [GET /analysis/{document_id}]: it only reads the store. *)
Definition get_analysis_result
    (st : AnalysisStore) (document_id : string) (current_user : option string)
    : result AnalysisResult :=
  match documents (st_fs st) !! document_id with
  | None => Raise (HTTPException 404 "Document not found")
  | Some doc_data =>
      if access_denied current_user doc_data then
        Raise (HTTPException 403 "Access denied")
      else if negb (bool_decide (d_processing_status doc_data
                                 = Some (ProcessingStatus.value ProcessingStatus.ANALYZED))
                    || bool_decide (d_processing_status doc_data
                                    = Some (ProcessingStatus.value ProcessingStatus.COMPLETE)))
      then Raise (HTTPException 404 "Analysis not complete. Process the document first.")
      else
        match parse_clauses (d_clauses doc_data) with
        | Raise e =>
            Raise (HTTPException 500 ("Failed to get analysis result: " ++ str_of_exn e))
        | Ok clauses =>
            let rest := rest_of st document_id in
            Ok {| res_document_id := document_id;
                  res_file_name := get_or (x_file_name rest) "";
                  res_document_type := get_or (d_document_type doc_data) "other";
                  res_overall_risk := get_or (x_overall_risk rest) "medium";
                  res_summary := get_or (x_summary rest) (JStr "");
                  res_key_findings := get_or (x_key_findings rest) (JArr []);
                  res_clauses := map clause_dict clauses;
                  res_processed_at := x_analysis_timestamp rest;
                  res_status := d_processing_status doc_data |}
        end
  end.

End Stage.

End Analysis.

Module CorpusVocabulary.
Import QA.

(** Relevance never increases along the list. *)
Definition by_relevance (l : list LegalResult) : Prop :=
  StronglySorted
    (fun a b => (l_relevance_score b <=? l_relevance_score a)%float = true) l.

(** An entry of the mock table whose keyword occurred in the query: its
    score is at least 0.8 (the others are at most 0.4). *)
Definition matched (x : LegalResult) : bool := (0.8 <=? l_relevance_score x)%float.

End CorpusVocabulary.

Module SuggestionsVocabulary.

(** Some clause of the list has the given type. *)
Definition mentions (key : string) (clauses : list ClauseDict) : bool :=
  existsb (String.eqb key) (map (fun clause => get_or (c_clause_type clause) "") clauses).

(** The question a clause type adds, when a clause has it. *)
Definition clause_question (key q : string) (clauses : list ClauseDict) : list string :=
  if mentions key clauses then [q] else [].

Definition clause_with_type (ty : string) : ClauseDict :=
  {| c_id := Some "clause_1";
     c_clause_type := Some ty;
     c_original_text := Some "text";
     c_plain_language := Some "plain";
     c_risk_level := Some "low";
     c_risk_reason := Some "reason";
     c_recommendations := [];
     c_confidence_score := Some 0.8%float |}.

End SuggestionsVocabulary.

Module LayoutVocabulary.
Import DocumentAI.

(** The pieces put together. *)
Definition join (pieces : list string) : string := fold_right String.append "" pieces.

(** The segments that cut a text into the given pieces, one after the other
    from [offset]. *)
Fixpoint tiling (offset : Z) (pieces : list string) : list TextSegment :=
  match pieces with
  | [] => []
  | p :: rest =>
      {| start_index := offset;
         end_index := offset + Z.of_nat (String.length p) |}
      :: tiling (offset + Z.of_nat (String.length p)) rest
  end.

End LayoutVocabulary.

Module ClassifierVocabulary.

(** The bounds the classifier puts on a clause it returns. *)
Definition within_bounds (c : ClauseAnalysis) : Prop :=
  String.length (ca_original_text c) <= 2000
  /\ String.length (ca_plain_language c) <= 500
  /\ String.length (ca_risk_reason c) <= 300
  /\ length (ca_recommendations c) <= 3
  /\ ca_confidence_score c = Some 0.8%float.

(** The ids ["clause_1"], ["clause_2"], ... of [n] clauses. *)
Definition clause_ids (n : nat) : list string :=
  map (fun i => "clause_" ++ str_of_nat (i + 1)) (seq 0 n).

(** A document ready for classification, owned by ["alice"]. *)
Definition ocr_document : Document :=
  {| d_user_id := Some "alice";
     d_processing_status := Some (ProcessingStatus.value ProcessingStatus.OCR_COMPLETE);
     d_raw_text := "Tenant shall pay rent monthly.";
     d_paragraphs := [];
     d_document_type := None;
     d_clauses := [];
     d_knowledge_base_created := false;
     d_embeddings_count := None;
     d_error_message := None;
     d_classification_timestamp := None;
     d_updated_at := Some 10%Z |}.

Definition ocr_store : Firestore :=
  {| documents := {[ "doc1" := ocr_document ]};
     embeddings := [];
     qa_history := [] |}.

(** A model that names the document type and then replies with the listed
    sample. *)
Definition listed_model (p : Prompt) : result string :=
  match p with
  | DocumentTypePrompt _ => Ok "rental_agreement"
  | _ => Ok "listed"
  end.

End ClassifierVocabulary.

Module AnalysisVocabulary.
Import VertexAI Analysis.

(** The least and the greatest of the values "high", "low", "medium" of a
    list of risk levels in the order of strings. *)
Definition is_level (r : RiskLevel.t) (c : ClauseAnalysis) : bool :=
  match r, ca_risk_level c with
  | RiskLevel.HIGH, RiskLevel.HIGH
  | RiskLevel.MEDIUM, RiskLevel.MEDIUM
  | RiskLevel.LOW, RiskLevel.LOW => true
  | _, _ => false
  end.

Definition first_level (clauses : list ClauseAnalysis) : string :=
  if existsb (is_level RiskLevel.HIGH) clauses then "high"
  else if existsb (is_level RiskLevel.LOW) clauses then "low"
  else "medium".

Definition last_level (clauses : list ClauseAnalysis) : string :=
  if existsb (is_level RiskLevel.MEDIUM) clauses then "medium"
  else if existsb (is_level RiskLevel.LOW) clauses then "low"
  else "high".

(** The outcome of a stage recorded on a document: its status, with the
    clauses, the text and the owner as they were. *)
Definition recorded (status : string) (doc_data doc_data' : Document) : Prop :=
  d_processing_status doc_data' = Some status
  /\ d_clauses doc_data' = d_clauses doc_data
  /\ d_raw_text doc_data' = d_raw_text doc_data
  /\ d_document_type doc_data' = d_document_type doc_data
  /\ d_user_id doc_data' = d_user_id doc_data.

(** Nothing but the document [document_id] differs between two stores. *)
Definition only_document (document_id : string) (fs fs' : Firestore) : Prop :=
  (forall other, other <> document_id -> documents fs' !! other = documents fs !! other)
  /\ embeddings fs' = embeddings fs
  /\ qa_history fs' = qa_history fs.

(** A classified document with a high-risk and a low-risk clause. *)
Definition high_clause : ClauseAnalysis :=
  {| ca_id := "clause_1";
     ca_clause_type := ClauseType.TERMINATION;
     ca_original_text := "Landlord may terminate at any time.";
     ca_plain_language := "The landlord can end the lease whenever they like.";
     ca_risk_level := RiskLevel.HIGH;
     ca_risk_reason := "One-sided.";
     ca_recommendations := ["Ask for a notice period"];
     ca_confidence_score := Some 0.8%float |}.

Definition low_clause : ClauseAnalysis :=
  {| ca_id := "clause_2";
     ca_clause_type := ClauseType.PAYMENT_TERMS;
     ca_original_text := "Tenant shall pay rent monthly.";
     ca_plain_language := "You pay rent every month.";
     ca_risk_level := RiskLevel.LOW;
     ca_risk_reason := "Standard term.";
     ca_recommendations := [];
     ca_confidence_score := Some 0.8%float |}.

Definition classified_document : Document :=
  {| d_user_id := Some "alice";
     d_processing_status := Some (ProcessingStatus.value ProcessingStatus.CLASSIFIED);
     d_raw_text := "Landlord may terminate at any time. Tenant shall pay rent monthly.";
     d_paragraphs := [];
     d_document_type := Some "rental_agreement";
     d_clauses := map clause_dict [high_clause; low_clause];
     d_knowledge_base_created := false;
     d_embeddings_count := None;
     d_error_message := None;
     d_classification_timestamp := Some 21%Z;
     d_updated_at := Some 20%Z |}.

Definition classified_store : AnalysisStore :=
  {| st_fs := {| documents := {[ "doc1" := classified_document ]};
                 embeddings := [];
                 qa_history := [] |};
     st_rest := ∅ |}.

(** A model whose summary reply is not JSON. *)
Definition prose_model (_ _ : string) : result string := Ok "A lease.".
Definition no_loads (_ : string) : option json := None.

End AnalysisVocabulary.

Module KnowledgeBaseVocabulary.
Import Rag.

(** The chunks whose embedding call succeeds. *)
Definition embeds (get_embeddings : string -> result (list float)) (chunk : Chunk) : bool :=
  match get_embeddings (chunk_text chunk) with
  | Ok _ => true
  | Raise _ => false
  end.

(** The chunks the build makes of a stored document. *)
Definition chunks_of (doc_data : Document) : list Chunk :=
  create_text_chunks (d_raw_text doc_data) (d_paragraphs doc_data) (d_clauses doc_data).

(** A client that embeds nothing. *)
Definition failing_embedding (_ : string) : result (list float) :=
  Raise (ServiceError "quota exceeded").

End KnowledgeBaseVocabulary.

Module QAVocabulary.
Import QA.

(** The two answers [generate_answer] falls back to. *)
Definition unparsed_answer : string :=
  "I found some relevant information in your document, but I'm having trouble providing a detailed analysis right now. Please try rephrasing your question or consult the document clauses directly."
  ++ nl ++ nl ++ disclaimer_sentence.

Definition failed_answer (document_type : string) : string :=
  "I encountered an issue while analyzing your question. The document appears to be a "
  ++ replace_underscore document_type
  ++ ", but I cannot provide a specific answer at this time. Please review the document directly or consult with a legal professional."
  ++ nl ++ nl ++ disclaimer_sentence.

(** The record [answer_question] adds to the history for a response. *)
Definition history_record (request : QARequest) (response : QAResponse) (timestamp : Z)
    : QARecord :=
  {| q_document_id := rq_document_id request;
     q_user_id := rq_user_id request;
     q_question := rq_question request;
     q_answer := rs_answer response;
     q_confidence := rs_confidence response;
     q_sources := rs_sources response;
     q_response_time_ms := rs_response_time_ms response;
     q_timestamp := timestamp |}.

(** A well-formed reply of the model, as parsed. *)
Definition plain_reply : json :=
  JObj [ ("answer", JStr "Yes, with 30 days notice.");
         ("confidence", JFloat 0.85%float);
         ("reasoning", JStr "Clause 4.");
         ("limitations", JStr "None.") ].

Definition plain_loads (_ : string) : option json := Some plain_reply.
Definition prose_answer_model (_ : Prompt) : result string := Ok "Sorry, I cannot help.".
Definition no_results (_ : string) (_ : Z) : result (list LegalResult) := Ok [].
Definition no_discovery (_ : string) (_ : Z) : result (list LegalCorpus.DiscoveryHit) :=
  Raise (ServiceError "unavailable").

Definition lease_question : QARequest :=
  {| rq_document_id := "doc1";
     rq_question := "Can I end the lease early?";
     rq_user_id := Some "alice" |}.

End QAVocabulary.

(** * Properties *)

(** ** Strings and slices *)

Module PyFacts.

Lemma slice_to_substring (n : nat) (s : string) :
  slice_to n s = String.substring 0 n s.
Proof.
  revert n; induction s as [|c s IH]; intros [|n]; simpl; try reflexivity.
  now rewrite IH.
Qed.

Lemma length_slice_to (n : nat) (s : string) :
  String.length (slice_to n s) = Nat.min n (String.length s).
Proof.
  revert n; induction s as [|c s IH]; intros [|n]; simpl; try reflexivity.
  now rewrite IH.
Qed.

Lemma append_nil (t : string) : "" ++ t = t.
Proof. reflexivity. Qed.

Lemma append_cons (c : ascii) (s t : string) : String c s ++ t = String c (s ++ t).
Proof. reflexivity. Qed.

Lemma slice_to_prefix (n : nat) (s : string) :
  exists rest, s = slice_to n s ++ rest.
Proof.
  revert n; induction s as [|c s IH]; intros [|n]; simpl.
  - now exists "".
  - now exists "".
  - now exists (String c s).
  - destruct (IH n) as [rest Hrest]. exists rest.
    rewrite append_cons. now f_equal.
Qed.

Lemma length_append (s t : string) :
  String.length (s ++ t) = String.length s + String.length t.
Proof.
  induction s as [|c s IH]; [reflexivity|].
  rewrite append_cons. simpl. now rewrite IH.
Qed.

Lemma prefix_append (sub rest : string) : String.prefix sub (sub ++ rest) = true.
Proof.
  induction sub as [|c sub IH].
  - rewrite append_nil. now destruct rest.
  - rewrite append_cons. simpl.
    destruct (ascii_dec c c) as [_|Hne]; [exact IH | now elim Hne].
Qed.

Lemma contains_unfold (sub s : string) :
  contains sub s
  = if String.prefix sub s then true
    else match s with
         | EmptyString => false
         | String _ s' => contains sub s'
         end.
Proof. destruct s; reflexivity. Qed.

Lemma contains_prefix (sub rest : string) : contains sub (sub ++ rest) = true.
Proof. now rewrite contains_unfold, prefix_append. Qed.

Lemma contains_append_r (sub a b : string) :
  contains sub b = true -> contains sub (a ++ b) = true.
Proof.
  intros Hb. induction a as [|c a IH].
  - exact Hb.
  - rewrite append_cons, contains_unfold.
    destruct (String.prefix sub (String c (a ++ b))); [reflexivity | exact IH].
Qed.

Lemma length_list_slice_to {A : Type} (k : Z) (l : list A) :
  (0 <= k)%Z -> length (list_slice_to k l) = Nat.min (Z.to_nat k) (length l).
Proof.
  intros Hk. unfold list_slice_to.
  destruct (Z.leb_spec 0 k) as [_|Hneg]; [apply length_firstn | lia].
Qed.

Lemma in_firstn {A : Type} (n : nat) (l : list A) (x : A) :
  In x (firstn n l) -> In x l.
Proof.
  intros Hin. rewrite <- (firstn_skipn n l). apply in_or_app. now left.
Qed.

End PyFacts.

(** ** The chunker *)

Module ChunkerSpec.
Import Rag PyFacts ChunkerVocabulary ChunkerSamples.

Lemma count_type_app (ty : string) (l1 l2 : list Chunk) :
  count_type ty (l1 ++ l2) = count_type ty l1 + count_type ty l2.
Proof. unfold count_type. now rewrite List.filter_app, length_app. Qed.

Lemma count_type_uniform (ty kind : string) (chunks : list Chunk) :
  Forall (fun c => chunk_type c = kind) chunks ->
  count_type ty chunks = if String.eqb kind ty then length chunks else 0.
Proof.
  unfold count_type.
  remember (String.eqb kind ty) as b eqn:Hb.
  induction 1 as [|c out Hty _ IH].
  - now destruct b.
  - cbn [List.filter]. rewrite Hty, <- Hb.
    destruct b; simpl; [now f_equal | exact IH].
Qed.

Lemma count_type_clause_chunks (ty : string) (clauses : list ClauseDict) :
  count_type ty (map clause_chunk clauses)
  = if String.eqb "clause" ty then length clauses else 0.
Proof.
  rewrite (count_type_uniform ty "clause"), length_map; [reflexivity|].
  induction clauses; constructor; [reflexivity | assumption].
Qed.

(** The paragraph loop, whatever index the enumeration starts from. *)
Lemma paragraph_loop_from (start : nat) (ps : list Paragraph) :
  let out := flat_map paragraph_chunk (combine (seq start (length ps)) ps) in
  length out = length (List.filter substantial ps)
  /\ Forall (fun c => chunk_type c = "paragraph"
                      /\ (100 < String.length (chunk_text c))%nat) out.
Proof.
  revert start; induction ps as [|p ps IH]; intros start; simpl.
  - split; [reflexivity | constructor].
  - destruct (IH (S start)) as [Hlen Hall].
    unfold substantial at 1.
    destruct (Nat.ltb_spec 100 (String.length (get_or (p_text p) ""))) as [Hlong|Hshort];
      simpl.
    + split; [now rewrite Hlen | constructor; [split; [reflexivity | exact Hlong] | exact Hall]].
    + split; assumption.
Qed.

Lemma count_type_paragraph_chunks (ty : string) (ps : list Paragraph) :
  count_type ty (flat_map paragraph_chunk (enumerate ps))
  = if String.eqb "paragraph" ty then length (List.filter substantial ps) else 0.
Proof.
  destruct (paragraph_loop_from 0 ps) as [Hlen Hall].
  unfold enumerate. rewrite <- Hlen.
  apply count_type_uniform.
  eapply List.Forall_impl; [|exact Hall]. now intros c [Hty _].
Qed.

(** What the chunker returns, as one list. *)
Lemma create_text_chunks_eq
    (raw_text : string) (paragraphs : list Paragraph) (clauses : list ClauseDict) :
  create_text_chunks raw_text paragraphs clauses
  = full_document_chunk raw_text
    :: map clause_chunk clauses
    ++ flat_map paragraph_chunk (enumerate (firstn 10 paragraphs)).
Proof.
  unfold create_text_chunks.
  destruct paragraphs as [|p ps]; simpl; [now rewrite app_nil_r | reflexivity].
Qed.

Lemma length_create_text_chunks
    (raw_text : string) (paragraphs : list Paragraph) (clauses : list ClauseDict) :
  length (create_text_chunks raw_text paragraphs clauses)
  = 1 + length clauses + length (List.filter substantial (firstn 10 paragraphs)).
Proof.
  rewrite create_text_chunks_eq. simpl. rewrite length_app, length_map.
  unfold enumerate.
  destruct (paragraph_loop_from 0 (firstn 10 paragraphs)) as [Hlen _].
  rewrite Hlen. lia.
Qed.

Lemma length_filter_le {A : Type} (f : A -> bool) (l : list A) :
  length (List.filter f l) <= length l.
Proof.
  induction l as [|x l IH]; simpl; [lia | destruct (f x); simpl; lia].
Qed.

(** [C8] For every raw text, paragraph list and clause list the chunker
    returns at least one chunk; the first is the full-document chunk, whose
    text is the first 2000 characters of the raw text, and it is the only
    chunk of its kind; with no clauses and no paragraphs it is the whole
    result. The clause chunks are exactly as many as the input clauses and
    the paragraph chunks are never more than 10. *)
Theorem create_text_chunks_shape
    (raw_text : string) (paragraphs : list Paragraph) (clauses : list ClauseDict) :
  let chunks := create_text_chunks raw_text paragraphs clauses in
  1 <= length chunks
  /\ (exists first rest,
        chunks = first :: rest
        /\ chunk_type first = "document"
        /\ chunk_metadata first = MetaFullDocument (String.length raw_text)
        /\ chunk_text first = String.substring 0 2000 raw_text
        /\ String.length (chunk_text first) = Nat.min 2000 (String.length raw_text))
  /\ count_type "document" chunks = 1
  /\ create_text_chunks raw_text [] [] = [full_document_chunk raw_text]
  /\ count_type "clause" chunks = length clauses
  /\ count_type "paragraph" chunks <= 10.
Proof.
  cbv zeta. rewrite create_text_chunks_eq.
  change (full_document_chunk raw_text :: ?l) with ([full_document_chunk raw_text] ++ l)%list.
  rewrite !count_type_app, !count_type_clause_chunks, !count_type_paragraph_chunks.
  split; [rewrite length_app; simpl; lia|].
  split.
  { eexists _, _. split; [reflexivity|].
    unfold full_document_chunk; cbn [chunk_type chunk_text chunk_metadata].
    rewrite <- slice_to_substring.
    split; [reflexivity|]. split; [reflexivity|]. split; [reflexivity|].
    apply length_slice_to. }
  split; [reflexivity|].
  split; [reflexivity|].
  split; [unfold count_type; simpl; lia|].
  pose proof (length_filter_le substantial (firstn 10 paragraphs)) as Hle.
  pose proof (firstn_le_length 10 paragraphs) as Hfirst.
  change (count_type "paragraph" [full_document_chunk raw_text]) with 0.
  simpl. lia.
Qed.

End ChunkerSpec.

Module ChunkerCorrections.
Import Rag PyFacts ChunkerVocabulary ChunkerSamples ChunkerSpec.

Lemma clause_chunk_text_nonempty (clause : ClauseDict) : clause_chunk_text clause <> "".
Proof. unfold clause_chunk_text. rewrite append_cons. discriminate. Qed.

(** [C9, as stated] Some input gives a chunk with empty text: on the empty
    raw text the full-document chunk is empty. *)
Lemma empty_raw_text_empty_chunk :
  ~ (forall raw_text paragraphs clauses,
        Forall (fun c => chunk_text c <> "")
               (create_text_chunks raw_text paragraphs clauses)).
Proof.
  intros H. specialize (H "" [] []).
  inversion H as [|c l Hc _]; subst. now apply Hc.
Qed.

(** [C9, amended] For every non-empty raw text (the only caller,
    [create_knowledge_base], answers 400 on an empty one before it calls the
    chunker) and all paragraph and clause lists, no chunk has empty text. *)
Theorem chunk_texts_nonempty
    (raw_text : string) (paragraphs : list Paragraph) (clauses : list ClauseDict) :
  raw_text <> "" ->
  Forall (fun c => chunk_text c <> "") (create_text_chunks raw_text paragraphs clauses).
Proof.
  intros Hraw. rewrite create_text_chunks_eq.
  constructor.
  - destruct raw_text as [|c s]; [now elim Hraw | discriminate].
  - apply Forall_app; split.
    + induction clauses as [|c cs IH]; constructor;
        [apply clause_chunk_text_nonempty | exact IH].
    + destruct (paragraph_loop_from 0 (firstn 10 paragraphs)) as [_ Hall].
      eapply List.Forall_impl; [|exact Hall].
      intros c [_ Hlen] Hempty. rewrite Hempty in Hlen. simpl in Hlen. lia.
Qed.

Lemma chunk_texts_nonempty_witness :
  Forall (fun c => chunk_text c <> "") (create_text_chunks "Lease" short_last three_clauses).
Proof. apply (chunk_texts_nonempty "Lease" short_last three_clauses). discriminate. Defined.

(** The guard of the caller: an empty raw text is refused and nothing is
    stored. *)
Lemma create_knowledge_base_empty_text
    (get_embeddings : string -> result (list float)) (ts : Z)
    (fs : Firestore) (document_id : string) (current_user : option string)
    (doc_data : Document) :
  documents fs !! document_id = Some doc_data ->
  access_denied current_user doc_data = false ->
  d_raw_text doc_data = "" ->
  create_knowledge_base get_embeddings ts fs document_id current_user
  = (Raise (HTTPException 400 "No text found in document"), fs).
Proof.
  intros Hdoc Hacc Hraw. unfold create_knowledge_base.
  now rewrite Hdoc, Hacc, Hraw.
Qed.

Lemma filter_partition_length {A : Type} (f : A -> bool) (l : list A) :
  length (List.filter f l) + length (List.filter (fun x => negb (f x)) l) = length l.
Proof.
  induction l as [|x l IH]; simpl; [reflexivity | destruct (f x); simpl; lia].
Qed.

Lemma filter_negb_nil_iff {A : Type} (f : A -> bool) (l : list A) :
  length (List.filter (fun x => negb (f x)) l) = 0 <-> Forall (fun x => f x = true) l.
Proof.
  induction l as [|x l IH]; simpl.
  - split; [constructor | reflexivity].
  - destruct (f x) eqn:Hx; simpl.
    + rewrite IH. split; [now constructor | now inversion 1].
    + split; [discriminate | inversion 1; congruence].
Qed.

(** [C3, as stated] A document with 3 clauses and 12 paragraphs, 2 of them
    of at most 100 characters, need not give 14 chunks: when the two short
    paragraphs come first the chunker returns 12. *)
Lemma short_paragraphs_first_twelve_chunks :
  ~ (forall raw_text paragraphs clauses,
        length clauses = 3 ->
        length paragraphs = 12 ->
        length (List.filter (fun p => negb (substantial p)) paragraphs) = 2 ->
        length (create_text_chunks raw_text paragraphs clauses) = 14).
Proof.
  intros H.
  specialize (H "Lease agreement" short_first three_clauses
                eq_refl eq_refl eq_refl).
  vm_compute in H. discriminate H.
Qed.

(** [C3, amended] For a document with 3 clauses and 12 paragraphs of which 2
    have at most 100 characters, the chunker returns 1 full-document chunk, 3
    clause chunks and one paragraph chunk for each of the FIRST 10 paragraphs
    that has more than 100 characters: the first 10 are taken before the short
    ones are dropped. That is between 12 and 14 chunks, and 14 exactly when
    both short paragraphs are the last two. *)
Theorem scenario_chunk_count
    (raw_text : string) (paragraphs : list Paragraph) (clauses : list ClauseDict) :
  length clauses = 3 ->
  length paragraphs = 12 ->
  length (List.filter (fun p => negb (substantial p)) paragraphs) = 2 ->
  let n := length (create_text_chunks raw_text paragraphs clauses) in
  n = 1 + 3 + length (List.filter substantial (firstn 10 paragraphs))
  /\ 12 <= n <= 14
  /\ (n = 14 <-> Forall (fun p => substantial p = true) (firstn 10 paragraphs)).
Proof.
  intros Hc Hp Hshort. cbv zeta.
  rewrite length_create_text_chunks, Hc.
  pose proof (filter_partition_length substantial (firstn 10 paragraphs)) as Hpart.
  rewrite length_firstn, Hp in Hpart.
  rewrite <- (firstn_skipn 10 paragraphs), List.filter_app, length_app in Hshort.
  rewrite <- filter_negb_nil_iff.
  change (Nat.min 10 12) with 10 in Hpart.
  repeat split; lia.
Qed.

Lemma scenario_chunk_count_witness :
  let n := length (create_text_chunks "Lease agreement" short_last three_clauses) in
  n = 1 + 3 + length (List.filter substantial (firstn 10 short_last))
  /\ 12 <= n <= 14
  /\ (n = 14 <-> Forall (fun p => substantial p = true) (firstn 10 short_last)).
Proof.
  apply (scenario_chunk_count "Lease agreement" short_last three_clauses);
    reflexivity.
Defined.

End ChunkerCorrections.

(** ** The knowledge-base build *)

Module KnowledgeBaseSpec.
Import Rag.

Section Build.

Variable get_embeddings : string -> result (list float).
Variable server_timestamp : Z.

Lemma length_enumerate {A : Type} (l : list A) : length (enumerate l) = length l.
Proof. unfold enumerate. rewrite length_combine, length_seq. lia. Qed.

(** When every embedding call succeeds, every chunk is embedded. *)
Lemma length_embed_chunks (document_id : string) (ichunks : list (nat * Chunk)) :
  (forall text, exists v, get_embeddings text = Ok v) ->
  length (embed_chunks get_embeddings server_timestamp document_id ichunks)
  = length ichunks.
Proof.
  intros Hall. induction ichunks as [|[i chunk] rest IH]; [reflexivity|].
  cbn [embed_chunks]. destruct (Hall (chunk_text chunk)) as [v ->].
  simpl. now rewrite IH.
Qed.

(** The count the endpoint reports is then the number of chunks. *)
Lemma create_knowledge_base_count
    (fs : Firestore) (document_id : string) (current_user : option string)
    (doc_data : Document) :
  documents fs !! document_id = Some doc_data ->
  access_denied current_user doc_data = false ->
  d_raw_text doc_data <> "" ->
  (forall text, exists v, get_embeddings text = Ok v) ->
  exists response,
    fst (create_knowledge_base get_embeddings server_timestamp fs document_id
                               current_user)
    = Ok response
    /\ kb_chunks_created response
       = length (create_text_chunks (d_raw_text doc_data) (d_paragraphs doc_data)
                                    (d_clauses doc_data)).
Proof.
  intros Hdoc Hacc Hraw Hall. unfold create_knowledge_base.
  rewrite Hdoc, Hacc. apply String.eqb_neq in Hraw. rewrite Hraw.
  eexists. split; [reflexivity|]. cbn [kb_chunks_created].
  now rewrite length_embed_chunks, length_enumerate.
Qed.

(** As soon as one chunk is embedded, the build leaves the [documents]
    collection as it was: the knowledge-base flag of the document is not
    set. *)
Lemma create_knowledge_base_documents
    (fs : Firestore) (document_id : string) (current_user : option string)
    (doc_data : Document) :
  documents fs !! document_id = Some doc_data ->
  access_denied current_user doc_data = false ->
  d_raw_text doc_data <> "" ->
  (exists v, get_embeddings (slice_to 2000 (d_raw_text doc_data)) = Ok v) ->
  documents (snd (create_knowledge_base get_embeddings server_timestamp fs document_id
                                        current_user))
  = documents fs.
Proof.
  intros Hdoc Hacc Hraw [v Hv]. unfold create_knowledge_base.
  rewrite Hdoc, Hacc. apply String.eqb_neq in Hraw. rewrite Hraw.
  cbn [snd]. rewrite ChunkerSpec.create_text_chunks_eq.
  unfold enumerate. cbn [length seq combine embed_chunks full_document_chunk chunk_text].
  rewrite Hv.
  match goal with
  | |- context [rev (?e :: ?l)] =>
      destruct (rev (e :: l)) eqn:Hrev; [|reflexivity];
      apply (f_equal (@length _)) in Hrev; rewrite length_rev in Hrev;
      discriminate Hrev
  end.
Qed.

End Build.

End KnowledgeBaseSpec.

(** ** The overall risk *)

Module RiskSpec.
Import VertexAI RiskVocabulary RiskSamples.

Lemma sum_scores_total (clauses : list ClauseAnalysis) :
  sum_scores clauses = Ok (total_score clauses).
Proof.
  induction clauses as [|c cs IH]; [reflexivity|].
  cbn [sum_scores]. rewrite IH.
  unfold total_score; cbn [map fold_right].
  now destruct (ca_risk_level c).
Qed.

(** [C10] [calculate_overall_risk] returns on every clause list, and what it
    returns is one of "high", "medium", "low". It is "medium" on the empty
    list; otherwise, with high scored 3, medium 2 and low 1, it is "high"
    exactly when the average score is at least 2.5, "medium" exactly when the
    average is at least 1.5 and below 2.5, and "low" exactly when it is below
    1.5. *)
Theorem calculate_overall_risk_spec (clauses : list ClauseAnalysis) :
  exists r,
    calculate_overall_risk clauses = Ok r
    /\ (r = "high" \/ r = "medium" \/ r = "low")
    /\ (clauses = [] -> r = "medium")
    /\ (clauses <> [] ->
        (r = "high" <-> (5 # 2 <= average_score clauses)%Q)
        /\ (r = "medium" <->
            (3 # 2 <= average_score clauses)%Q /\ (average_score clauses < 5 # 2)%Q)
        /\ (r = "low" <-> (average_score clauses < 3 # 2)%Q)).
Proof.
  destruct clauses as [|c cs].
  - exists "medium".
    split; [reflexivity|]. split; [auto|]. split; [reflexivity|].
    intros Hne. now elim Hne.
  - unfold calculate_overall_risk. rewrite sum_scores_total. cbn [bind].
    fold (average_score (c :: cs)).
    set (avg := average_score (c :: cs)).
    destruct (Qle_bool (5 # 2) avg) eqn:Hhigh.
    + exists "high". apply Qle_bool_iff in Hhigh.
      split; [reflexivity|]. split; [auto|]. split; [discriminate|].
      intros _. repeat split; try discriminate; try easy.
      * intros [_ Hlt]. now apply Qlt_not_le in Hlt.
      * intros Hlt. exfalso. apply (Qlt_not_le _ _ Hlt).
        apply Qle_trans with (5 # 2)%Q; [discriminate | exact Hhigh].
    + assert (Hnothigh : (avg < 5 # 2)%Q).
      { apply Qnot_le_lt. intros Hle. apply Qle_bool_iff in Hle. congruence. }
      destruct (Qle_bool (3 # 2) avg) eqn:Hmed.
      * exists "medium". apply Qle_bool_iff in Hmed.
        split; [reflexivity|]. split; [auto|]. split; [discriminate|].
        intros _. repeat split; try discriminate; try easy.
        -- intros Hle. now apply Qlt_not_le in Hnothigh.
        -- intros Hlt. now apply Qlt_not_le in Hlt.
      * assert (Hlow : (avg < 3 # 2)%Q).
        { apply Qnot_le_lt. intros Hle. apply Qle_bool_iff in Hle. congruence. }
        exists "low".
        split; [reflexivity|]. split; [auto|]. split; [discriminate|].
        intros _. repeat split; try discriminate; try easy.
        -- intros Hle. now apply Qlt_not_le in Hnothigh.
        -- intros [Hle _]. now apply Qlt_not_le in Hlow.
Qed.

(** On every mix of high, medium and low clauses up to 40 in all, the
    function with the binary64 average returns what the one with the exact
    average returns. *)
Example binary64_average_agrees : agree_up_to 40 = true.
Proof. vm_compute. reflexivity. Qed.

End RiskSpec.

(** ** The classification stage and its prerequisite *)

Module LifecycleSpec.
Import VertexAI LifecycleSamples.

Section NotReady.

Variable generate_text : Prompt -> result string.
Variable json_loads : string -> option json.
Variable coerce_str : json -> option string.
Variable strip_lower : string -> string.
Variable server_timestamp utcnow : Z.
Variable str_of_exn : exn -> string.

Let classify :=
  classify_document_clauses generate_text json_loads coerce_str strip_lower
                            server_timestamp utcnow str_of_exn.

(** The outcome on a document that has not completed OCR. *)
Lemma classify_not_ready
    (fs : Firestore) (document_id : string) (current_user : option string)
    (doc_data : Document) :
  documents fs !! document_id = Some doc_data ->
  access_denied current_user doc_data = false ->
  d_processing_status doc_data <> Some "ocr_complete" ->
  classify fs document_id current_user
  = (Raise (HTTPException 400 "Document must complete OCR processing first"),
     {| documents :=
          <[document_id :=
              update_failed "Clause classification failed" server_timestamp doc_data]>
            (documents fs);
        embeddings := embeddings fs;
        qa_history := qa_history fs |}).
Proof.
  intros Hdoc Hacc Hstatus.
  unfold classify, classify_document_clauses, classify_document_clauses_body.
  rewrite Hdoc, Hacc.
  change (ProcessingStatus.value ProcessingStatus.OCR_COMPLETE) with "ocr_complete".
  rewrite bool_decide_eq_false_2 by exact Hstatus.
  cbn [negb is_http]. unfold doc_update. now rewrite Hdoc.
Qed.

(** [C6, amended] Calling the classification endpoint on a document whose
    status is not "ocr_complete" (so in particular "uploaded") fails with
    the 4xx condition 400 "Document must complete OCR processing first" and
    leaves the document's clauses as they were. The store does change: the
    handler of the endpoint records the failure on the document, setting its
    status to "failed", its error message and its update time; every other
    field, every other document and the other collections are untouched. *)
Theorem classify_before_ocr
    (fs : Firestore) (document_id : string) (current_user : option string)
    (doc_data : Document) :
  documents fs !! document_id = Some doc_data ->
  access_denied current_user doc_data = false ->
  d_processing_status doc_data <> Some "ocr_complete" ->
  exists fs' doc_data',
    classify fs document_id current_user
    = (Raise (HTTPException 400 "Document must complete OCR processing first"), fs')
    /\ documents fs' !! document_id = Some doc_data'
    /\ d_clauses doc_data' = d_clauses doc_data
    /\ d_processing_status doc_data' = Some "failed"
    /\ d_error_message doc_data' = Some "Clause classification failed"
    /\ d_updated_at doc_data' = Some server_timestamp
    /\ d_user_id doc_data' = d_user_id doc_data
    /\ d_raw_text doc_data' = d_raw_text doc_data
    /\ d_paragraphs doc_data' = d_paragraphs doc_data
    /\ d_document_type doc_data' = d_document_type doc_data
    /\ d_knowledge_base_created doc_data' = d_knowledge_base_created doc_data
    /\ d_embeddings_count doc_data' = d_embeddings_count doc_data
    /\ d_classification_timestamp doc_data' = d_classification_timestamp doc_data
    /\ (forall other, other <> document_id ->
                      documents fs' !! other = documents fs !! other)
    /\ embeddings fs' = embeddings fs
    /\ qa_history fs' = qa_history fs.
Proof.
  intros Hdoc Hacc Hstatus.
  eexists _, _. split; [apply classify_not_ready; eassumption|].
  cbn [documents embeddings qa_history].
  split; [apply lookup_insert_eq|].
  repeat (split; [reflexivity|]).
  split; [|split; reflexivity].
  intros other Hother. now apply lookup_insert_ne.
Qed.

End NotReady.

(** [C6, as stated] The failed call does mutate the store: the uploaded
    document is left with status "failed". *)
Lemma classify_before_ocr_mutates :
  ~ (forall generate_text json_loads coerce_str strip_lower server_timestamp utcnow
            str_of_exn fs document_id current_user doc_data,
        documents fs !! document_id = Some doc_data ->
        access_denied current_user doc_data = false ->
        d_processing_status doc_data = Some "uploaded" ->
        snd (classify_document_clauses generate_text json_loads coerce_str strip_lower
               server_timestamp utcnow str_of_exn fs document_id current_user)
        = fs).
Proof.
  intros H.
  specialize (H silent_model no_json no_coercion id 20%Z 20%Z show_exn
                uploaded_store "doc1" None uploaded_document
                (lookup_singleton_eq _ _) eq_refl eq_refl).
  rewrite (classify_not_ready silent_model no_json no_coercion id 20%Z 20%Z show_exn
             uploaded_store "doc1" None uploaded_document
             (lookup_singleton_eq _ _) eq_refl) in H by discriminate.
  apply (f_equal (fun s => documents s !! "doc1")) in H.
  cbn [snd documents uploaded_store] in H.
  rewrite lookup_insert_eq, lookup_singleton_eq in H.
  discriminate H.
Qed.

Lemma classify_before_ocr_witness :
  exists fs' doc_data',
    classify_document_clauses silent_model no_json no_coercion id 20%Z 20%Z show_exn
      uploaded_store "doc1" None
    = (Raise (HTTPException 400 "Document must complete OCR processing first"), fs')
    /\ documents fs' !! "doc1" = Some doc_data'
    /\ d_clauses doc_data' = d_clauses uploaded_document
    /\ d_processing_status doc_data' = Some "failed".
Proof.
  destruct (classify_before_ocr silent_model no_json no_coercion id 20%Z 20%Z show_exn
              uploaded_store "doc1" None uploaded_document)
    as (fs' & doc_data' & Hcall & Hget & Hclauses & Hstatus & _).
  - apply lookup_singleton_eq.
  - reflexivity.
  - discriminate.
  - exists fs', doc_data'. repeat split; assumption.
Defined.

End LifecycleSpec.

(** ** Binary64 comparisons *)

Module FloatOrder.

Ltac sf_compare :=
  cbv [SFleb SFltb SFeqb SFcompare] in *;
  change (PosDef.Pos.compare_cont Eq) with Pos.compare in *;
  repeat match goal with
         | H : context [Z.compare ?x ?y] |- _ => destruct (Z.compare_spec x y)
         | |- context [Z.compare ?x ?y] => destruct (Z.compare_spec x y)
         | H : context [Pos.compare ?x ?y] |- _ => destruct (Pos.compare_spec x y)
         | |- context [Pos.compare ?x ?y] => destruct (Pos.compare_spec x y)
         end;
  cbn in *; subst; try congruence; try lia.

Lemma SFleb_trans (a b c : spec_float) :
  SFleb a b = true -> SFleb b c = true -> SFleb a c = true.
Proof.
  destruct a as [[]|[]| |[] ma ea], b as [[]|[]| |[] mb eb], c as [[]|[]| |[] mc ec];
    intros Hab Hbc; sf_compare.
Qed.

Lemma SFleb_of_not_ltb (a b : spec_float) :
  a <> S754_nan -> b <> S754_nan -> SFltb a b = false -> SFleb b a = true.
Proof.
  destruct a as [[]|[]| |[] ma ea], b as [[]|[]| |[] mb eb];
    intros Ha Hb Hlt; sf_compare.
Qed.

Lemma SFleb_of_ltb (a b : spec_float) : SFltb a b = true -> SFleb a b = true.
Proof.
  destruct a as [[]|[]| |[] ma ea], b as [[]|[]| |[] mb eb]; intros Hlt; sf_compare.
Qed.

Lemma SFeqb_self (a : spec_float) : SFeqb a a = false -> a = S754_nan.
Proof. destruct a as [[]|[]| |[] ma ea]; intros H; sf_compare. Qed.

Lemma nan_SF (x : float) : PrimFloat.is_nan x = true -> Prim2SF x = S754_nan.
Proof.
  unfold PrimFloat.is_nan. rewrite FloatAxioms.eqb_spec. intros H.
  apply SFeqb_self. now destruct (SFeqb (Prim2SF x) (Prim2SF x)).
Qed.

Lemma ltb_nan_l (x y : float) : PrimFloat.is_nan x = true -> (x <? y)%float = false.
Proof.
  intros H. rewrite FloatAxioms.ltb_spec, (nan_SF x H). reflexivity.
Qed.

Lemma ltb_nan_r (x y : float) : PrimFloat.is_nan y = true -> (x <? y)%float = false.
Proof.
  intros H. rewrite FloatAxioms.ltb_spec, (nan_SF y H).
  now destruct (Prim2SF x).
Qed.

Lemma not_nan (x : float) : PrimFloat.is_nan x = false -> Prim2SF x <> S754_nan.
Proof.
  unfold PrimFloat.is_nan. rewrite FloatAxioms.eqb_spec. intros H Hnan.
  rewrite Hnan in H. discriminate H.
Qed.

Lemma leb_trans (x y z : float) :
  (x <=? y)%float = true -> (y <=? z)%float = true -> (x <=? z)%float = true.
Proof. rewrite !FloatAxioms.leb_spec. apply SFleb_trans. Qed.

Lemma leb_of_not_ltb (x y : float) :
  PrimFloat.is_nan x = false -> PrimFloat.is_nan y = false ->
  (x <? y)%float = false -> (y <=? x)%float = true.
Proof.
  intros Hx Hy. rewrite FloatAxioms.ltb_spec, FloatAxioms.leb_spec.
  apply SFleb_of_not_ltb; now apply not_nan.
Qed.

Lemma leb_of_ltb (x y : float) : (x <? y)%float = true -> (x <=? y)%float = true.
Proof. rewrite FloatAxioms.ltb_spec, FloatAxioms.leb_spec. apply SFleb_of_ltb. Qed.

End FloatOrder.

(** ** Cosine similarity *)

Module CosineSpec.
Import Rag RetrieverVocabulary RetrieverSamples.





(** Two instances where the quotient is exactly 1.0. *)
Example self_similarity_3_4 :
  calculate_cosine_similarity [3%float; 4%float] [3%float; 4%float] = 1%float.
Proof. reflexivity. Qed.

(** Vectors of different lengths with non-zero norms give 0.0. *)
Example mismatched_lengths :
  calculate_cosine_similarity [1%float] [1%float; 1%float] = 0%float.
Proof. reflexivity. Qed.

End CosineSpec.

(** ** The knowledge-base search *)

Module RetrieverSpec.
Import Rag PyFacts RetrieverVocabulary RetrieverSamples FloatOrder.

Section Sorting.

Context {A : Type} (key : A -> float).

Let above (a b : A) : Prop := (key b <=? key a)%float = true.

Lemma insert_desc_perm (x : A) (l : list A) :
  Permutation (insert_desc key x l) (x :: l).
Proof.
  induction l as [|y l IH]; simpl; [reflexivity|].
  destruct (key x <? key y)%float; [|reflexivity].
  rewrite IH. apply perm_swap.
Qed.

Lemma sort_desc_perm (l : list A) : Permutation (sort_desc key l) l.
Proof.
  induction l as [|x l IH]; simpl; [reflexivity|].
  rewrite insert_desc_perm. now constructor.
Qed.

Lemma insert_desc_sorted (x : A) (l : list A) :
  PrimFloat.is_nan (key x) = false ->
  Forall (fun y => PrimFloat.is_nan (key y) = false) l ->
  StronglySorted above l ->
  StronglySorted above (insert_desc key x l).
Proof.
  intros Hx Hnan Hsorted.
  induction Hsorted as [|y l Hsorted IH Hall]; simpl.
  - repeat constructor.
  - inversion Hnan as [|? ? Hy Hl]; subst.
    destruct (key x <? key y)%float eqn:Hlt.
    + constructor; [now apply IH|].
      rewrite (insert_desc_perm x l).
      constructor; [now apply leb_of_ltb | exact Hall].
    + assert (Hyx : above x y) by now apply leb_of_not_ltb.
      constructor; [now constructor|].
      constructor; [exact Hyx|].
      eapply List.Forall_impl; [|exact Hall].
      intros z Hz. unfold above in *. now apply leb_trans with (key y).
Qed.

Lemma sort_desc_sorted (l : list A) :
  Forall (fun y => PrimFloat.is_nan (key y) = false) l ->
  StronglySorted above (sort_desc key l).
Proof.
  induction 1 as [|x l Hx Hl IH]; simpl; [constructor|].
  apply insert_desc_sorted; [exact Hx | | exact IH].
  now rewrite sort_desc_perm.
Qed.

Lemma firstn_sorted (n : nat) (l : list A) :
  StronglySorted above l -> StronglySorted above (firstn n l).
Proof.
  intros Hsorted. revert n.
  induction Hsorted as [|y l Hsorted IH Hall]; intros [|n]; simpl; try constructor.
  - apply IH.
  - rewrite List.Forall_forall in *. intros z Hz.
    apply Hall. eapply in_firstn, Hz.
Qed.

End Sorting.

Section Search.

Variable get_embeddings : string -> result (list float).
Variable str_of_exn : exn -> string.

Let search := search_knowledge_base get_embeddings str_of_exn.

(** The search on a ready document whose query embeds. *)
Lemma search_ready
    (fs : Firestore) (document_id query : string) (limit : Z)
    (current_user : option string) (doc_data : Document) (query_vector : list float) :
  documents fs !! document_id = Some doc_data ->
  access_denied current_user doc_data = false ->
  d_knowledge_base_created doc_data = true ->
  get_embeddings query = Ok query_vector ->
  search fs document_id query limit current_user
  = Ok {| sr_query := query;
          sr_results :=
            list_slice_to limit
              (sort_desc h_similarity
                 (map (search_hit query_vector) (stored_vectors fs document_id)));
          sr_total_searched :=
            length (sort_desc h_similarity
                      (map (search_hit query_vector) (stored_vectors fs document_id))) |}.
Proof.
  intros Hdoc Hacc Hflag Hembed.
  unfold search, search_knowledge_base.
  now rewrite Hdoc, Hacc, Hflag, Hembed.
Qed.

(** [C2, amended] For a stored document the caller may read: if its
    knowledge-base flag is not set the search fails with 400 "Knowledge base
    not created for this document". If the flag is set, the query embeds and
    the limit [k] is not negative, the search returns
    [min(k, number of stored chunks of the document with a non-empty vector)]
    results, each the scored form of such a chunk, and, when no score is NaN,
    in descending order of similarity. *)
Theorem search_knowledge_base_spec
    (fs : Firestore) (document_id query : string) (limit : Z)
    (current_user : option string) (doc_data : Document) :
  documents fs !! document_id = Some doc_data ->
  access_denied current_user doc_data = false ->
  (d_knowledge_base_created doc_data = false ->
   search fs document_id query limit current_user
   = Raise (HTTPException 400 "Knowledge base not created for this document"))
  /\ (d_knowledge_base_created doc_data = true ->
      forall query_vector,
        get_embeddings query = Ok query_vector ->
        (0 <= limit)%Z ->
        exists response,
          search fs document_id query limit current_user = Ok response
          /\ Z.of_nat (length (sr_results response))
             = Z.min limit (Z.of_nat (length (stored_vectors fs document_id)))
          /\ (forall hit, In hit (sr_results response) ->
                exists e, In e (stored_vectors fs document_id)
                          /\ hit = search_hit query_vector e)
          /\ (Forall (fun e => PrimFloat.is_nan
                                 (calculate_cosine_similarity query_vector (e_embedding e))
                               = false)
                     (stored_vectors fs document_id) ->
              descending (sr_results response))).
Proof.
  intros Hdoc Hacc. split.
  - intros Hflag. unfold search, search_knowledge_base.
    now rewrite Hdoc, Hacc, Hflag.
  - intros Hflag query_vector Hembed Hlimit.
    eexists. split; [eapply search_ready; eassumption|].
    cbn [sr_results].
    set (hits := map (search_hit query_vector) (stored_vectors fs document_id)).
    assert (Hperm : Permutation (sort_desc h_similarity hits) hits)
      by apply sort_desc_perm.
    unfold list_slice_to.
    destruct (Z.leb_spec 0 limit) as [_|Hneg]; [|lia].
    split; [|split].
    + rewrite length_firstn, (Permutation_length Hperm).
      unfold hits. rewrite length_map. lia.
    + intros hit Hin. apply in_firstn in Hin.
      apply (Permutation_in _ Hperm), in_map_iff in Hin.
      destruct Hin as (e & He & Hin). now exists e.
    + intros Hnan. apply firstn_sorted, sort_desc_sorted.
      unfold hits. rewrite List.Forall_map. exact Hnan.
Qed.

End Search.

(** [C2, as stated] With a negative limit the result is not
    [min(k, stored)] long: the slice [results[:-1]] drops the last of the two
    hits and returns one. *)
Lemma negative_limit_length :
  ~ (forall get_embeddings str_of_exn fs document_id query limit current_user doc_data,
        documents fs !! document_id = Some doc_data ->
        access_denied current_user doc_data = false ->
        d_knowledge_base_created doc_data = true ->
        (exists query_vector, get_embeddings query = Ok query_vector) ->
        exists response,
          search_knowledge_base get_embeddings str_of_exn fs document_id query limit
                                current_user
          = Ok response
          /\ Z.of_nat (length (sr_results response))
             = Z.min limit (Z.of_nat (length (stored_vectors fs document_id)))).
Proof.
  intros H.
  destruct (H unit_embedding (fun _ => "error") kb_store "doc1" "rent" (-1)%Z None
              kb_document (lookup_singleton_eq _ _) eq_refl eq_refl
              (ex_intro _ [1%float; 0%float] eq_refl))
    as (response & Hcall & Hlen).
  rewrite (search_ready unit_embedding (fun _ => "error") kb_store "doc1" "rent" (-1)%Z
             None kb_document [1%float; 0%float]
             (lookup_singleton_eq _ _) eq_refl eq_refl eq_refl) in Hcall.
  injection Hcall as <-.
  vm_compute in Hlen. discriminate Hlen.
Qed.

Lemma search_knowledge_base_spec_witness :
  exists response,
    search_knowledge_base unit_embedding (fun _ => "error") kb_store "doc1" "rent" 1
                          None
    = Ok response
    /\ Z.of_nat (length (sr_results response))
       = Z.min 1 (Z.of_nat (length (stored_vectors kb_store "doc1"))).
Proof.
  destruct (search_knowledge_base_spec unit_embedding (fun _ => "error") kb_store "doc1"
              "rent" 1 None kb_document (lookup_singleton_eq _ _) eq_refl)
    as [_ Hready].
  destruct (Hready eq_refl [1%float; 0%float] eq_refl) as (response & Hcall & Hlen & _).
  - lia.
  - now exists response.
Defined.

End RetrieverSpec.

(** ** The clause classifier *)

Module ClassifierSpec.
Import VertexAI PyFacts ClassifierSamples.

Lemma ClauseType_call_value (s : string) (m : ClauseType.t) :
  ClauseType.call s = Ok m -> ClauseType.value m = s.
Proof.
  unfold ClauseType.call.
  destruct (find _ ClauseType.members) as [m'|] eqn:Hfind; [|discriminate].
  intros [= <-]. apply find_some in Hfind as [_ Heq]. now apply String.eqb_eq.
Qed.

Lemma RiskLevel_call_value (s : string) (m : RiskLevel.t) :
  RiskLevel.call s = Ok m -> RiskLevel.value m = s.
Proof.
  unfold RiskLevel.call.
  destruct (find _ RiskLevel.members) as [m'|] eqn:Hfind; [|discriminate].
  intros [= <-]. apply find_some in Hfind as [_ Heq]. now apply String.eqb_eq.
Qed.

(** The enum has 26 members and none of them is "other". *)
Lemma ClauseType_has_no_other :
  length ClauseType.members = 26
  /\ existsb (String.eqb "other") ClauseType.values = false
  /\ ClauseType.call "other" = Raise ValueError
  /\ ClauseType.attr "OTHER" = Raise AttributeError.
Proof. repeat split. Qed.

Section Classifier.

Variable generate_text : Prompt -> result string.
Variable json_loads : string -> option json.
Variable coerce_str : json -> option string.

Let segment := segment_and_classify_clauses generate_text json_loads coerce_str.

Lemma validate_strs_length (l : list json) (ss : list string) :
  validate_strs coerce_str l = Ok ss -> length ss = length l.
Proof.
  revert ss; induction l as [|v l IH]; intros ss; simpl.
  - now intros [= <-].
  - destruct (validate_str coerce_str v); [|discriminate]. cbn [bind].
    destruct (validate_strs coerce_str l) as [ss'|]; [|discriminate]. cbn [bind].
    intros [= <-]. simpl. f_equal. now apply IH.
Qed.

Lemma sliced_str_length (n : nat) (v sliced : json) (s : string) :
  slice_json n v = Ok sliced ->
  validate_str coerce_str sliced = Ok s ->
  String.length s <= n.
Proof.
  destruct v; simpl; try discriminate; intros [= <-]; simpl; try discriminate.
  intros [= <-]. rewrite length_slice_to. lia.
Qed.

Lemma sliced_list_length (n : nat) (v sliced : json) (ss : list string) :
  slice_json n v = Ok sliced ->
  validate_str_list coerce_str sliced = Ok ss ->
  length ss <= n.
Proof.
  destruct v; simpl; try discriminate; intros [= <-]; simpl; try discriminate.
  intros H. apply validate_strs_length in H. rewrite H. apply firstn_le_length.
Qed.

Ltac step_bind H :=
  match type of H with
  | bind ?m _ = Ok _ =>
      let E := fresh "E" in
      destruct m eqn:E; cbn [bind] in H; [|discriminate H]
  end.

(** A clause the loop body produces: the raw clause type is a member's value
    and is kept; the risk level is the raw one when that is a member's value
    and medium otherwise; the texts and the recommendations are cut to their
    bounds and the confidence is 0.8. *)
Lemma classify_clause_ok (i : nat) (clause_data : json) (c : ClauseAnalysis) :
  classify_clause coerce_str (i, clause_data) = Ok c ->
  ca_id c = "clause_" ++ str_of_nat (i + 1)
  /\ dict_get clause_data "clause_type" (JStr "other")
     = Ok (JStr (ClauseType.value (ca_clause_type c)))
  /\ In (ClauseType.value (ca_clause_type c)) ClauseType.values
  /\ (dict_get clause_data "risk_level" (JStr "medium")
      = Ok (JStr (RiskLevel.value (ca_risk_level c)))
      \/ ca_risk_level c = RiskLevel.MEDIUM)
  /\ String.length (ca_original_text c) <= 2000
  /\ String.length (ca_plain_language c) <= 500
  /\ String.length (ca_risk_reason c) <= 300
  /\ length (ca_recommendations c) <= 3
  /\ ca_confidence_score c = Some 0.8%float.
Proof.
  unfold classify_clause. intros H.
  repeat step_bind H.
  injection H as <-. cbn [ca_id ca_clause_type ca_original_text ca_plain_language
                           ca_risk_level ca_risk_reason ca_recommendations
                           ca_confidence_score].
  split; [reflexivity|].
  split.
  { destruct (in_strings a ClauseType.values) eqn:Hin; cbn [negb] in *.
    - destruct a; try discriminate. cbn [clause_type_of] in *.
      now rewrite (ClauseType_call_value _ _ E1).
    - now vm_compute in E1. }
  split.
  { apply in_map. clear. destruct a1; vm_compute; tauto. }
  split.
  { destruct (in_strings a0 (map RiskLevel.value RiskLevel.members)) eqn:Hin;
      cbn [negb] in *.
    - left. destruct a0; try discriminate. cbn [risk_level_of] in *.
      now rewrite (RiskLevel_call_value _ _ E6).
    - right. vm_compute in E6. now injection E6 as <-. }
  split; [eapply sliced_str_length; eassumption|].
  split; [eapply sliced_str_length; eassumption|].
  split; [eapply sliced_str_length; eassumption|].
  split; [eapply sliced_list_length; eassumption | reflexivity].
Qed.

(** The loop body on a clause whose type is missing or not a member's
    value: the default "other" is substituted and [ClauseType("other")]
    raises. *)
Lemma classify_clause_unlisted (i : nat) (fields : list (string * json)) :
  in_strings (get_or (assoc "clause_type" fields) (JStr "other")) ClauseType.values
  = false ->
  classify_clause coerce_str (i, JObj fields) = Raise ValueError.
Proof.
  intros Hin. unfold classify_clause, dict_get, get_or in *. cbn [bind].
  destruct (assoc "clause_type" fields); rewrite Hin; reflexivity.
Qed.

(** [C4] On a reply that parses to the expected structure, a first clause
    whose type is missing or outside the enum makes the classifier raise
    [ValueError]: the type is replaced by "other", which is not one of the 26
    members, so no clause is produced at all. *)
Theorem unlisted_clause_type_raises
    (text reply : string) (paragraphs : list Paragraph)
    (result : json) (fields : list (string * json)) (rest : list json) :
  generate_text (ClausesPrompt (join_comma ClauseType.values) text) = Ok reply ->
  json_loads reply = Some result ->
  dict_get result "clauses" (JArr []) = Ok (JArr (JObj fields :: rest)) ->
  in_strings (get_or (assoc "clause_type" fields) (JStr "other")) ClauseType.values
  = false ->
  segment text paragraphs = Raise ValueError.
Proof.
  intros Hgen Hloads Hclauses Hin.
  unfold segment, segment_and_classify_clauses.
  rewrite Hgen. cbn [bind]. rewrite Hloads, Hclauses. cbn [bind iterate].
  unfold enumerate. cbn [length seq combine classify_clauses].
  now rewrite classify_clause_unlisted.
Qed.

(** [C5] On a reply that [json.loads] rejects, the classifier raises
    [AttributeError]: the handler builds its synthetic clause from
    [ClauseType.OTHER], and the enum has no such member. No clause is
    returned. *)
Theorem unparseable_reply_raises
    (text reply : string) (paragraphs : list Paragraph) :
  generate_text (ClausesPrompt (join_comma ClauseType.values) text) = Ok reply ->
  json_loads reply = None ->
  segment text paragraphs = Raise AttributeError.
Proof.
  intros Hgen Hloads.
  unfold segment, segment_and_classify_clauses.
  rewrite Hgen. cbn [bind]. now rewrite Hloads.
Qed.

(** The handler raises on every text. *)
Lemma fallback_clauses_raises (text : string) :
  fallback_clauses text = Raise AttributeError.
Proof. reflexivity. Qed.

End Classifier.

(** The first sample reply names the type "rent": the classifier raises. *)
Lemma unlisted_clause_type_raises_witness :
  segment_and_classify_clauses (reply_model "unlisted") sample_loads no_coerce
    "Tenant shall pay rent monthly." []
  = Raise ValueError.
Proof.
  apply (unlisted_clause_type_raises (reply_model "unlisted") sample_loads no_coerce
           "Tenant shall pay rent monthly." "unlisted" [] unlisted_type_reply
           _ [] eq_refl eq_refl eq_refl).
  reflexivity.
Defined.

Lemma unparseable_reply_raises_witness :
  segment_and_classify_clauses (reply_model "Sorry, I cannot help.") sample_loads
    no_coerce "Tenant shall pay rent monthly." []
  = Raise AttributeError.
Proof.
  apply (unparseable_reply_raises (reply_model "Sorry, I cannot help.") sample_loads
           no_coerce "Tenant shall pay rent monthly." "Sorry, I cannot help." []);
    reflexivity.
Defined.

(** The second sample reply names a listed type: one clause comes back, its
    unlisted risk level replaced by medium and its four recommendations cut
    to three. *)
Example listed_clause_type_classified :
  exists c,
    segment_and_classify_clauses (reply_model "listed") sample_loads no_coerce
      "Tenant shall pay rent monthly." []
    = Ok [c]
    /\ ca_clause_type c = ClauseType.PAYMENT_TERMS
    /\ ca_risk_level c = RiskLevel.MEDIUM
    /\ ca_recommendations c = ["a"; "b"; "c"]
    /\ ca_confidence_score c = Some 0.8%float.
Proof. eexists. repeat split. Qed.

End ClassifierSpec.

(** ** The classification endpoint on a reply that does not parse *)

Module ClassifierEndpointSpec.
Import VertexAI.

Section Endpoint.

Variable generate_text : Prompt -> result string.
Variable json_loads : string -> option json.
Variable coerce_str : json -> option string.
Variable strip_lower : string -> string.
Variable server_timestamp utcnow : Z.
Variable str_of_exn : exn -> string.

(** The exception of the classifier reaches the endpoint's handler: the
    caller gets a 500 and the document is left "failed", its clauses
    untouched. *)
Lemma classify_unparseable_reply
    (fs : Firestore) (document_id : string) (current_user : option string)
    (doc_data : Document) (kind reply : string) :
  documents fs !! document_id = Some doc_data ->
  access_denied current_user doc_data = false ->
  d_processing_status doc_data = Some "ocr_complete" ->
  d_raw_text doc_data <> "" ->
  generate_text (DocumentTypePrompt (slice_to 2000 (d_raw_text doc_data))) = Ok kind ->
  generate_text (ClausesPrompt (join_comma ClauseType.values) (d_raw_text doc_data))
  = Ok reply ->
  json_loads reply = None ->
  exists fs' doc_data',
    classify_document_clauses generate_text json_loads coerce_str strip_lower
      server_timestamp utcnow str_of_exn fs document_id current_user
    = (Raise (HTTPException 500
                ("Clause classification failed: " ++ str_of_exn AttributeError)),
       fs')
    /\ documents fs' !! document_id = Some doc_data'
    /\ d_processing_status doc_data' = Some "failed"
    /\ d_error_message doc_data' = Some (str_of_exn AttributeError)
    /\ d_clauses doc_data' = d_clauses doc_data.
Proof.
  intros Hdoc Hacc Hstatus Hraw Hkind Hreply Hloads.
  unfold classify_document_clauses, classify_document_clauses_body.
  rewrite Hdoc, Hacc, Hstatus.
  rewrite bool_decide_eq_true_2 by reflexivity. cbn [negb].
  unfold doc_update. rewrite Hdoc.
  apply String.eqb_neq in Hraw. rewrite Hraw.
  unfold classify_document_type. rewrite Hkind. cbn [bind].
  unfold segment_and_classify_clauses. rewrite Hreply. cbn [bind]. rewrite Hloads.
  rewrite (fun t => eq_refl : fallback_clauses t = Raise AttributeError).
  destruct (existsb _ valid_types); cbn [is_http documents embeddings qa_history];
    rewrite lookup_insert_eq;
    eexists _, _; (split; [reflexivity|]);
    cbn [documents]; rewrite lookup_insert_eq; repeat split.
Qed.

End Endpoint.

End ClassifierEndpointSpec.

(** ** The answer of the QA orchestrator *)

Module QASpec.
Import QA PyFacts FloatOrder QASamples.

(** The clamp [min(max(c, 0.0), 1.0)] on a number. *)
Lemma clamp_in_range (c : float) :
  PrimFloat.is_nan c = false ->
  (0 <=? py_min (py_max c 0) 1)%float = true
  /\ (py_min (py_max c 0) 1 <=? 1)%float = true.
Proof.
  intros Hc. unfold py_max.
  destruct (c <? 0)%float eqn:Hneg; [split; reflexivity|].
  unfold py_min.
  destruct (1 <? c)%float eqn:Hbig; [split; reflexivity|].
  split; now apply leb_of_not_ltb.
Qed.

(** The clamp on NaN: both comparisons are false and NaN is kept. *)
Lemma clamp_nan (c : float) :
  PrimFloat.is_nan c = true -> py_min (py_max c 0) 1 = c.
Proof.
  intros Hc. unfold py_max. rewrite (ltb_nan_l c 0 Hc).
  unfold py_min. now rewrite (ltb_nan_r 1 c Hc).
Qed.

Lemma contains_self (s : string) : contains s s = true.
Proof.
  rewrite contains_unfold.
  assert (H : forall t, String.prefix t t = true).
  { induction t as [|c t IH]; simpl; [reflexivity|].
    now destruct (ascii_dec c c). }
  now rewrite H.
Qed.

Lemma disclaimer_contains_sentence : contains disclaimer_sentence disclaimer = true.
Proof.
  unfold disclaimer. do 2 apply contains_append_r. apply contains_prefix.
Qed.

Section Answers.

Variable generate_text : Prompt -> result string.
Variable json_loads : string -> option json.
Variable float_of_int : Z -> result float.
Variable float_of_str : string -> result float.
Variable format_2f : float -> string.

Let answer := generate_answer generate_text json_loads float_of_int float_of_str format_2f.

(** What holds of every answer: when the answer is a string it contains the
    disclaimer sentence (it is a list only when the model replied with a list
    under "answer"), and the confidence is within [0, 1] unless it is NaN. *)
Lemma generate_answer_shape
    (question document_type : string)
    (document_context : list Rag.SearchHit) (legal_context : list LegalResult)
    (clauses : list ClauseDict) :
  let data := answer question document_type document_context legal_context clauses in
  match a_answer data with
  | JStr s => contains disclaimer_sentence s = true
  | JArr _ => True
  | _ => False
  end
  /\ (PrimFloat.is_nan (a_confidence data) = true
      \/ ((0 <=? a_confidence data)%float = true
          /\ (a_confidence data <=? 1)%float = true)).
Proof.
  cbv zeta. unfold answer, generate_answer.
  destruct (generate_answer_body _ _ _ _ _ _ _) as [data|e] eqn:Hbody.
  - unfold generate_answer_body in Hbody.
    destruct (generate_text _) as [reply|]; cbn [bind] in Hbody; [|discriminate].
    destruct (json_loads reply) as [result|]; [|discriminate].
    destruct (dict_get result "answer" _) as [a|]; cbn [bind] in Hbody; [|discriminate].
    destruct (dict_get result "confidence" _) as [cj|]; cbn [bind] in Hbody;
      [|discriminate].
    destruct (py_float _ _ cj) as [c|]; cbn [bind] in Hbody; [|discriminate].
    destruct (iadd_str a disclaimer) as [a'|] eqn:Hadd; cbn [bind] in Hbody;
      [|discriminate].
    injection Hbody as <-. cbn [a_answer a_confidence]. split.
    + destruct a; try discriminate; injection Hadd as <-; [|exact I].
      apply contains_append_r, disclaimer_contains_sentence.
    + destruct (PrimFloat.is_nan c) eqn:Hc.
      * left. now rewrite clamp_nan.
      * right. now apply clamp_in_range.
  - destruct e; cbn [a_answer a_confidence];
      (split; [first [ do 5 apply contains_append_r; apply contains_self
                     | do 3 apply contains_append_r; apply contains_self ]
              | right; split; reflexivity]).
Qed.

(** The answer on a reply whose "confidence" is NaN. *)
Lemma generate_answer_on_nan
    (question document_type reply text : string)
    (document_context : list Rag.SearchHit) (legal_context : list LegalResult)
    (clauses : list ClauseDict) (fields : list (string * json)) :
  generate_text (answer_prompt question document_type document_context legal_context
                               clauses)
  = Ok reply ->
  json_loads reply = Some (JObj fields) ->
  assoc "answer" fields = Some (JStr text) ->
  assoc "confidence" fields = Some (JFloat nan) ->
  answer question document_type document_context legal_context clauses
  = {| a_answer := JStr (text ++ disclaimer);
       a_confidence := nan;
       a_sources := firstn 5 (answer_sources format_2f document_context legal_context);
       a_citations := create_citations legal_context |}.
Proof.
  intros Hgen Hloads Htext Hconf.
  unfold answer, generate_answer, generate_answer_body.
  rewrite Hgen. cbn [bind]. rewrite Hloads.
  unfold dict_get. rewrite Htext, Hconf. reflexivity.
Qed.

(** [C7] A reply whose "confidence" is NaN passes the clamp unchanged: the
    answer carries its disclaimer, and the confidence returned is NaN, which
    is neither at least 0.0 nor at most 1.0. *)
Theorem nan_confidence_returned
    (question document_type reply text : string)
    (document_context : list Rag.SearchHit) (legal_context : list LegalResult)
    (clauses : list ClauseDict) (fields : list (string * json)) :
  generate_text (answer_prompt question document_type document_context legal_context
                               clauses)
  = Ok reply ->
  json_loads reply = Some (JObj fields) ->
  assoc "answer" fields = Some (JStr text) ->
  assoc "confidence" fields = Some (JFloat nan) ->
  let data := answer question document_type document_context legal_context clauses in
  a_answer data = JStr (text ++ disclaimer)
  /\ a_confidence data = nan
  /\ (0 <=? a_confidence data)%float = false
  /\ (a_confidence data <=? 1)%float = false.
Proof.
  intros Hgen Hloads Htext Hconf. cbv zeta.
  rewrite (generate_answer_on_nan _ _ reply text _ _ _ fields) by assumption.
  repeat split.
Qed.

Variable get_embeddings : string -> result (list float).
Variable search_legal_corpus : string -> Z -> result (list LegalResult).
Variable str_of_exn : exn -> string.
Variable server_timestamp response_time_ms : Z.

Let ask :=
  answer_question generate_text json_loads float_of_int float_of_str format_2f
                  get_embeddings search_legal_corpus str_of_exn server_timestamp
                  response_time_ms.

(** The legal context [answer_question] passes on. *)
Let legal_context_of (question : string) : list LegalResult :=
  match search_legal_corpus question 2 with
  | Ok results => results
  | Raise _ => []
  end.

(** At the endpoint the NaN is returned in the response and written to the
    QA history. *)
Lemma answer_question_nan
    (fs : Firestore) (request : QARequest) (current_user : option string)
    (doc_data : Document) (reply text : string) (fields : list (string * json)) :
  documents fs !! rq_document_id request = Some doc_data ->
  access_denied current_user doc_data = false ->
  d_knowledge_base_created doc_data = false ->
  generate_text
    (answer_prompt (rq_question request)
                   (get_or (d_document_type doc_data) "legal document") []
                   (legal_context_of (rq_question request)) (d_clauses doc_data))
  = Ok reply ->
  json_loads reply = Some (JObj fields) ->
  assoc "answer" fields = Some (JStr text) ->
  assoc "confidence" fields = Some (JFloat nan) ->
  exists response record,
    ask fs request current_user
    = (Ok response,
       {| documents := documents fs;
          embeddings := embeddings fs;
          qa_history := qa_history fs ++ [record] |})
    /\ rs_answer response = text ++ disclaimer
    /\ rs_confidence response = nan
    /\ q_confidence record = nan.
Proof.
  intros Hdoc Hacc Hflag Hgen Hloads Htext Hconf.
  unfold ask, answer_question. rewrite Hdoc, Hacc, Hflag.
  fold (legal_context_of (rq_question request)).
  fold answer.
  rewrite (generate_answer_on_nan _ _ reply text _ _ _ fields) by assumption.
  cbn [make_response a_answer].
  eexists _, _. repeat split.
Qed.

(** Whenever the endpoint returns a response, its answer contains the
    disclaimer sentence, and its confidence is within [0, 1] unless it is
    NaN. *)
Lemma answer_question_shape
    (fs fs' : Firestore) (request : QARequest) (current_user : option string)
    (response : QAResponse) :
  ask fs request current_user = (Ok response, fs') ->
  contains disclaimer_sentence (rs_answer response) = true
  /\ (PrimFloat.is_nan (rs_confidence response) = true
      \/ ((0 <=? rs_confidence response)%float = true
          /\ (rs_confidence response <=? 1)%float = true)).
Proof.
  unfold ask, answer_question.
  destruct (documents fs !! rq_document_id request) as [doc_data|]; [|discriminate].
  destruct (access_denied current_user doc_data); [discriminate|].
  match goal with
  | |- context [generate_answer ?g ?j ?fi ?fs ?fmt ?q ?t ?dc ?lc ?cl] =>
      pose proof (generate_answer_shape q t dc lc cl) as [Hans Hconf];
      cbv zeta in Hans, Hconf; unfold answer in Hans, Hconf;
      destruct (generate_answer g j fi fs fmt q t dc lc cl) as [a c srcs cits]
  end.
  cbn [a_answer a_confidence] in Hans, Hconf.
  unfold make_response. cbn [a_answer a_confidence a_sources a_citations].
  destruct a as [| | | |s| |]; try discriminate.
  intros [= <- _]. cbn [rs_answer rs_confidence]. now split.
Qed.

End Answers.

Lemma nan_confidence_returned_witness :
  let data :=
    generate_answer nan_model nan_loads no_float_of_int no_float_of_str plain_2f
      "Can I end the lease early?" "rental_agreement" [] [] [] in
  a_answer data = JStr ("Yes, with 30 days notice." ++ disclaimer)
  /\ a_confidence data = nan
  /\ (0 <=? a_confidence data)%float = false
  /\ (a_confidence data <=? 1)%float = false.
Proof.
  apply (nan_confidence_returned nan_model nan_loads no_float_of_int no_float_of_str
           plain_2f "Can I end the lease early?" "rental_agreement" "reply"
           "Yes, with 30 days notice." [] [] []
           [ ("answer", JStr "Yes, with 30 days notice.");
             ("confidence", JFloat nan);
             ("reasoning", JStr "Clause 4.");
             ("limitations", JStr "None.") ]);
    reflexivity.
Defined.

End QASpec.

(** ** The legal corpus *)

Module LegalCorpusSpec.
Import QA LegalCorpus CorpusVocabulary.

Section Corpus.

Variable lower : string -> string.
Variable SEARCH_ENGINE_ID : option string.
Variable discovery_search : string -> Z -> result (list DiscoveryHit).
Variable str_of_exn : exn -> string.

(** Case analysis on which keywords occur in the lowered query. *)
Ltac keyword_cases query :=
  unfold get_mock_legal_knowledge, mock_knowledge;
  destruct (contains "security deposit" (lower query));
  destruct (contains "termination" (lower query));
  destruct (contains "liability" (lower query));
  destruct (contains "data" (lower query) || contains "privacy" (lower query));
  destruct (contains "employment" (lower query) || contains "non-compete" (lower query)).

Lemma mock_length (query : string) : length (get_mock_legal_knowledge lower query) = 3.
Proof. keyword_cases query; reflexivity. Qed.

(** [X1] For every query the mock corpus returns exactly three entries of
    its table, in descending order of relevance score. *)
Theorem mock_three_by_relevance (query : string) :
  let results := get_mock_legal_knowledge lower query in
  length results = 3
  /\ by_relevance results
  /\ (forall x, In x results -> In x (mock_knowledge lower query)).
Proof.
  cbv zeta. split; [apply mock_length|]. split.
  - unfold by_relevance.
    keyword_cases query; vm_compute; repeat constructor.
  - intros x Hin. unfold get_mock_legal_knowledge in Hin.
    apply PyFacts.in_firstn in Hin.
    eapply Permutation_in; [apply RetrieverSpec.sort_desc_perm | exact Hin].
Qed.

(** [X2] In the mock corpus an entry whose keyword occurs in the query is
    never passed over for one whose keyword does not: either all three
    results matched, or every matching entry of the table is among the
    results. A query that mentions "security deposit" gets the tenant-rights
    entry first. *)
Theorem mock_matches_first (query : string) :
  let results := get_mock_legal_knowledge lower query in
  (forallb matched results = true
   \/ forall x, In x (mock_knowledge lower query) -> matched x = true -> In x results)
  /\ (contains "security deposit" (lower query) = true ->
      exists rest, results
                   = {| l_title := "Tenant Rights - Security Deposits";
                        l_snippet := "Landlords must return security deposits within 30 days of lease termination, minus legitimate deductions for damages beyond normal wear and tear.";
                        l_link := Some "https://example.gov/tenant-rights#security-deposits";
                        l_source := Some "State Housing Law";
                        l_relevance_score := 0.95%float |} :: rest).
Proof.
  cbv zeta. split.
  - keyword_cases query;
      first [ left; vm_compute; reflexivity
            | right; intros x Hin Hm;
              cbn [In] in Hin;
              repeat (destruct Hin as [<-|Hin];
                      [first [ discriminate Hm | vm_compute; tauto ]|]);
              contradiction ].
  - intros Hsd. unfold get_mock_legal_knowledge, mock_knowledge. rewrite Hsd.
    destruct (contains "termination" (lower query));
    destruct (contains "liability" (lower query));
    destruct (contains "data" (lower query) || contains "privacy" (lower query));
    destruct (contains "employment" (lower query) || contains "non-compete" (lower query));
    eexists; vm_compute; reflexivity.
Qed.

(** [X3] [search_legal_corpus] answers every query: when no engine is
    configured, or the client raises, it returns the three mock results
    whatever limit was asked for, marked "mock_legal_corpus" (with the error
    text only when the client raised); when the client answers, one result
    per hit, in the client's order. *)
Theorem search_legal_corpus_fallback (query : string) (limit : Z) :
  let response :=
    search_legal_corpus lower SEARCH_ENGINE_ID discovery_search str_of_exn query limit in
  ls_query response = query
  /\ (ls_source response = "mock_legal_corpus"
      /\ ls_results response = get_mock_legal_knowledge lower query
      /\ length (ls_results response) = 3
      /\ (engine_unset SEARCH_ENGINE_ID = true /\ ls_error response = None
          \/ exists e, discovery_search query limit = Raise e
                       /\ ls_error response
                          = Some ("Search service unavailable: " ++ str_of_exn e))
      \/ exists hits,
          engine_unset SEARCH_ENGINE_ID = false
          /\ discovery_search query limit = Ok hits
          /\ ls_source response = "vertex_ai_search"
          /\ ls_results response = map legal_result_of hits
          /\ ls_error response = None).
Proof.
  cbv zeta. unfold search_legal_corpus.
  destruct (engine_unset SEARCH_ENGINE_ID) eqn:Hunset.
  - split; [reflexivity|]. left. cbn.
    split; [reflexivity|]. split; [reflexivity|]. split; [apply mock_length|].
    now left.
  - destruct (discovery_search query limit) as [hits|e] eqn:Hsearch.
    + split; [reflexivity|]. right. exists hits. repeat split.
    + split; [reflexivity|]. left. cbn.
      split; [reflexivity|]. split; [reflexivity|]. split; [apply mock_length|].
      right. now exists e.
Qed.

End Corpus.

End LegalCorpusSpec.

(** ** Suggested questions *)

Module SuggestionsSpec.
Import Suggestions SuggestionsVocabulary.

Lemma dict_fromkeys_incl (l : list string) (x : string) :
  In x (dict_fromkeys l) -> In x l.
Proof.
  induction l as [|y l IH]; simpl; [tauto|].
  intros [->|Hin]; [now left|].
  apply filter_In in Hin as [Hin _]. right. now apply IH.
Qed.

Lemma NoDup_filter {A : Type} (f : A -> bool) (l : list A) :
  List.NoDup l -> List.NoDup (List.filter f l).
Proof.
  induction 1 as [|x l Hx Hl IH]; simpl; [constructor|].
  destruct (f x); [constructor|]; try assumption.
  intros Hin. apply filter_In in Hin as [Hin _]. now apply Hx.
Qed.

Lemma NoDup_dict_fromkeys (l : list string) : List.NoDup (dict_fromkeys l).
Proof.
  induction l as [|x l IH]; simpl; constructor.
  - intros Hin. apply filter_In in Hin as [_ Hne].
    now rewrite String.eqb_refl in Hne.
  - now apply NoDup_filter.
Qed.

Lemma NoDup_firstn {A : Type} (n : nat) (l : list A) : List.NoDup l -> List.NoDup (firstn n l).
Proof.
  intros Hl. revert n. induction Hl as [|x l Hx Hl IH]; intros [|n]; simpl;
    try constructor.
  - intros Hin. apply Hx. eapply PyFacts.in_firstn, Hin.
  - apply IH.
Qed.

(** Case analysis on the document type and on the clause types present. *)
Ltac suggestion_cases document_type clauses :=
  unfold generate_suggested_questions, type_questions, append_if;
  fold (mentions "security_deposit" clauses);
  fold (mentions "non_compete" clauses);
  fold (mentions "data_sharing" clauses);
  fold (mentions "limitation_liability" clauses);
  destruct (String.eqb document_type "rental_agreement");
  [|destruct (String.eqb document_type "loan_contract");
    [|destruct (String.eqb document_type "employment_contract");
      [|destruct (String.eqb document_type "terms_of_service")]]];
  destruct (mentions "security_deposit" clauses);
  destruct (mentions "non_compete" clauses);
  destruct (mentions "data_sharing" clauses);
  destruct (mentions "limitation_liability" clauses).

(** [X4] For every document type and clause list the suggestions are
    between 5 and 8 questions, no question twice, and the first five are the
    base questions in their order. *)
Theorem suggestions_shape (document_type : string) (clauses : list ClauseDict) :
  let questions := generate_suggested_questions document_type clauses in
  5 <= length questions <= 8
  /\ List.NoDup questions
  /\ firstn 5 questions = base_questions.
Proof.
  cbv zeta. split; [|split].
  - suggestion_cases document_type clauses; vm_compute; lia.
  - unfold generate_suggested_questions. apply NoDup_firstn, NoDup_dict_fromkeys.
  - suggestion_cases document_type clauses; reflexivity.
Qed.

(** [X5] For the four document types with questions of their own, the
    suggestions are the five base questions and the first three questions of
    the type, whatever the clauses: the eight-question cut removes every
    clause-specific question. *)
Theorem suggestions_ignore_clauses (document_type : string) (clauses : list ClauseDict) :
  In document_type
     ["rental_agreement"; "loan_contract"; "employment_contract"; "terms_of_service"] ->
  generate_suggested_questions document_type clauses
  = (base_questions ++ firstn 3 (type_questions document_type))%list
  /\ generate_suggested_questions document_type clauses
     = generate_suggested_questions document_type [].
Proof.
  intros Hin. cbn [In] in Hin.
  destruct Hin as [<-|[<-|[<-|[<-|[]]]]];
    (split;
     [ unfold generate_suggested_questions, append_if;
       fold (mentions "security_deposit" clauses);
       fold (mentions "non_compete" clauses);
       fold (mentions "data_sharing" clauses);
       fold (mentions "limitation_liability" clauses);
       destruct (mentions "security_deposit" clauses);
       destruct (mentions "non_compete" clauses);
       destruct (mentions "data_sharing" clauses);
       destruct (mentions "limitation_liability" clauses); reflexivity
     | unfold generate_suggested_questions, append_if;
       fold (mentions "security_deposit" clauses);
       fold (mentions "non_compete" clauses);
       fold (mentions "data_sharing" clauses);
       fold (mentions "limitation_liability" clauses);
       destruct (mentions "security_deposit" clauses);
       destruct (mentions "non_compete" clauses);
       destruct (mentions "data_sharing" clauses);
       destruct (mentions "limitation_liability" clauses); reflexivity ]).
Qed.

Lemma suggestions_ignore_clauses_witness :
  generate_suggested_questions "loan_contract" [clause_with_type "non_compete"]
  = (base_questions ++ firstn 3 (type_questions "loan_contract"))%list
  /\ generate_suggested_questions "loan_contract" [clause_with_type "non_compete"]
     = generate_suggested_questions "loan_contract" [].
Proof.
  apply (suggestions_ignore_clauses "loan_contract" [clause_with_type "non_compete"]).
  simpl. tauto.
Defined.

(** [X6] For any other document type the suggestions are the base questions
    followed by the questions of the clause types present (security deposit,
    non-compete, data sharing, limitation of liability, in this order), cut
    to eight: when all four are present the liability question is dropped. *)
Theorem suggestions_from_clauses (document_type : string) (clauses : list ClauseDict) :
  type_questions document_type = [] ->
  generate_suggested_questions document_type clauses
  = firstn 8
      (base_questions
       ++ clause_question "security_deposit"
            "When and how will I get my security deposit back?" clauses
       ++ clause_question "non_compete"
            "What jobs am I restricted from taking after this ends?" clauses
       ++ clause_question "data_sharing"
            "Who else will have access to my personal information?" clauses
       ++ clause_question "limitation_liability"
            "What damages can I recover if something goes wrong?" clauses)%list.
Proof.
  intros Htype.
  unfold generate_suggested_questions, append_if, clause_question. rewrite Htype.
  fold (mentions "security_deposit" clauses).
  fold (mentions "non_compete" clauses).
  fold (mentions "data_sharing" clauses).
  fold (mentions "limitation_liability" clauses).
  destruct (mentions "security_deposit" clauses);
    destruct (mentions "non_compete" clauses);
    destruct (mentions "data_sharing" clauses);
    destruct (mentions "limitation_liability" clauses); reflexivity.
Qed.

Lemma suggestions_from_clauses_witness :
  generate_suggested_questions "nda"
    [ clause_with_type "security_deposit"; clause_with_type "non_compete";
      clause_with_type "data_sharing"; clause_with_type "limitation_liability" ]
  = (base_questions
     ++ [ "When and how will I get my security deposit back?";
          "What jobs am I restricted from taking after this ends?";
          "Who else will have access to my personal information?" ])%list.
Proof.
  rewrite (suggestions_from_clauses "nda"
             [ clause_with_type "security_deposit"; clause_with_type "non_compete";
               clause_with_type "data_sharing"; clause_with_type "limitation_liability" ]
             eq_refl).
  reflexivity.
Defined.

End SuggestionsSpec.

(** ** The text of a layout *)

Module LayoutSpec.
Import DocumentAI LayoutVocabulary PyFacts.

Lemma append_assoc (a b c : string) : (a ++ b) ++ c = a ++ (b ++ c).
Proof.
  induction a as [|x a IH]; [reflexivity|].
  rewrite !append_cons. now rewrite IH.
Qed.

Lemma append_empty_r (a : string) : a ++ "" = a.
Proof. induction a as [|x a IH]; [reflexivity|]. rewrite append_cons. now rewrite IH. Qed.

Lemma substring_prefix (m q : string) :
  String.substring 0 (String.length m) (m ++ q) = m.
Proof.
  induction m as [|c m IH].
  - rewrite append_nil. now destruct q.
  - rewrite append_cons. simpl. now rewrite IH.
Qed.

Lemma substring_middle (p m q : string) :
  String.substring (String.length p) (String.length m) (p ++ m ++ q) = m.
Proof.
  induction p as [|c p IH].
  - rewrite append_nil. apply substring_prefix.
  - rewrite append_cons. simpl. exact IH.
Qed.

Lemma length_substring (n m : nat) (s : string) :
  n + m <= String.length s -> String.length (String.substring n m s) = m.
Proof.
  revert n m. induction s as [|c s IH]; intros [|n] [|m] H; simpl in *;
    try reflexivity; try lia.
  - rewrite IH by lia. reflexivity.
  - apply IH. lia.
  - apply IH. lia.
Qed.

Lemma substring_all (s : string) : String.substring 0 (String.length s) s = s.
Proof. induction s as [|c s IH]; simpl; [reflexivity | now rewrite IH]. Qed.

(** A segment inside the text, read as a slice. *)
Lemma segment_text_slice (text : string) (a b : Z) :
  (0 <= a <= b)%Z -> (b <= Z.of_nat (String.length text))%Z -> b <> 0%Z ->
  segment_text text {| start_index := a; end_index := b |}
  = String.substring (Z.to_nat a) (Z.to_nat (b - a)) text.
Proof.
  intros Hab Hb Hb0. unfold segment_text, str_slice, clamp_index.
  cbn [start_index end_index].
  destruct (Z.eqb_spec b 0) as [->|_]; [now elim Hb0|].
  destruct (Z.eqb_spec a 0) as [->|_].
  - destruct (Z.ltb_spec 0 0); [lia|]. destruct (Z.ltb_spec b 0); [lia|].
    now rewrite !Z.min_l by lia.
  - destruct (Z.ltb_spec a 0); [lia|]. destruct (Z.ltb_spec b 0); [lia|].
    now rewrite !Z.min_l by lia.
Qed.

(** [X7] A segment that lies inside the document text, with a non-zero end,
    contributes exactly the characters from its start up to its end: as many
    as the two indices are apart. A segment whose end index is 0 is read as
    reaching the end of the document, so the segment (0, 0) contributes the
    whole text. *)
Theorem segment_text_cases (text : string) (a b : Z) :
  (0 <= a <= Z.of_nat (String.length text))%Z ->
  ((a <= b <= Z.of_nat (String.length text))%Z -> b <> 0%Z ->
   segment_text text {| start_index := a; end_index := b |}
   = String.substring (Z.to_nat a) (Z.to_nat (b - a)) text
   /\ Z.of_nat (String.length
                  (segment_text text {| start_index := a; end_index := b |}))
      = (b - a)%Z)
  /\ segment_text text {| start_index := a; end_index := 0 |}
     = String.substring (Z.to_nat a) (String.length text - Z.to_nat a) text
  /\ segment_text text {| start_index := 0; end_index := 0 |} = text.
Proof.
  intros Ha. split; [|split].
  - intros Hb Hb0. rewrite segment_text_slice by lia.
    split; [reflexivity|]. rewrite length_substring by lia. lia.
  - unfold segment_text, str_slice, clamp_index. cbn [start_index end_index].
    rewrite Z.eqb_refl.
    destruct (Z.eqb_spec a 0) as [->|_].
    + destruct (Z.ltb_spec 0 0); [lia|].
      destruct (Z.ltb_spec (Z.of_nat (String.length text)) 0); [lia|].
      rewrite !Z.min_l by lia. f_equal; lia.
    + destruct (Z.ltb_spec a 0); [lia|].
      destruct (Z.ltb_spec (Z.of_nat (String.length text)) 0); [lia|].
      rewrite !Z.min_l by lia. f_equal; lia.
  - unfold segment_text, str_slice, clamp_index. cbn [start_index end_index].
    cbn [Z.eqb].
    destruct (Z.ltb_spec 0 0); [lia|].
    destruct (Z.ltb_spec (Z.of_nat (String.length text)) 0); [lia|].
    rewrite !Z.min_l by lia.
    replace (Z.to_nat (Z.of_nat (String.length text) - 0)) with (String.length text) by lia.
    apply substring_all.
Qed.

Lemma segment_text_cases_witness :
  segment_text "Lease agreement" {| start_index := 6; end_index := 15 |}
  = String.substring 6 9 "Lease agreement"
  /\ segment_text "Lease agreement" {| start_index := 0; end_index := 0 |}
     = "Lease agreement".
Proof.
  destruct (segment_text_cases "Lease agreement" 6 15) as (Hin & _ & Hall).
  - simpl. lia.
  - split; [|exact Hall]. apply Hin; simpl; lia.
Defined.

(** The loop over the tiling of a part of the text. *)
Lemma tiling_loop (pre post : string) (pieces : list string) (acc : string) :
  Forall (fun p => p <> "") pieces ->
  fold_left (fun text segment =>
               text ++ segment_text (pre ++ join pieces ++ post) segment)
            (tiling (Z.of_nat (String.length pre)) pieces) acc
  = acc ++ join pieces.
Proof.
  intros Hne. revert pre acc.
  induction Hne as [|p pieces Hp Hne IH]; intros pre acc.
  - simpl. now rewrite append_empty_r.
  - cbn [tiling fold_left join fold_right]. fold (join pieces).
    rewrite segment_text_slice.
    + replace (Z.to_nat (Z.of_nat (String.length pre))) with (String.length pre) by lia.
      replace (Z.to_nat (Z.of_nat (String.length pre) + Z.of_nat (String.length p)
                         - Z.of_nat (String.length pre)))
        with (String.length p) by lia.
      rewrite (append_assoc p (join pieces) post), substring_middle.
      specialize (IH (pre ++ p) (acc ++ p)).
      rewrite length_append, Nat2Z.inj_add in IH.
      rewrite (append_assoc pre p) in IH. rewrite IH.
      now rewrite append_assoc.
    + lia.
    + rewrite !length_append. lia.
    + destruct p; [now elim Hp | simpl; lia].
Qed.

(** [X8] A layout whose segments cut the document text into consecutive
    non-empty pieces gives back the text: the pieces come out in order and
    nothing is lost or repeated. *)
Theorem tiling_round_trip (pieces : list string) :
  Forall (fun p => p <> "") pieces ->
  get_text_from_layout (join pieces) (tiling 0 pieces) = join pieces.
Proof.
  intros Hne. unfold get_text_from_layout.
  pose proof (tiling_loop "" "" pieces "" Hne) as H.
  rewrite append_nil, append_empty_r in H. exact H.
Qed.

Lemma tiling_round_trip_witness :
  get_text_from_layout (join ["Lease "; "agreement"; "."])
                       (tiling 0 ["Lease "; "agreement"; "."])
  = join ["Lease "; "agreement"; "."].
Proof.
  apply (tiling_round_trip ["Lease "; "agreement"; "."]).
  repeat constructor; discriminate.
Defined.

End LayoutSpec.
(** ** The classifier on replies it accepts, and the endpoint's outcomes *)

Module ClassifierMoreSpec.
Import VertexAI PyFacts ClassifierSamples ClassifierVocabulary.

Section Classifier.

Variable generate_text : Prompt -> result string.
Variable json_loads : string -> option json.
Variable coerce_str : json -> option string.
Variable strip_lower : string -> string.
Variable server_timestamp utcnow : Z.
Variable str_of_exn : exn -> string.

(** [X9] Whatever the model replies, the document type the classifier
    returns is one of the seven listed types: the stripped, lower-cased reply
    when that is listed, "other" when it is not. It raises only when the
    generation call does. *)
Theorem classify_document_type_listed (text : string) :
  match classify_document_type generate_text strip_lower text with
  | Ok document_type =>
      In document_type valid_types
      /\ exists reply,
          generate_text (DocumentTypePrompt (slice_to 2000 text)) = Ok reply
          /\ (In (strip_lower reply) valid_types -> document_type = strip_lower reply)
          /\ (~ In (strip_lower reply) valid_types -> document_type = "other")
  | Raise e => generate_text (DocumentTypePrompt (slice_to 2000 text)) = Raise e
  end.
Proof.
  unfold classify_document_type.
  destruct (generate_text _) as [reply|e]; cbn [bind]; [|reflexivity].
  destruct (existsb (String.eqb (strip_lower reply)) valid_types) eqn:Hin.
  - apply existsb_exists in Hin as (t & Ht & Heq). apply String.eqb_eq in Heq. subst t.
    split; [exact Ht|]. exists reply. split; [reflexivity|]. split; [reflexivity|].
    intros Hno. now elim Hno.
  - split; [simpl; tauto|]. exists reply. split; [reflexivity|]. split; [|reflexivity].
    intros Ht. exfalso.
    assert (Hex : existsb (String.eqb (strip_lower reply)) valid_types = true).
    { apply existsb_exists. exists (strip_lower reply).
      split; [exact Ht | apply String.eqb_refl]. }
    congruence.
Qed.

(** The clause loop from any starting index. *)
Lemma classify_clauses_from (items : list json) (start : nat) (clauses : list ClauseAnalysis) :
  classify_clauses coerce_str (combine (seq start (length items)) items) = Ok clauses ->
  length clauses = length items
  /\ map ca_id clauses
     = map (fun i => "clause_" ++ str_of_nat (i + 1)) (seq start (length items))
  /\ Forall within_bounds clauses
  /\ Forall (fun c => In (ClauseType.value (ca_clause_type c)) ClauseType.values) clauses.
Proof.
  revert start clauses.
  induction items as [|item items IH]; intros start clauses;
    cbn [length seq combine classify_clauses].
  - intros [= <-]. repeat split; constructor.
  - destruct (classify_clause coerce_str (start, item)) as [c|] eqn:Hc;
      cbn [bind]; [|discriminate].
    destruct (classify_clauses coerce_str _) as [cs|] eqn:Hcs; cbn [bind]; [|discriminate].
    intros [= <-].
    destruct (IH _ _ Hcs) as (Hlen & Hids & Hbounds & Htypes).
    apply ClassifierSpec.classify_clause_ok in Hc
      as (Hid & _ & Hty & _ & H1 & H2 & H3 & H4 & H5).
    cbn [length map]. rewrite Hlen, Hid, Hids.
    split; [reflexivity|]. split; [reflexivity|].
    split; constructor; try assumption.
    repeat split; assumption.
Qed.

(** [X10] When the classifier returns, the reply was parsed, there is one
    clause per item of its "clauses" list, in order, with ids clause_1,
    clause_2, ...; every clause has a type of the enum, texts of at most 2000,
    500 and 300 characters, at most 3 recommendations and confidence 0.8. *)
Theorem segment_returns (text : string) (paragraphs : list Paragraph)
    (clauses : list ClauseAnalysis) :
  segment_and_classify_clauses generate_text json_loads coerce_str text paragraphs
  = Ok clauses ->
  exists reply parsed listed items,
    generate_text (ClausesPrompt (join_comma ClauseType.values) text) = Ok reply
    /\ json_loads reply = Some parsed
    /\ dict_get parsed "clauses" (JArr []) = Ok listed
    /\ iterate listed = Ok items
    /\ length clauses = length items
    /\ map ca_id clauses = clause_ids (length items)
    /\ Forall within_bounds clauses
    /\ Forall (fun c => In (ClauseType.value (ca_clause_type c)) ClauseType.values) clauses.
Proof.
  unfold segment_and_classify_clauses.
  destruct (generate_text _) as [reply|] eqn:Hgen; cbn [bind]; [|discriminate].
  destruct (json_loads reply) as [parsed|] eqn:Hloads; [|discriminate].
  destruct (dict_get parsed "clauses" (JArr [])) as [listed|] eqn:Hget;
    cbn [bind]; [|discriminate].
  destruct (iterate listed) as [items|] eqn:Hiter; cbn [bind]; [|discriminate].
  unfold enumerate. intros Hloop.
  apply classify_clauses_from in Hloop as (Hlen & Hids & Hbounds & Htypes).
  exists reply, parsed, listed, items. repeat split; assumption.
Qed.

End Classifier.

Lemma segment_returns_witness :
  Forall within_bounds
    [ {| ca_id := "clause_1";
         ca_clause_type := ClauseType.PAYMENT_TERMS;
         ca_original_text := "Tenant shall pay rent monthly.";
         ca_plain_language := "You pay rent every month.";
         ca_risk_level := RiskLevel.MEDIUM;
         ca_risk_reason := "Standard term.";
         ca_recommendations := ["a"; "b"; "c"];
         ca_confidence_score := Some 0.8%float |} ].
Proof.
  destruct (segment_returns (reply_model "listed") sample_loads no_coerce
              "Tenant shall pay rent monthly." [] _ eq_refl)
    as (_ & _ & _ & _ & _ & _ & _ & _ & _ & _ & Hbounds & _).
  exact Hbounds.
Defined.

End ClassifierMoreSpec.

(** ** The outcomes of the classification endpoint *)

Module ClassifierOutcomeSpec.
Import VertexAI PyFacts ClassifierSamples ClassifierVocabulary.

Section Endpoint.

Variable generate_text : Prompt -> result string.
Variable json_loads : string -> option json.
Variable coerce_str : json -> option string.
Variable strip_lower : string -> string.
Variable server_timestamp utcnow : Z.
Variable str_of_exn : exn -> string.

Let classify :=
  classify_document_clauses generate_text json_loads coerce_str strip_lower
                            server_timestamp utcnow str_of_exn.

Lemma classify_document_type_valid (text document_type : string) :
  classify_document_type generate_text strip_lower text = Ok document_type ->
  In document_type valid_types.
Proof.
  unfold classify_document_type. destruct (generate_text _) as [reply|]; [|discriminate].
  cbn [bind]. destruct (existsb _ valid_types) eqn:Hlisted; intros [= <-].
  - apply existsb_exists in Hlisted. destruct Hlisted as (t & Hin & Heq).
    apply String.eqb_eq in Heq. now subst t.
  - cbn. tauto.
Qed.

(** What the [try] body leaves of a stored document when it raises: the
    document as it was, or marked as processing. *)
Lemma body_raises
    (fs fs' : Firestore) (document_id : string) (current_user : option string)
    (doc_data : Document) (e : exn) :
  documents fs !! document_id = Some doc_data ->
  classify_document_clauses_body generate_text json_loads coerce_str strip_lower
    server_timestamp utcnow fs document_id current_user
  = (Raise e, fs') ->
  (access_denied current_user doc_data = true -> e = HTTPException 403 "Access denied")
  /\ (fs' = fs
      \/ fs' = {| documents :=
                    <[document_id := update_processing server_timestamp doc_data]>
                      (documents fs);
                  embeddings := embeddings fs;
                  qa_history := qa_history fs |}).
Proof.
  intros Hdoc. unfold classify_document_clauses_body. rewrite Hdoc.
  destruct (access_denied current_user doc_data).
  { intros [= <- <-]. split; [reflexivity | now left]. }
  destruct (negb _).
  { intros [= <- <-]. split; [discriminate | now left]. }
  unfold doc_update at 1. rewrite Hdoc.
  destruct (String.eqb (d_raw_text doc_data) "").
  { intros [= <- <-]. split; [discriminate | now right]. }
  destruct (classify_document_type _ _ _) as [document_type|e1].
  2:{ intros [= <- <-]. split; [discriminate | now right]. }
  destruct (segment_and_classify_clauses _ _ _ _ _) as [clauses|e2].
  2:{ intros [= <- <-]. split; [discriminate | now right]. }
  unfold doc_update. cbn [documents]. rewrite lookup_insert_eq. discriminate.
Qed.

(** [X11] Every exception of the classification endpoint on a stored
    document is an HTTP error, and it leaves the document with status
    "failed", its text and clauses untouched and nothing else in the store
    changed. This includes the 403 answered to a caller who is not the
    owner: the owner's document is marked failed all the same. *)
Theorem classify_failure_recorded
    (fs fs' : Firestore) (document_id : string) (current_user : option string)
    (doc_data : Document) (e : exn) :
  documents fs !! document_id = Some doc_data ->
  classify fs document_id current_user = (Raise e, fs') ->
  is_http e = true
  /\ (access_denied current_user doc_data = true -> e = HTTPException 403 "Access denied")
  /\ exists doc_data',
      documents fs' !! document_id = Some doc_data'
      /\ d_processing_status doc_data' = Some "failed"
      /\ d_clauses doc_data' = d_clauses doc_data
      /\ d_raw_text doc_data' = d_raw_text doc_data
      /\ d_user_id doc_data' = d_user_id doc_data
      /\ (forall other, other <> document_id ->
                        documents fs' !! other = documents fs !! other)
      /\ embeddings fs' = embeddings fs
      /\ qa_history fs' = qa_history fs.
Proof.
  intros Hdoc. unfold classify, classify_document_clauses.
  destruct (classify_document_clauses_body _ _ _ _ _ _ _ _ _)
    as [[response|e0] fs0] eqn:Hbody; [discriminate|].
  destruct (body_raises _ _ _ _ _ _ Hdoc Hbody) as [Hdenied [->| ->]];
    unfold doc_update; cbn [documents embeddings qa_history];
    rewrite ?lookup_insert_eq, ?Hdoc;
    (destruct (is_http e0) eqn:Hhttp; intros [= <- <-];
     (split; [first [exact Hhttp | reflexivity]|]);
     (split; [first [exact Hdenied
                    | intros Hd; apply Hdenied in Hd; subst e0; discriminate Hhttp]|]);
     eexists; cbn [documents embeddings qa_history];
     (split; [apply lookup_insert_eq|]);
     repeat (split; [reflexivity|]);
     (split; [|split; reflexivity]);
     intros other Hother; rewrite ?lookup_insert_ne by congruence; reflexivity).
Qed.

(** The store and the response of a successful classification. *)
Lemma classify_ok_inv
    (fs fs' : Firestore) (document_id : string) (current_user : option string)
    (response : ClassificationResponse) :
  classify fs document_id current_user = (Ok response, fs') ->
  exists doc_data document_type clauses,
    documents fs !! document_id = Some doc_data
    /\ access_denied current_user doc_data = false
    /\ d_processing_status doc_data = Some "ocr_complete"
    /\ d_raw_text doc_data <> ""
    /\ In document_type valid_types
    /\ segment_and_classify_clauses generate_text json_loads coerce_str
         (d_raw_text doc_data) (d_paragraphs doc_data)
       = Ok clauses
    /\ cr_document_type response = document_type
    /\ cr_clauses_found response = length clauses
    /\ fs' = {| documents :=
                  <[document_id :=
                      update_classified document_type (map clause_dict clauses) utcnow
                        server_timestamp (update_processing server_timestamp doc_data)]>
                    (<[document_id := update_processing server_timestamp doc_data]>
                       (documents fs));
                embeddings := embeddings fs;
                qa_history := qa_history fs |}.
Proof.
  unfold classify, classify_document_clauses.
  destruct (classify_document_clauses_body _ _ _ _ _ _ _ _ _)
    as [[response0|e0] fs0] eqn:Hbody.
  2:{ destruct (doc_update _ _ _); [destruct (is_http e0)|]; discriminate. }
  intros [= <- <-]. revert Hbody. unfold classify_document_clauses_body.
  destruct (documents fs !! document_id) as [doc_data|] eqn:Hdoc; [|discriminate].
  destruct (access_denied current_user doc_data) eqn:Hacc; [discriminate|].
  destruct (bool_decide _) eqn:Hstatus; cbn [negb]; [|discriminate].
  apply bool_decide_eq_true_1 in Hstatus.
  unfold doc_update at 1. rewrite Hdoc.
  destruct (String.eqb (d_raw_text doc_data) "") eqn:Hraw; [discriminate|].
  destruct (classify_document_type _ _ _) as [document_type|] eqn:Htype; [|discriminate].
  apply classify_document_type_valid in Htype.
  destruct (segment_and_classify_clauses _ _ _ _ _) as [clauses|] eqn:Hseg; [|discriminate].
  unfold doc_update. cbn [documents embeddings qa_history]. rewrite lookup_insert_eq.
  intros [= <- <-].
  exists doc_data, document_type, clauses.
  split; [reflexivity|]. split; [exact Hacc|]. split; [exact Hstatus|].
  split; [now apply String.eqb_neq|]. split; [exact Htype|]. split; [exact Hseg|].
  repeat split.
Qed.

(** [X12] When the classification endpoint succeeds, the document was at
    "ocr_complete" with a non-empty text and the caller was allowed; it is
    now "classified", it holds the dicts of the clauses the classifier
    returned, as many as the response counts, and one of the seven document
    types, the one the response names. Its text, owner and knowledge-base
    fields are unchanged, and so is the rest of the store. *)
Theorem classify_success
    (fs fs' : Firestore) (document_id : string) (current_user : option string)
    (response : ClassificationResponse) :
  classify fs document_id current_user = (Ok response, fs') ->
  exists doc_data clauses doc_data',
    documents fs !! document_id = Some doc_data
    /\ access_denied current_user doc_data = false
    /\ d_processing_status doc_data = Some "ocr_complete"
    /\ d_raw_text doc_data <> ""
    /\ segment_and_classify_clauses generate_text json_loads coerce_str
         (d_raw_text doc_data) (d_paragraphs doc_data)
       = Ok clauses
    /\ documents fs' !! document_id = Some doc_data'
    /\ d_processing_status doc_data' = Some "classified"
    /\ d_clauses doc_data' = map clause_dict clauses
    /\ cr_clauses_found response = length clauses
    /\ d_document_type doc_data' = Some (cr_document_type response)
    /\ In (cr_document_type response) valid_types
    /\ d_classification_timestamp doc_data' = Some utcnow
    /\ d_raw_text doc_data' = d_raw_text doc_data
    /\ d_user_id doc_data' = d_user_id doc_data
    /\ d_knowledge_base_created doc_data' = d_knowledge_base_created doc_data
    /\ (forall other, other <> document_id ->
                      documents fs' !! other = documents fs !! other)
    /\ embeddings fs' = embeddings fs
    /\ qa_history fs' = qa_history fs.
Proof.
  intros Hcall.
  destruct (classify_ok_inv _ _ _ _ _ Hcall)
    as (doc_data & document_type & clauses & Hdoc & Hacc & Hstatus & Hraw & Htype & Hseg
        & Hty & Hn & ->).
  exists doc_data, clauses. eexists. cbn [documents embeddings qa_history].
  split; [exact Hdoc|]. split; [exact Hacc|]. split; [exact Hstatus|].
  split; [exact Hraw|]. split; [exact Hseg|].
  split; [apply lookup_insert_eq|].
  rewrite Hty. cbn. repeat (split; [first [reflexivity | assumption]|]).
  split; [|split; reflexivity].
  intros other Hother. now rewrite !lookup_insert_ne by congruence.
Qed.

End Endpoint.

Lemma classify_failure_recorded_witness :
  exists doc_data',
    documents
      (snd (classify_document_clauses listed_model sample_loads no_coerce id 20%Z 21%Z
              (fun _ => "error") ocr_store "doc1" (Some "mallory")))
    !! "doc1" = Some doc_data'
    /\ d_processing_status doc_data' = Some "failed".
Proof.
  destruct (classify_document_clauses listed_model sample_loads no_coerce id 20%Z 21%Z
              (fun _ => "error") ocr_store "doc1" (Some "mallory"))
    as [[response|e] fs'] eqn:Hcall.
  - exfalso. vm_compute in Hcall. discriminate Hcall.
  - destruct (classify_failure_recorded listed_model sample_loads no_coerce id 20%Z 21%Z
                (fun _ => "error") ocr_store fs' "doc1" (Some "mallory") ocr_document e
                (lookup_singleton_eq _ _) Hcall)
      as (_ & _ & doc_data' & Hget & Hstatus & _).
    exists doc_data'. now split.
Defined.

Lemma classify_success_witness :
  exists response fs',
    classify_document_clauses listed_model sample_loads no_coerce id 20%Z 21%Z
      (fun _ => "error") ocr_store "doc1" (Some "alice")
    = (Ok response, fs')
    /\ cr_clauses_found response = 1
    /\ In (cr_document_type response) valid_types.
Proof.
  destruct (classify_document_clauses listed_model sample_loads no_coerce id 20%Z 21%Z
              (fun _ => "error") ocr_store "doc1" (Some "alice"))
    as [[response|e] fs'] eqn:Hcall.
  - exists response, fs'. split; [reflexivity|].
    destruct (classify_success listed_model sample_loads no_coerce id 20%Z 21%Z
                (fun _ => "error") ocr_store fs' "doc1" (Some "alice") response Hcall)
      as (doc_data & clauses & doc_data' & Hdoc & _ & _ & _ & Hseg & _ & _ & _ & Hn
          & _ & Hty & _).
    split; [|exact Hty].
    unfold ocr_store in Hdoc. cbn [documents] in Hdoc.
    rewrite (lookup_singleton_eq (M := gmap string)) in Hdoc. injection Hdoc as <-.
    vm_compute in Hseg. injection Hseg as <-. exact Hn.
  - exfalso. vm_compute in Hcall. discriminate Hcall.
Defined.

End ClassifierOutcomeSpec.

(** ** The analysis stage *)

Module AnalysisSpec.
Import VertexAI Analysis PyFacts ClassifierVocabulary AnalysisVocabulary.

Lemma clause_type_call_value (t : ClauseType.t) :
  ClauseType.call (ClauseType.value t) = Ok t.
Proof. destruct t; reflexivity. Qed.

Lemma clause_type_value_call (s : string) (t : ClauseType.t) :
  ClauseType.call s = Ok t -> ClauseType.value t = s.
Proof.
  unfold ClauseType.call.
  destruct (find _ ClauseType.members) as [m|] eqn:Hfind; [|discriminate].
  intros [= <-]. apply find_some in Hfind. now apply String.eqb_eq.
Qed.

Lemma risk_level_call_value (r : RiskLevel.t) :
  RiskLevel.call (RiskLevel.value r) = Ok r.
Proof. destruct r; reflexivity. Qed.

Lemma risk_level_value_call (s : string) (r : RiskLevel.t) :
  RiskLevel.call s = Ok r -> RiskLevel.value r = s.
Proof.
  unfold RiskLevel.call.
  destruct (find _ RiskLevel.members) as [m|] eqn:Hfind; [|discriminate].
  intros [= <-]. apply find_some in Hfind. now apply String.eqb_eq.
Qed.

Lemma parse_clause_dict (c : ClauseAnalysis) : parse_clause (clause_dict c) = Ok c.
Proof.
  unfold parse_clause, clause_dict. cbn [c_id c_clause_type c_original_text
    c_plain_language c_risk_level c_risk_reason c_recommendations c_confidence_score
    required bind].
  rewrite clause_type_call_value, risk_level_call_value. cbn [validated bind].
  now destruct c.
Qed.

Lemma parse_clauses_dicts (clauses : list ClauseAnalysis) :
  parse_clauses (map clause_dict clauses) = Ok clauses.
Proof.
  induction clauses as [|c cs IH]; [reflexivity|].
  cbn [map parse_clauses]. now rewrite parse_clause_dict, IH.
Qed.

Lemma parse_clause_inv (clause : ClauseDict) (c : ClauseAnalysis) :
  parse_clause clause = Ok c -> clause = clause_dict c.
Proof.
  unfold parse_clause.
  destruct clause as [[id|] [ty|] [text|] [plain|] [level|] [reason|] recs conf];
    cbn [c_id c_clause_type c_original_text c_plain_language c_risk_level c_risk_reason
         c_recommendations c_confidence_score required bind]; try discriminate;
    try (destruct (validated _); cbn [bind]; try discriminate;
         destruct (validated _); discriminate).
  destruct (ClauseType.call ty) as [t|] eqn:Hty; cbn [validated bind]; [|discriminate].
  destruct (RiskLevel.call level) as [r|] eqn:Hlevel; cbn [validated bind]; [|discriminate].
  intros [= <-]. unfold clause_dict. cbn.
  now rewrite (clause_type_value_call _ _ Hty), (risk_level_value_call _ _ Hlevel).
Qed.

Lemma parse_clauses_dicts_inv (clauses_data : list ClauseDict) (clauses : list ClauseAnalysis) :
  parse_clauses clauses_data = Ok clauses -> clauses_data = map clause_dict clauses.
Proof.
  revert clauses; induction clauses_data as [|d ds IH]; intros clauses.
  - now intros [= <-].
  - cbn [parse_clauses].
    destruct (parse_clause d) as [c|] eqn:Hc; cbn [bind]; [|discriminate].
    destruct (parse_clauses ds) as [cs|]; cbn [bind]; [|discriminate].
    intros [= <-]. cbn [map]. now rewrite (parse_clause_inv _ _ Hc), (IH cs eq_refl).
Qed.

(** [X13] The clause dicts that the analysis stage and the result endpoint
    accept are exactly the ones the classification stage writes: a list of
    stored dicts parses to the clauses [clauses] if and only if it is the list
    of the dicts of [clauses]. In particular parsing what was stored gives
    the clauses back, and storing what was parsed gives the dicts back. *)
Theorem parse_clauses_inverse (clauses_data : list ClauseDict) (clauses : list ClauseAnalysis) :
  parse_clauses clauses_data = Ok clauses <-> clauses_data = map clause_dict clauses.
Proof.
  split; [apply parse_clauses_dicts_inv | intros ->; apply parse_clauses_dicts].
Qed.

Lemma overall_risk_level (clauses : list ClauseAnalysis) :
  exists r, calculate_overall_risk clauses = Ok r /\ In r ["high"; "medium"; "low"].
Proof.
  unfold calculate_overall_risk. destruct clauses as [|c cs].
  - eexists; split; [reflexivity | cbn; tauto].
  - rewrite RiskSpec.sum_scores_total. cbn [bind].
    destruct (Qle_bool (5 # 2) _); [eexists; split; [reflexivity | cbn; tauto]|].
    destruct (Qle_bool (3 # 2) _); eexists; (split; [reflexivity | cbn; tauto]).
Qed.

Lemma insert_only (document_id : string) (doc_data : Document) (fs : Firestore) :
  only_document document_id
    {| documents := <[document_id := doc_data]> (documents fs);
       embeddings := embeddings fs;
       qa_history := qa_history fs |}
    fs.
Proof.
  split; [|split; reflexivity].
  intros other Hother. cbn [documents]. now rewrite lookup_insert_ne by congruence.
Qed.

Lemma insert_insert_only (document_id : string) (d1 d2 : Document) (fs : Firestore) :
  only_document document_id
    {| documents := <[document_id := d2]> (<[document_id := d1]> (documents fs));
       embeddings := embeddings fs;
       qa_history := qa_history fs |}
    fs.
Proof.
  split; [|split; reflexivity].
  intros other Hother. cbn [documents]. now rewrite !lookup_insert_ne by congruence.
Qed.

Section Stage.

Variable generate_summary_text : string -> string -> result string.
Variable json_loads : string -> option json.
Variable server_timestamp utcnow : Z.
Variable str_of_exn : exn -> string.

Let analyze :=
  analyze_document generate_summary_text json_loads server_timestamp utcnow str_of_exn.

(** What the [try] body of the analysis leaves when it raises: the store as
    it was, or the document marked as processing. *)
Lemma analyze_body_raises
    (st st' : AnalysisStore) (document_id : string) (current_user : option string)
    (doc_data : Document) (e : exn) :
  documents (st_fs st) !! document_id = Some doc_data ->
  analyze_document_body generate_summary_text json_loads server_timestamp utcnow
    st document_id current_user
  = (Raise e, st') ->
  (access_denied current_user doc_data = true -> e = HTTPException 403 "Access denied")
  /\ (access_denied current_user doc_data = false ->
      d_processing_status doc_data <> Some "classified" ->
      e = HTTPException 400 "Document must complete clause classification first")
  /\ (access_denied current_user doc_data = false ->
      d_processing_status doc_data = Some "classified" ->
      d_clauses doc_data = [] ->
      e = HTTPException 400 "No clauses found in document")
  /\ (st' = st
      \/ st' = {| st_fs :=
                    {| documents :=
                         <[document_id := update_processing server_timestamp doc_data]>
                           (documents (st_fs st));
                       embeddings := embeddings (st_fs st);
                       qa_history := qa_history (st_fs st) |};
                  st_rest := st_rest st |}).
Proof.
  intros Hdoc. unfold analyze_document_body. rewrite Hdoc.
  destruct (access_denied current_user doc_data).
  { intros [= <- <-]. repeat split; try discriminate; try reflexivity. now left. }
  destruct (bool_decide _) eqn:Hstatus; cbn [negb].
  2:{ intros [= <- <-]. apply bool_decide_eq_false_1 in Hstatus.
      repeat split; try discriminate; try reflexivity; [|now left].
      intros _ Hc. now destruct Hstatus. }
  apply bool_decide_eq_true_1 in Hstatus.
  unfold store_update, doc_update at 1. rewrite Hdoc. cbn [bind].
  destruct (parse_clauses (d_clauses doc_data)) as [[|c cs]|e1] eqn:Hparse.
  - intros [= <- <-]. repeat split; try discriminate; try reflexivity; [|now right].
    intros _ Hne. now destruct Hne.
  - destruct (generate_summary_and_findings _ _ _ _) as [summary_data|e2].
    2:{ intros [= <- <-]. repeat split; try discriminate; [| |now right].
        - intros _ Hne. now destruct Hne.
        - intros _ _ Hnil. rewrite Hnil in Hparse. discriminate Hparse. }
    destruct (calculate_overall_risk _) as [overall_risk|e3].
    2:{ intros [= <- <-]. repeat split; try discriminate; [| |now right].
        - intros _ Hne. now destruct Hne.
        - intros _ _ Hnil. rewrite Hnil in Hparse. discriminate Hparse. }
    unfold doc_update. cbn [documents st_fs]. rewrite lookup_insert_eq. discriminate.
  - intros [= <- <-]. repeat split; try discriminate; [| |now right].
    + intros _ Hne. now destruct Hne.
    + intros _ _ Hnil. rewrite Hnil in Hparse. discriminate Hparse.
Qed.

(** The store and the response of a successful analysis. *)
Lemma analyze_ok_inv
    (st st' : AnalysisStore) (document_id : string) (current_user : option string)
    (response : AnalyzeResponse) :
  analyze st document_id current_user = (Ok response, st') ->
  exists doc_data clauses summary_data,
    documents (st_fs st) !! document_id = Some doc_data
    /\ access_denied current_user doc_data = false
    /\ d_processing_status doc_data = Some "classified"
    /\ d_clauses doc_data = map clause_dict clauses
    /\ clauses <> []
    /\ generate_summary_and_findings generate_summary_text json_loads clauses
         (get_or (d_document_type doc_data) "other")
       = Ok summary_data
    /\ calculate_overall_risk clauses = Ok (ar_overall_risk response)
    /\ ar_summary response = sd_summary summary_data
    /\ ar_key_findings response = sd_key_findings summary_data
    /\ ar_clauses_analyzed response = length clauses
    /\ st' = {| st_fs :=
                  {| documents :=
                       <[document_id :=
                           update_analyzed server_timestamp
                             (update_processing server_timestamp doc_data)]>
                         (<[document_id := update_processing server_timestamp doc_data]>
                            (documents (st_fs st)));
                     embeddings := embeddings (st_fs st);
                     qa_history := qa_history (st_fs st) |};
                st_rest :=
                  <[document_id :=
                      rest_analyzed (ar_overall_risk response) (ar_summary response)
                        (ar_key_findings response) utcnow (rest_of st document_id)]>
                    (st_rest st) |}.
Proof.
  unfold analyze, analyze_document.
  destruct (analyze_document_body _ _ _ _ _ _ _) as [[response0|e0] st0] eqn:Hbody.
  2:{ destruct (store_update _ _ _); [destruct (is_http e0)|]; discriminate. }
  intros [= <- <-]. revert Hbody. unfold analyze_document_body.
  destruct (documents (st_fs st) !! document_id) as [doc_data|] eqn:Hdoc; [|discriminate].
  destruct (access_denied current_user doc_data) eqn:Hacc; [discriminate|].
  destruct (bool_decide _) eqn:Hstatus; cbn [negb]; [|discriminate].
  apply bool_decide_eq_true_1 in Hstatus.
  unfold store_update, doc_update at 1. rewrite Hdoc. cbn [bind].
  destruct (parse_clauses (d_clauses doc_data)) as [[|c cs]|] eqn:Hparse; try discriminate.
  apply parse_clauses_dicts_inv in Hparse.
  destruct (generate_summary_and_findings _ _ _ _) as [summary_data|] eqn:Hsummary;
    [|discriminate].
  destruct (calculate_overall_risk (c :: cs)) as [r|] eqn:Hr; [|discriminate].
  unfold doc_update. cbn [documents st_fs embeddings qa_history].
  rewrite lookup_insert_eq. intros [= <- <-].
  exists doc_data, (c :: cs), summary_data.
  split; [reflexivity|]. split; [exact Hacc|]. split; [exact Hstatus|].
  split; [exact Hparse|]. split; [discriminate|]. split; [exact Hsummary|].
  split; [exact Hr|]. repeat split.
Qed.

(** [X14] When the analysis endpoint succeeds, the document was at
    "classified", the caller was allowed, and its stored clause dicts were
    those of a non-empty list of clauses; the response counts them and its
    overall risk is [calculate_overall_risk] of them, one of "high",
    "medium", "low". The document is now "analyzed" with its clauses, text
    and type untouched; the overall risk, the summary and the findings of the
    response are stored with the analysis time; nothing else in the store is
    changed. *)
Theorem analyze_success
    (st st' : AnalysisStore) (document_id : string) (current_user : option string)
    (response : AnalyzeResponse) :
  analyze st document_id current_user = (Ok response, st') ->
  exists doc_data clauses doc_data',
    documents (st_fs st) !! document_id = Some doc_data
    /\ access_denied current_user doc_data = false
    /\ d_processing_status doc_data = Some "classified"
    /\ d_clauses doc_data = map clause_dict clauses
    /\ clauses <> []
    /\ ar_clauses_analyzed response = length (d_clauses doc_data)
    /\ calculate_overall_risk clauses = Ok (ar_overall_risk response)
    /\ In (ar_overall_risk response) ["high"; "medium"; "low"]
    /\ documents (st_fs st') !! document_id = Some doc_data'
    /\ recorded "analyzed" doc_data doc_data'
    /\ rest_of st' document_id
       = rest_analyzed (ar_overall_risk response) (ar_summary response)
           (ar_key_findings response) utcnow (rest_of st document_id)
    /\ only_document document_id (st_fs st') (st_fs st)
    /\ (forall other, other <> document_id ->
                      st_rest st' !! other = st_rest st !! other).
Proof.
  intros Hcall.
  destruct (analyze_ok_inv _ _ _ _ _ Hcall)
    as (doc_data & clauses & summary_data & Hdoc & Hacc & Hstatus & Hparse & Hne & _
        & Hr & _ & _ & Hn & ->).
  exists doc_data, clauses. eexists. cbn [st_fs st_rest documents].
  split; [exact Hdoc|]. split; [exact Hacc|]. split; [exact Hstatus|].
  split; [exact Hparse|]. split; [exact Hne|].
  split; [now rewrite Hparse, length_map|].
  split; [exact Hr|].
  split; [destruct (overall_risk_level clauses) as (r & Hr' & Hin); congruence|].
  split; [apply lookup_insert_eq|].
  split; [repeat split|].
  split; [unfold rest_of at 1; cbn [st_rest]; now rewrite lookup_insert_eq|].
  split; [apply insert_insert_only|].
  intros other Hother. now rewrite lookup_insert_ne by congruence.
Qed.

(** [X15] Every exception of the analysis endpoint on a stored document is
    an HTTP error and leaves the document "failed", with its clauses, text
    and type untouched and nothing else in the store changed. The error is
    403 for a caller who is not the owner, 400 for an allowed caller when the
    document is not at "classified", and 400 "No clauses found in document"
    for a classified document without clauses. *)
Theorem analyze_failure_recorded
    (st st' : AnalysisStore) (document_id : string) (current_user : option string)
    (doc_data : Document) (e : exn) :
  documents (st_fs st) !! document_id = Some doc_data ->
  analyze st document_id current_user = (Raise e, st') ->
  is_http e = true
  /\ (access_denied current_user doc_data = true -> e = HTTPException 403 "Access denied")
  /\ (access_denied current_user doc_data = false ->
      d_processing_status doc_data <> Some "classified" ->
      e = HTTPException 400 "Document must complete clause classification first")
  /\ (access_denied current_user doc_data = false ->
      d_processing_status doc_data = Some "classified" ->
      d_clauses doc_data = [] ->
      e = HTTPException 400 "No clauses found in document")
  /\ exists doc_data',
      documents (st_fs st') !! document_id = Some doc_data'
      /\ recorded "failed" doc_data doc_data'
      /\ only_document document_id (st_fs st') (st_fs st)
      /\ st_rest st' = st_rest st.
Proof.
  intros Hdoc. unfold analyze, analyze_document.
  destruct (analyze_document_body _ _ _ _ _ _ _) as [[response|e0] st0] eqn:Hbody;
    [discriminate|].
  destruct (analyze_body_raises _ _ _ _ _ _ Hdoc Hbody) as (H403 & H400 & Hnone & [->| ->]);
    unfold store_update, doc_update; cbn [documents st_fs st_rest embeddings qa_history];
    rewrite ?lookup_insert_eq, ?Hdoc; cbn [bind];
    (destruct (is_http e0) eqn:Hhttp; intros [= <- <-];
     (split; [first [exact Hhttp | reflexivity]|]);
     (split; [first [exact H403
                    | intros Hd; apply H403 in Hd; subst e0; discriminate Hhttp]|]);
     (split; [first [exact H400
                    | intros Ha Hs; specialize (H400 Ha Hs); subst e0; discriminate Hhttp]|]);
     (split; [first [exact Hnone
                    | intros Ha Hs Hn; specialize (Hnone Ha Hs Hn); subst e0;
                      discriminate Hhttp]|]);
     eexists; cbn [documents st_fs st_rest];
     (split; [apply lookup_insert_eq|]);
     (split; [repeat split|]);
     (split; [first [apply insert_only | apply insert_insert_only] | reflexivity])).
Qed.

(** [X17] The report of a successful analysis: the result endpoint called
    next by the same caller answers with the overall risk, the summary and
    the findings of the analysis response, the stored clause dicts as they
    were written by the classification, the analysis time and the status
    "analyzed". *)
Theorem analyze_then_result
    (st st' : AnalysisStore) (document_id : string) (current_user : option string)
    (response : AnalyzeResponse) :
  analyze st document_id current_user = (Ok response, st') ->
  exists doc_data,
    documents (st_fs st) !! document_id = Some doc_data
    /\ get_analysis_result str_of_exn st' document_id current_user
       = Ok {| res_document_id := document_id;
               res_file_name := get_or (x_file_name (rest_of st document_id)) "";
               res_document_type := get_or (d_document_type doc_data) "other";
               res_overall_risk := ar_overall_risk response;
               res_summary := ar_summary response;
               res_key_findings := ar_key_findings response;
               res_clauses := d_clauses doc_data;
               res_processed_at := Some utcnow;
               res_status := Some "analyzed" |}.
Proof.
  intros Hcall.
  destruct (analyze_ok_inv _ _ _ _ _ Hcall)
    as (doc_data & clauses & summary_data & Hdoc & Hacc & Hstatus & Hparse & _ & _
        & _ & _ & _ & _ & ->).
  exists doc_data. split; [exact Hdoc|].
  unfold get_analysis_result, rest_of. cbn [st_fs st_rest documents].
  rewrite !lookup_insert_eq.
  replace (access_denied current_user _) with false by (symmetry; exact Hacc).
  cbn [update_analyzed update_processing d_processing_status d_clauses d_document_type].
  rewrite Hparse, parse_clauses_dicts. reflexivity.
Qed.

(** The least and the greatest risk-level value of a clause list in the
    order of strings. *)
Lemma min_from_levels (best : RiskLevel.t) (clauses : list ClauseAnalysis) :
  min_from (RiskLevel.value best)
           (map (fun c => RiskLevel.value (ca_risk_level c)) clauses)
  = first_level ({| ca_id := ""; ca_clause_type := ClauseType.PAYMENT_TERMS;
                    ca_original_text := ""; ca_plain_language := "";
                    ca_risk_level := best; ca_risk_reason := "";
                    ca_recommendations := []; ca_confidence_score := None |} :: clauses).
Proof.
  revert best; induction clauses as [|c cs IH]; intros best.
  - now destruct best.
  - cbn [map min_from].
    destruct best, (ca_risk_level c) eqn:Hc;
      match goal with
      | |- min_from (if ?b then _ else _) _ = _ =>
          let v := eval vm_compute in b in change b with v; cbv iota
      end;
      match goal with
      | |- min_from ?s _ = _ =>
          first [ change s with (RiskLevel.value RiskLevel.HIGH)
                | change s with (RiskLevel.value RiskLevel.MEDIUM)
                | change s with (RiskLevel.value RiskLevel.LOW) ]
      end;
      rewrite IH; unfold first_level, is_level;
      cbn [existsb ca_risk_level orb]; rewrite ?Hc; cbn [orb];
      repeat match goal with
             | |- context [existsb ?f cs] => destruct (existsb f cs)
             end; reflexivity.
Qed.

Lemma max_from_levels (best : RiskLevel.t) (clauses : list ClauseAnalysis) :
  max_from (RiskLevel.value best)
           (map (fun c => RiskLevel.value (ca_risk_level c)) clauses)
  = last_level ({| ca_id := ""; ca_clause_type := ClauseType.PAYMENT_TERMS;
                   ca_original_text := ""; ca_plain_language := "";
                   ca_risk_level := best; ca_risk_reason := "";
                   ca_recommendations := []; ca_confidence_score := None |} :: clauses).
Proof.
  revert best; induction clauses as [|c cs IH]; intros best.
  - now destruct best.
  - cbn [map max_from].
    destruct best, (ca_risk_level c) eqn:Hc;
      match goal with
      | |- max_from (if ?b then _ else _) _ = _ =>
          let v := eval vm_compute in b in change b with v; cbv iota
      end;
      match goal with
      | |- max_from ?s _ = _ =>
          first [ change s with (RiskLevel.value RiskLevel.HIGH)
                | change s with (RiskLevel.value RiskLevel.MEDIUM)
                | change s with (RiskLevel.value RiskLevel.LOW) ]
      end;
      rewrite IH; unfold last_level, is_level;
      cbn [existsb ca_risk_level orb]; rewrite ?Hc; cbn [orb];
      repeat match goal with
             | |- context [existsb ?f cs] => destruct (existsb f cs)
             end; reflexivity.
Qed.

Lemma first_level_head (c : ClauseAnalysis) (cs : list ClauseAnalysis) (best : ClauseAnalysis) :
  ca_risk_level best = ca_risk_level c -> first_level (best :: cs) = first_level (c :: cs).
Proof.
  intros H. unfold first_level, is_level. cbn [existsb]. now rewrite H.
Qed.

Lemma last_level_head (c : ClauseAnalysis) (cs : list ClauseAnalysis) (best : ClauseAnalysis) :
  ca_risk_level best = ca_risk_level c -> last_level (best :: cs) = last_level (c :: cs).
Proof.
  intros H. unfold last_level, is_level. cbn [existsb]. now rewrite H.
Qed.

(** [X18] The fallback of [generate_summary_and_findings], taken when the
    model's reply is not JSON. On an empty clause list it raises ValueError
    ([min] of an empty sequence). Otherwise it returns three findings, the
    second being "Risk levels range from a to b" where a and b are the least
    and the greatest risk-level value in the order of strings, not of
    severity: a is "high" whenever some clause is high, and b is "medium"
    whenever some clause is medium. *)
Theorem summary_fallback
    (clauses : list ClauseAnalysis) (document_type reply : string) :
  generate_summary_text (QA.replace_underscore document_type)
                        (QA.join_lines (map clause_summary clauses))
  = Ok reply ->
  json_loads reply = None ->
  generate_summary_and_findings generate_summary_text json_loads clauses document_type
  = match clauses with
    | [] => Raise ValueError
    | _ :: _ =>
        Ok {| sd_summary :=
                JStr ("This " ++ QA.replace_underscore document_type
                      ++ " contains multiple clauses with varying risk levels that require careful consideration.");
              sd_key_findings :=
                JArr [ JStr ("Document contains " ++ str_of_nat (length clauses)
                             ++ " distinct clauses");
                       JStr ("Risk levels range from " ++ first_level clauses
                             ++ " to " ++ last_level clauses);
                       JStr "Professional legal review recommended" ] |}
    end.
Proof.
  intros Hgen Hloads. unfold generate_summary_and_findings.
  rewrite Hgen. cbn [bind]. rewrite Hloads.
  destruct clauses as [|c cs]; [reflexivity|].
  cbn [map py_min_str py_max_str bind].
  rewrite min_from_levels, max_from_levels.
  rewrite (first_level_head c), (last_level_head c) by reflexivity.
  reflexivity.
Qed.

End Stage.

Lemma analyze_success_witness :
  exists response st',
    analyze_document prose_model no_loads 30%Z 31%Z (fun _ => "error")
      classified_store "doc1" (Some "alice")
    = (Ok response, st')
    /\ In (ar_overall_risk response) ["high"; "medium"; "low"].
Proof.
  destruct (analyze_document prose_model no_loads 30%Z 31%Z (fun _ => "error")
              classified_store "doc1" (Some "alice"))
    as [[response|e] st'] eqn:Hcall; [|exfalso; vm_compute in Hcall; discriminate Hcall].
  exists response, st'. split; [reflexivity|].
  destruct (analyze_success prose_model no_loads 30%Z 31%Z (fun _ => "error")
              classified_store st' "doc1" (Some "alice") response Hcall)
    as (doc_data & clauses & doc_data' & _ & _ & _ & _ & _ & _ & _ & Hin & _).
  exact Hin.
Defined.

Lemma analyze_failure_recorded_witness :
  exists e st',
    analyze_document prose_model no_loads 30%Z 31%Z (fun _ => "error")
      {| st_fs := ocr_store; st_rest := ∅ |} "doc1" (Some "alice")
    = (Raise e, st')
    /\ e = HTTPException 400 "Document must complete clause classification first".
Proof.
  destruct (analyze_document prose_model no_loads 30%Z 31%Z (fun _ => "error")
              {| st_fs := ocr_store; st_rest := ∅ |} "doc1" (Some "alice"))
    as [[response|e] st'] eqn:Hcall; [exfalso; vm_compute in Hcall; discriminate Hcall|].
  exists e, st'. split; [reflexivity|].
  destruct (analyze_failure_recorded prose_model no_loads 30%Z 31%Z (fun _ => "error")
              {| st_fs := ocr_store; st_rest := ∅ |} st' "doc1" (Some "alice")
              ocr_document e (lookup_singleton_eq _ _) Hcall)
    as (_ & _ & H400 & _).
  apply H400; [reflexivity | discriminate].
Defined.

Lemma analyze_then_result_witness :
  exists result,
    get_analysis_result (fun _ => "error")
      (snd (analyze_document prose_model no_loads 30%Z 31%Z (fun _ => "error")
              classified_store "doc1" (Some "alice")))
      "doc1" (Some "alice")
    = Ok result
    /\ res_clauses result = d_clauses classified_document
    /\ res_status result = Some "analyzed".
Proof.
  destruct (analyze_document prose_model no_loads 30%Z 31%Z (fun _ => "error")
              classified_store "doc1" (Some "alice"))
    as [[response|e] st'] eqn:Hcall; [|exfalso; vm_compute in Hcall; discriminate Hcall].
  destruct (analyze_then_result prose_model no_loads 30%Z 31%Z (fun _ => "error")
              classified_store st' "doc1" (Some "alice") response Hcall)
    as (doc_data & Hdoc & Hresult).
  unfold classified_store in Hdoc. cbn [st_fs documents] in Hdoc.
  rewrite (lookup_singleton_eq (M := gmap string)) in Hdoc. injection Hdoc as <-.
  eexists. split; [exact Hresult|]. split; reflexivity.
Defined.

Lemma summary_fallback_witness :
  exists summary,
    generate_summary_and_findings prose_model no_loads [high_clause; low_clause]
      "rental_agreement"
    = Ok {| sd_summary := summary;
            sd_key_findings :=
              JArr [ JStr "Document contains 2 distinct clauses";
                     JStr "Risk levels range from high to low";
                     JStr "Professional legal review recommended" ] |}.
Proof.
  eexists.
  rewrite (summary_fallback prose_model no_loads [high_clause; low_clause]
             "rental_agreement" "A lease." eq_refl eq_refl).
  reflexivity.
Defined.

End AnalysisSpec.

(** ** Classification followed by analysis *)

Module PipelineSpec.
Import VertexAI Analysis PyFacts ClassifierSamples ClassifierVocabulary AnalysisVocabulary.

Lemma access_denied_owner (current_user : option string) (d d' : Document) :
  d_user_id d' = d_user_id d ->
  access_denied current_user d' = access_denied current_user d.
Proof. intros H. unfold access_denied. now rewrite H. Qed.

Section Pipeline.

Variable generate_text : Prompt -> result string.
Variable generate_summary_text : string -> string -> result string.
Variable json_loads : string -> option json.
Variable coerce_str : json -> option string.
Variable strip_lower : string -> string.
(** The timestamps of the classification call and of the analysis call. *)
Variable server_timestamp utcnow : Z.
Variable server_timestamp' utcnow' : Z.
Variable str_of_exn : exn -> string.

Lemma summary_returns (clauses : list ClauseAnalysis) (document_type reply : string) :
  clauses <> [] ->
  generate_summary_text (QA.replace_underscore document_type)
                        (QA.join_lines (map clause_summary clauses))
  = Ok reply ->
  (json_loads reply = None \/ exists kv, json_loads reply = Some (JObj kv)) ->
  exists summary_data,
    generate_summary_and_findings generate_summary_text json_loads clauses document_type
    = Ok summary_data.
Proof.
  intros Hne Hgen Hloads. unfold generate_summary_and_findings. rewrite Hgen. cbn [bind].
  destruct Hloads as [-> | (kv & ->)].
  - destruct clauses as [|c cs]; [now destruct Hne|]. cbn [map py_min_str py_max_str bind].
    eexists; reflexivity.
  - cbn [dict_get bind]. eexists; reflexivity.
Qed.

(** [X16] Classification followed by analysis, by the same caller, when the
    summary model replies with text that is not JSON or with a JSON object.
    If the classification found at least one clause, the analysis succeeds,
    analyses as many clauses as were found and leaves the document
    "analyzed". If the classification succeeded with no clause at all, the
    analysis answers 400 "No clauses found in document" and the document,
    classified a moment ago, is left "failed". *)
Theorem classify_then_analyze
    (fs fs' : Firestore) (rest : gmap string DocumentRest) (document_id : string)
    (current_user : option string) (response : ClassificationResponse) :
  (forall document_type lines,
      exists reply,
        generate_summary_text document_type lines = Ok reply
        /\ (json_loads reply = None \/ exists kv, json_loads reply = Some (JObj kv))) ->
  classify_document_clauses generate_text json_loads coerce_str strip_lower
    server_timestamp utcnow str_of_exn fs document_id current_user
  = (Ok response, fs') ->
  match cr_clauses_found response with
  | 0 =>
      exists st' doc_data',
        analyze_document generate_summary_text json_loads server_timestamp' utcnow' str_of_exn
          {| st_fs := fs'; st_rest := rest |} document_id current_user
        = (Raise (HTTPException 400 "No clauses found in document"), st')
        /\ documents (st_fs st') !! document_id = Some doc_data'
        /\ d_processing_status doc_data' = Some "failed"
  | S _ =>
      exists response' st' doc_data',
        analyze_document generate_summary_text json_loads server_timestamp' utcnow' str_of_exn
          {| st_fs := fs'; st_rest := rest |} document_id current_user
        = (Ok response', st')
        /\ ar_clauses_analyzed response' = cr_clauses_found response
        /\ documents (st_fs st') !! document_id = Some doc_data'
        /\ d_processing_status doc_data' = Some "analyzed"
  end.
Proof.
  intros Hmodel Hcall.
  destruct (ClassifierOutcomeSpec.classify_ok_inv _ _ _ _ _ _ _ _ _ _ _ _ Hcall)
    as (doc_data & document_type & clauses & Hdoc & Hacc & _ & _ & _ & _ & _ & Hn & ->).
  rewrite Hn.
  destruct clauses as [|c cs]; cbn [length];
    unfold analyze_document, analyze_document_body;
    cbn [st_fs documents]; rewrite lookup_insert_eq;
    rewrite (access_denied_owner current_user doc_data) by reflexivity; rewrite Hacc;
    cbn [update_classified d_processing_status d_clauses d_document_type get_or];
    rewrite bool_decide_eq_true_2 by reflexivity; cbn [negb];
    unfold store_update at 1; unfold doc_update at 1;
    cbn [st_fs documents embeddings qa_history]; rewrite lookup_insert_eq; cbn [bind];
    rewrite AnalysisSpec.parse_clauses_dicts.
  - cbn [is_http]. unfold store_update, doc_update.
    cbn [st_fs documents]. rewrite lookup_insert_eq. cbn [bind].
    eexists. eexists. split; [reflexivity|]. cbn [st_fs documents].
    split; [apply lookup_insert_eq | reflexivity].
  - destruct (Hmodel (QA.replace_underscore document_type)
                     (QA.join_lines (map clause_summary (c :: cs))))
      as (reply & Hgen & Hloads).
    destruct (summary_returns (c :: cs) document_type reply ltac:(discriminate) Hgen Hloads)
      as (summary_data & ->).
    destruct (AnalysisSpec.overall_risk_level (c :: cs)) as (r & -> & _).
    unfold doc_update. cbn [st_fs documents]. rewrite lookup_insert_eq.
    eexists. eexists. eexists. split; [reflexivity|].
    cbn [ar_clauses_analyzed st_fs documents length].
    split; [reflexivity|]. split; [apply lookup_insert_eq | reflexivity].
Qed.

End Pipeline.

Lemma classify_then_analyze_witness :
  exists response' st',
    analyze_document prose_model sample_loads 30%Z 31%Z (fun _ => "error")
      {| st_fs :=
           snd (classify_document_clauses listed_model sample_loads no_coerce id 20%Z 21%Z
                  (fun _ => "error") ocr_store "doc1" (Some "alice"));
         st_rest := ∅ |}
      "doc1" (Some "alice")
    = (Ok response', st')
    /\ ar_clauses_analyzed response' = 1.
Proof.
  destruct (classify_document_clauses listed_model sample_loads no_coerce id 20%Z 21%Z
              (fun _ => "error") ocr_store "doc1" (Some "alice"))
    as [[response|e] fs'] eqn:Hcall; [|exfalso; vm_compute in Hcall; discriminate Hcall].
  assert (Hfound : cr_clauses_found response = 1).
  { pose proof Hcall as Hcopy. vm_compute in Hcopy. injection Hcopy as Hresponse _.
    now rewrite <- Hresponse. }
  assert (Hmodel : forall document_type lines : string,
             exists reply,
               prose_model document_type lines = Ok reply
               /\ (sample_loads reply = None
                   \/ exists kv, sample_loads reply = Some (JObj kv))).
  { intros document_type lines. exists "A lease.". split; [reflexivity | left; reflexivity]. }
  pose proof (classify_then_analyze listed_model prose_model sample_loads no_coerce id
                20%Z 21%Z 30%Z 31%Z (fun _ => "error") ocr_store fs' ∅ "doc1"
                (Some "alice") response Hmodel Hcall)
    as Hpipeline.
  rewrite Hfound in Hpipeline.
  destruct Hpipeline as (response' & st' & doc_data' & Hanalyze & Hn & _).
  exists response', st'. split; [exact Hanalyze | exact Hn].
Defined.

End PipelineSpec.

(** ** The knowledge-base build and the search after it *)

Module KnowledgeBaseMoreSpec.
Import Rag PyFacts KnowledgeBaseVocabulary RetrieverVocabulary RetrieverSamples
       ClassifierVocabulary.

Lemma to_uint_nonnil (n : nat) : Nat.to_uint n <> Decimal.Nil.
Proof.
  rewrite <- (Unsigned.of_to n) at 1. rewrite Unsigned.to_of. apply unorm_nonnil.
Qed.

Lemma str_of_nat_inj (n m : nat) : str_of_nat n = str_of_nat m -> n = m.
Proof.
  unfold str_of_nat. intros H.
  apply (f_equal NilZero.uint_of_string) in H.
  rewrite !NilZero.usu in H by apply to_uint_nonnil.
  injection H as H. now apply Unsigned.to_uint_inj.
Qed.

Lemma append_inj_l (p a b : string) : (p ++ a = p ++ b)%string -> a = b.
Proof.
  induction p as [|ch p IH]; [trivial|].
  rewrite !append_cons. intros [= H]. now apply IH.
Qed.

Lemma set_embedding_fresh (e : EmbeddingData) (l : list EmbeddingData) :
  ~ In (e_chunk_id e) (map e_chunk_id l) -> set_embedding e l = (l ++ [e])%list.
Proof.
  induction l as [|e' l IH]; [reflexivity|].
  cbn [map set_embedding app]. intros Hnot.
  destruct (String.eqb_spec (e_chunk_id e') (e_chunk_id e)) as [Heq|_].
  - exfalso. apply Hnot. now left.
  - rewrite IH; [reflexivity|]. intros Hin. apply Hnot. now right.
Qed.

Lemma set_embedding_ids_known (e : EmbeddingData) (l : list EmbeddingData) :
  In (e_chunk_id e) (map e_chunk_id l) ->
  map e_chunk_id (set_embedding e l) = map e_chunk_id l.
Proof.
  induction l as [|e' l IH]; [intros []|].
  cbn [map set_embedding]. intros Hin.
  destruct (String.eqb_spec (e_chunk_id e') (e_chunk_id e)) as [Heq|Hne].
  - cbn [map]. now rewrite Heq.
  - cbn [map]. rewrite IH; [reflexivity|].
    destruct Hin as [Heq|Hin]; [now destruct Hne | exact Hin].
Qed.

Lemma set_embedding_Forall (P : EmbeddingData -> Prop) (e : EmbeddingData)
    (l : list EmbeddingData) :
  P e -> Forall P l -> Forall P (set_embedding e l).
Proof.
  intros He Hl. induction Hl as [|e' l He' Hl IH]; cbn [set_embedding].
  - repeat constructor. exact He.
  - destruct (String.eqb (e_chunk_id e') (e_chunk_id e)); constructor; assumption.
Qed.

Lemma commit_fresh (es acc : list EmbeddingData) :
  List.NoDup (map e_chunk_id (acc ++ es)%list) ->
  fold_left (fun l e => set_embedding e l) es acc = (acc ++ es)%list.
Proof.
  revert acc; induction es as [|e es IH]; intros acc Hnd.
  - now rewrite app_nil_r.
  - cbn [fold_left].
    assert (Hfresh : ~ In (e_chunk_id e) (map e_chunk_id acc)).
    { rewrite map_app in Hnd. cbn [map] in Hnd.
      apply NoDup_remove_2 in Hnd. intros Hin. apply Hnd, in_or_app. now left. }
    rewrite (set_embedding_fresh _ _ Hfresh).
    rewrite IH; rewrite <- app_assoc; [reflexivity | exact Hnd].
Qed.

Section Build.

Variable get_embeddings : string -> result (list float).
Variable server_timestamp : Z.
Variable str_of_exn : exn -> string.

Let embedded (document_id : string) (ichunks : list (nat * Chunk)) :=
  embed_chunks get_embeddings server_timestamp document_id ichunks.

Lemma length_embedded (document_id : string) (ichunks : list (nat * Chunk)) :
  length (embedded document_id ichunks)
  = length (List.filter (embeds get_embeddings) (map snd ichunks)).
Proof.
  induction ichunks as [|[i chunk] rest IH]; [reflexivity|].
  unfold embedded in *. cbn [embed_chunks map snd List.filter]. unfold embeds at 1.
  destruct (get_embeddings (chunk_text chunk)); cbn [length]; now rewrite IH.
Qed.

Lemma embedded_ids (document_id : string) (ichunks : list (nat * Chunk)) (e : EmbeddingData) :
  In e (embedded document_id ichunks) ->
  e_document_id e = document_id
  /\ exists i, In i (map fst ichunks)
               /\ e_chunk_id e = document_id ++ "_chunk_" ++ str_of_nat i.
Proof.
  induction ichunks as [|[i chunk] rest IH]; [intros []|].
  unfold embedded in *. cbn [embed_chunks map fst].
  destruct (get_embeddings (chunk_text chunk)).
  - intros [<-|Hin].
    + split; [reflexivity|]. exists i. split; [now left | reflexivity].
    + destruct (IH Hin) as (Hid & j & Hj & Hc). split; [exact Hid|].
      exists j. split; [now right | exact Hc].
  - intros Hin. destruct (IH Hin) as (Hid & j & Hj & Hc). split; [exact Hid|].
    exists j. split; [now right | exact Hc].
Qed.

Lemma embedded_NoDup (document_id : string) (ichunks : list (nat * Chunk)) :
  List.NoDup (map fst ichunks) ->
  List.NoDup (map e_chunk_id (embedded document_id ichunks)).
Proof.
  induction ichunks as [|[i chunk] rest IH]; [constructor|].
  cbn [map fst]. intros Hnd. inversion Hnd as [|? ? Hnotin Hrest]; subst.
  unfold embedded in *. cbn [embed_chunks].
  destruct (get_embeddings (chunk_text chunk)); [|now apply IH].
  cbn [map e_chunk_id]. constructor; [|now apply IH].
  intros Hin. apply in_map_iff in Hin. destruct Hin as (e & He & Hin).
  destruct (embedded_ids _ _ _ Hin) as (_ & j & Hj & Hc).
  rewrite Hc in He. apply append_inj_l, append_inj_l, str_of_nat_inj in He.
  subst j. now apply Hnotin.
Qed.

Lemma enumerate_fst {A : Type} (l : list A) : map fst (enumerate l) = seq 0 (length l).
Proof.
  unfold enumerate. generalize 0. induction l as [|a l IH]; intros start; [reflexivity|].
  cbn [length seq combine map fst]. now rewrite IH.
Qed.

Lemma enumerate_snd {A : Type} (l : list A) : map snd (enumerate l) = l.
Proof.
  unfold enumerate. generalize 0. induction l as [|a l IH]; intros start; [reflexivity|].
  cbn [length seq combine map snd]. now rewrite IH.
Qed.

(** The outcome of a build the guards let through. *)
Lemma build_accepted
    (fs : Firestore) (document_id : string) (current_user : option string)
    (doc_data : Document) :
  documents fs !! document_id = Some doc_data ->
  access_denied current_user doc_data = false ->
  d_raw_text doc_data <> "" ->
  let embeddings_data := embedded document_id (enumerate (chunks_of doc_data)) in
  let n := length embeddings_data in
  let committed :=
    fold_left (fun l e => set_embedding e l) embeddings_data (embeddings fs) in
  create_knowledge_base get_embeddings server_timestamp fs document_id current_user
  = (Ok {| kb_success := true;
           kb_document_id := document_id;
           kb_message := "Knowledge base created successfully";
           kb_chunks_created := n;
           kb_embeddings_generated := n |},
     match rev embeddings_data with
     | [] =>
         {| documents :=
              <[document_id := update_knowledge_base doc_data n server_timestamp]>
                (documents fs);
            embeddings := committed;
            qa_history := qa_history fs |}
     | last_embedding :: _ =>
         {| documents := documents fs;
            embeddings :=
              set_embedding (update_embedding_record last_embedding n server_timestamp)
                            committed;
            qa_history := qa_history fs |}
     end).
Proof.
  intros Hdoc Hacc Hraw. unfold create_knowledge_base.
  rewrite Hdoc, Hacc. apply String.eqb_neq in Hraw. now rewrite Hraw.
Qed.

(** [X19] A build the guards let through (the document is stored, the
    caller is allowed, the text is not empty) always succeeds, whatever the
    embedding client does. Both counts of the response are the number of
    chunks whose embedding call succeeded, at most the number of chunks and
    so at most 11 plus the number of clauses. Started on an empty embeddings
    collection it leaves exactly that many embedding documents, all of this
    document and with pairwise distinct chunk ids; the question history is
    untouched. *)
Theorem build_counts
    (fs : Firestore) (document_id : string) (current_user : option string)
    (doc_data : Document) :
  documents fs !! document_id = Some doc_data ->
  access_denied current_user doc_data = false ->
  d_raw_text doc_data <> "" ->
  exists response fs',
    create_knowledge_base get_embeddings server_timestamp fs document_id current_user
    = (Ok response, fs')
    /\ kb_chunks_created response
       = length (List.filter (embeds get_embeddings) (chunks_of doc_data))
    /\ kb_embeddings_generated response = kb_chunks_created response
    /\ kb_chunks_created response <= length (chunks_of doc_data)
    /\ length (chunks_of doc_data) <= 11 + length (d_clauses doc_data)
    /\ qa_history fs' = qa_history fs
    /\ (embeddings fs = [] ->
        length (embeddings fs') = kb_chunks_created response
        /\ List.NoDup (map e_chunk_id (embeddings fs'))
        /\ Forall (fun e => e_document_id e = document_id) (embeddings fs')).
Proof.
  intros Hdoc Hacc Hraw.
  rewrite (build_accepted _ _ _ _ Hdoc Hacc Hraw). cbv zeta.
  eexists. eexists. split; [reflexivity|]. cbn [kb_chunks_created kb_embeddings_generated].
  rewrite length_embedded, enumerate_snd.
  split; [reflexivity|]. split; [reflexivity|].
  split; [apply List.filter_length_le|].
  split.
  { unfold chunks_of. rewrite ChunkerSpec.length_create_text_chunks.
    pose proof (List.filter_length_le ChunkerVocabulary.substantial
                  (firstn 10 (d_paragraphs doc_data))) as Hle.
    rewrite length_firstn in Hle. lia. }
  split; [now destruct (rev _)|].
  intros Hempty. rewrite Hempty.
  pose proof (embedded_NoDup document_id (enumerate (chunks_of doc_data))) as Hnd.
  rewrite enumerate_fst in Hnd. specialize (Hnd (seq_NoDup _ _)).
  rewrite (commit_fresh _ [] Hnd). cbn [app].
  pose proof (length_embedded document_id (enumerate (chunks_of doc_data))) as Hlen.
  rewrite enumerate_snd in Hlen.
  assert (Hall : Forall (fun e => e_document_id e = document_id)
                        (embedded document_id (enumerate (chunks_of doc_data)))).
  { apply List.Forall_forall. intros e He. now destruct (embedded_ids _ _ _ He). }
  destruct (rev (embedded document_id (enumerate (chunks_of doc_data)))) as [|last rest]
    eqn:Hrev; cbn [embeddings].
  - split; [exact Hlen|]. split; [exact Hnd | exact Hall].
  - assert (Hlast : In last (embedded document_id (enumerate (chunks_of doc_data)))).
    { apply in_rev. rewrite Hrev. now left. }
    assert (Hknown : forall n,
               map e_chunk_id
                   (set_embedding (update_embedding_record last n server_timestamp)
                                  (embedded document_id (enumerate (chunks_of doc_data))))
               = map e_chunk_id (embedded document_id (enumerate (chunks_of doc_data)))).
    { intros n. apply set_embedding_ids_known.
      cbn [update_embedding_record e_chunk_id]. now apply in_map. }
    split; [|split].
    + rewrite <- (length_map e_chunk_id), Hknown, length_map. exact Hlen.
    + now rewrite Hknown.
    + apply set_embedding_Forall; [|exact Hall].
      cbn [update_embedding_record e_document_id].
      now destruct (embedded_ids _ _ _ Hlast).
Qed.

Lemma set_embedding_In (e : EmbeddingData) (l : list EmbeddingData) :
  In e (set_embedding e l).
Proof.
  induction l as [|e' l IH]; cbn [set_embedding]; [now left|].
  destruct (String.eqb (e_chunk_id e') (e_chunk_id e)); [now left | now right].
Qed.

(** [X20] Where the build records that the knowledge base exists. Its last
    update goes through [doc_ref], which the storing loop has rebound to the
    reference of the last embedding it queued. So the document gets
    [knowledge_base_created] and [embeddings_count] only when no chunk was
    embedded (the count is then 0); as soon as one chunk was embedded the
    [documents] collection is left exactly as it was, and the two fields are
    written on an embedding record instead. *)
Theorem build_flag
    (fs : Firestore) (document_id : string) (current_user : option string)
    (doc_data : Document) :
  documents fs !! document_id = Some doc_data ->
  access_denied current_user doc_data = false ->
  d_raw_text doc_data <> "" ->
  exists response fs',
    create_knowledge_base get_embeddings server_timestamp fs document_id current_user
    = (Ok response, fs')
    /\ (kb_chunks_created response = 0 ->
        documents fs'
        = <[document_id := update_knowledge_base doc_data 0 server_timestamp]>
            (documents fs))
    /\ (kb_chunks_created response <> 0 ->
        documents fs' = documents fs
        /\ exists record,
            In record (embeddings fs')
            /\ e_document_id record = document_id
            /\ e_knowledge_base_created record = Some true
            /\ e_embeddings_count record = Some (kb_chunks_created response)).
Proof.
  intros Hdoc Hacc Hraw.
  rewrite (build_accepted _ _ _ _ Hdoc Hacc Hraw). cbv zeta.
  eexists. eexists. split; [reflexivity|]. cbn [kb_chunks_created].
  destruct (rev (embedded document_id (enumerate (chunks_of doc_data)))) as [|last rest]
    eqn:Hrev.
  - apply (f_equal (@length _)) in Hrev. rewrite length_rev in Hrev. cbn [length] in Hrev.
    rewrite Hrev. split; [reflexivity | intros Hne; now destruct Hne].
  - split.
    + intros Hzero. apply length_zero_iff_nil in Hzero. rewrite Hzero in Hrev.
      discriminate Hrev.
    + intros _. split; [reflexivity|]. cbn [embeddings].
      eexists. split; [apply set_embedding_In|].
      cbn [update_embedding_record e_document_id e_knowledge_base_created
           e_embeddings_count].
      repeat split.
      assert (Hlast : In last (embedded document_id (enumerate (chunks_of doc_data)))).
      { apply in_rev. rewrite Hrev. now left. }
      now destruct (embedded_ids _ _ _ Hlast).
Qed.

(** [X21] Build, then search: when the document's flag was not set and the
    first chunk (the first 2000 characters of the text) is embedded, the
    build answers with success, and every search of that document
    afterwards, for every query and every limit, still fails with 400
    "Knowledge base not created for this document". *)
Theorem build_then_search
    (fs : Firestore) (document_id : string) (current_user : option string)
    (doc_data : Document) (query : string) (limit : Z) :
  documents fs !! document_id = Some doc_data ->
  access_denied current_user doc_data = false ->
  d_raw_text doc_data <> "" ->
  d_knowledge_base_created doc_data = false ->
  (exists v, get_embeddings (slice_to 2000 (d_raw_text doc_data)) = Ok v) ->
  exists response fs',
    create_knowledge_base get_embeddings server_timestamp fs document_id current_user
    = (Ok response, fs')
    /\ kb_success response = true
    /\ search_knowledge_base get_embeddings str_of_exn fs' document_id query limit
         current_user
       = Raise (HTTPException 400 "Knowledge base not created for this document").
Proof.
  intros Hdoc Hacc Hraw Hflag Hfirst.
  pose proof (KnowledgeBaseSpec.create_knowledge_base_documents get_embeddings
                server_timestamp fs document_id current_user doc_data Hdoc Hacc Hraw Hfirst)
    as Hdocs.
  rewrite (build_accepted _ _ _ _ Hdoc Hacc Hraw) in *. cbv zeta in *. cbn [snd] in Hdocs.
  eexists. eexists. split; [reflexivity|]. split; [reflexivity|].
  unfold search_knowledge_base. rewrite Hdocs, Hdoc, Hacc, Hflag. reflexivity.
Qed.

(** [X22] A search the guards let through, for any limit, negative ones
    included. [total_searched] is the number of stored chunks of the document
    with a non-empty vector, whatever the limit. The results are the first
    min(limit, total) scored chunks of the sorted list when the limit is not
    negative, and the sorted list without its last |limit| items when it is
    negative (none when |limit| is at least the total); they never outnumber
    [total_searched]. *)
Theorem search_any_limit
    (fs : Firestore) (document_id query : string) (limit : Z)
    (current_user : option string) (doc_data : Document) (query_vector : list float) :
  documents fs !! document_id = Some doc_data ->
  access_denied current_user doc_data = false ->
  d_knowledge_base_created doc_data = true ->
  get_embeddings query = Ok query_vector ->
  exists response,
    search_knowledge_base get_embeddings str_of_exn fs document_id query limit current_user
    = Ok response
    /\ sr_total_searched response = length (stored_vectors fs document_id)
    /\ Z.of_nat (length (sr_results response))
       = (if (0 <=? limit)%Z
          then Z.min limit (Z.of_nat (sr_total_searched response))
          else Z.max 0 (Z.of_nat (sr_total_searched response) + limit))%Z
    /\ length (sr_results response) <= sr_total_searched response
    /\ exists dropped,
        Permutation (sr_results response ++ dropped)%list
                    (map (search_hit query_vector) (stored_vectors fs document_id)).
Proof.
  intros Hdoc Hacc Hflag Hquery.
  rewrite (RetrieverSpec.search_ready _ _ _ _ _ _ _ _ _ Hdoc Hacc Hflag Hquery).
  eexists. split; [reflexivity|]. cbn [sr_total_searched sr_results].
  set (scored := map (search_hit query_vector) (stored_vectors fs document_id)).
  pose proof (RetrieverSpec.sort_desc_perm h_similarity scored) as Hperm.
  assert (Hlen : length (sort_desc h_similarity scored) = length (stored_vectors fs document_id)).
  { rewrite (Permutation_length Hperm). apply length_map. }
  split; [exact Hlen|].
  unfold list_slice_to.
  destruct (0 <=? limit)%Z eqn:Hsign; rewrite length_firstn.
  - apply Z.leb_le in Hsign. repeat split; try lia.
    exists (skipn (Z.to_nat limit) (sort_desc h_similarity scored)).
    now rewrite firstn_skipn.
  - apply Z.leb_gt in Hsign. repeat split; try lia.
    eexists. rewrite firstn_skipn. exact Hperm.
Qed.

End Build.

Lemma build_counts_witness :
  exists response fs',
    create_knowledge_base unit_embedding 40%Z ocr_store "doc1" (Some "alice")
    = (Ok response, fs')
    /\ kb_chunks_created response = 1
    /\ length (embeddings fs') = 1.
Proof.
  destruct (build_counts unit_embedding 40%Z ocr_store "doc1" (Some "alice") ocr_document)
    as (response & fs' & Hcall & Hn & _ & _ & _ & _ & Hstored);
    [apply lookup_singleton_eq | reflexivity | discriminate |].
  exists response, fs'. split; [exact Hcall|].
  destruct (Hstored eq_refl) as (Hlen & _). rewrite Hlen. split; exact Hn.
Defined.

Lemma build_flag_witness :
  exists response fs' doc_data',
    create_knowledge_base failing_embedding 40%Z ocr_store "doc1" (Some "alice")
    = (Ok response, fs')
    /\ documents fs' !! "doc1" = Some doc_data'
    /\ d_knowledge_base_created doc_data' = true
    /\ d_embeddings_count doc_data' = Some 0.
Proof.
  destruct (build_flag failing_embedding 40%Z ocr_store "doc1" (Some "alice") ocr_document)
    as (response & fs' & Hcall & Hzero & _);
    [apply lookup_singleton_eq | reflexivity | discriminate |].
  exists response, fs'. eexists. split; [exact Hcall|].
  rewrite Hzero.
  - split; [apply lookup_insert_eq | split; reflexivity].
  - pose proof Hcall as Hcopy. vm_compute in Hcopy. injection Hcopy as Hresponse _.
    now rewrite <- Hresponse.
Defined.

Lemma build_then_search_witness :
  exists response fs',
    create_knowledge_base unit_embedding 40%Z ocr_store "doc1" (Some "alice")
    = (Ok response, fs')
    /\ search_knowledge_base unit_embedding (fun _ => "error") fs' "doc1" "rent" 5%Z
         (Some "alice")
       = Raise (HTTPException 400 "Knowledge base not created for this document").
Proof.
  destruct (build_then_search unit_embedding 40%Z (fun _ => "error") ocr_store "doc1"
              (Some "alice") ocr_document "rent" 5%Z)
    as (response & fs' & Hcall & _ & Hsearch);
    [apply lookup_singleton_eq | reflexivity | discriminate | reflexivity
     | eexists; reflexivity |].
  exists response, fs'. split; [exact Hcall | exact Hsearch].
Defined.

Lemma search_any_limit_witness :
  exists response,
    search_knowledge_base unit_embedding (fun _ => "error") kb_store "doc1" "rent" (-1)%Z
      None
    = Ok response
    /\ sr_total_searched response = 2
    /\ length (sr_results response) = 1.
Proof.
  destruct (search_any_limit unit_embedding (fun _ => "error") kb_store "doc1" "rent"
              (-1)%Z None kb_document [1%float; 0%float])
    as (response & Hcall & Htotal & Hlen & _);
    [apply lookup_singleton_eq | reflexivity | reflexivity | reflexivity |].
  exists response. split; [exact Hcall|].
  change (length (stored_vectors kb_store "doc1")) with 2 in Htotal.
  rewrite Htotal in Hlen. cbn in Hlen. split; [exact Htotal | lia].
Defined.

End KnowledgeBaseMoreSpec.

(** ** The question endpoint: its effect on the store and its fallbacks *)

Module QAMoreSpec.
Import QA PyFacts QASamples ClassifierSamples ClassifierVocabulary QAVocabulary.

Section Answers.

Variable generate_text : Prompt -> result string.
Variable json_loads : string -> option json.
Variable float_of_int : Z -> result float.
Variable float_of_str : string -> result float.
Variable format_2f : float -> string.
Variable get_embeddings : string -> result (list float).
Variable search_legal_corpus : string -> Z -> result (list LegalResult).
Variable str_of_exn : exn -> string.
Variable server_timestamp response_time_ms : Z.

Let answer := generate_answer generate_text json_loads float_of_int float_of_str format_2f.

Let ask :=
  answer_question generate_text json_loads float_of_int float_of_str format_2f
                  get_embeddings search_legal_corpus str_of_exn server_timestamp
                  response_time_ms.

Lemma generate_answer_sources
    (question document_type : string)
    (document_context : list Rag.SearchHit) (legal_context : list LegalResult)
    (clauses : list ClauseDict) :
  let data := answer question document_type document_context legal_context clauses in
  length (a_sources data) <= 5
  /\ length (a_citations data) <= length legal_context.
Proof.
  cbv zeta. unfold answer, generate_answer.
  destruct (generate_answer_body _ _ _ _ _ _ _) as [data|e] eqn:Hbody.
  - unfold generate_answer_body in Hbody.
    destruct (generate_text _) as [reply|]; cbn [bind] in Hbody; [|discriminate].
    destruct (json_loads reply) as [result|]; [|discriminate].
    destruct (dict_get result "answer" _) as [a|]; cbn [bind] in Hbody; [|discriminate].
    destruct (dict_get result "confidence" _) as [cj|]; cbn [bind] in Hbody;
      [|discriminate].
    destruct (py_float _ _ cj) as [c|]; cbn [bind] in Hbody; [|discriminate].
    destruct (iadd_str a disclaimer) as [a'|]; cbn [bind] in Hbody; [|discriminate].
    injection Hbody as <-. cbn [a_sources a_citations].
    unfold create_citations. rewrite length_firstn, length_map. lia.
  - destruct e; cbn [a_sources a_citations length]; rewrite ?length_firstn; lia.
Qed.

(** The answer when the model's reply is not JSON, and when the model
    raises. *)
Lemma generate_answer_unparsed
    (question document_type reply : string)
    (document_context : list Rag.SearchHit) (legal_context : list LegalResult)
    (clauses : list ClauseDict) :
  generate_text (answer_prompt question document_type document_context legal_context
                               clauses)
  = Ok reply ->
  json_loads reply = None ->
  answer question document_type document_context legal_context clauses
  = {| a_answer := JStr unparsed_answer;
       a_confidence := 0.3%float;
       a_sources := firstn 3 (answer_sources format_2f document_context legal_context);
       a_citations := [] |}.
Proof.
  intros Hgen Hloads. unfold answer, generate_answer, generate_answer_body.
  rewrite Hgen. cbn [bind]. now rewrite Hloads.
Qed.

Lemma generate_answer_failed
    (question document_type : string) (e : exn)
    (document_context : list Rag.SearchHit) (legal_context : list LegalResult)
    (clauses : list ClauseDict) :
  generate_text (answer_prompt question document_type document_context legal_context
                               clauses)
  = Raise e ->
  e <> JSONDecodeError ->
  answer question document_type document_context legal_context clauses
  = {| a_answer := JStr (failed_answer document_type);
       a_confidence := 0.2%float;
       a_sources := [];
       a_citations := [] |}.
Proof.
  intros Hgen Hne. unfold answer, generate_answer, generate_answer_body.
  rewrite Hgen. cbn [bind]. destruct e; try reflexivity. now destruct Hne.
Qed.

(** [X23] The effect of the question endpoint. When it answers, the
    response repeats the question and lists at most five sources, and the
    store is the old one with exactly one record appended to the question
    history, holding the request's ids and the response's answer, confidence
    and sources; documents and embeddings are never written. When it raises,
    the store is unchanged and the error is 404, 403 or the 500 of a response
    that fails validation. *)
Theorem answer_question_effect
    (fs fs' : Firestore) (request : QARequest) (current_user : option string)
    (outcome : result QAResponse) :
  ask fs request current_user = (outcome, fs') ->
  match outcome with
  | Ok response =>
      rs_question response = rq_question request
      /\ length (rs_sources response) <= 5
      /\ documents fs' = documents fs
      /\ embeddings fs' = embeddings fs
      /\ qa_history fs'
         = (qa_history fs ++ [history_record request response server_timestamp])%list
      /\ rs_response_time_ms response = response_time_ms
  | Raise e =>
      fs' = fs
      /\ (e = HTTPException 404 "Document not found"
          \/ e = HTTPException 403 "Access denied"
          \/ e = HTTPException 500 ("Failed to answer question: "
                                    ++ str_of_exn ValidationError))
  end.
Proof.
  unfold ask, answer_question.
  destruct (documents fs !! rq_document_id request) as [doc_data|].
  2:{ intros [= <- <-]. split; [reflexivity | now left]. }
  destruct (access_denied current_user doc_data).
  { intros [= <- <-]. split; [reflexivity | right; now left]. }
  match goal with
  | |- context [generate_answer ?g ?j ?fi ?fs ?fmt ?q ?t ?dc ?lc ?cl] =>
      pose proof (generate_answer_sources q t dc lc cl) as [Hsources _];
      cbv zeta in Hsources; unfold answer in Hsources;
      destruct (generate_answer g j fi fs fmt q t dc lc cl) as [a c srcs cits]
  end.
  cbn [a_sources] in Hsources.
  unfold make_response. cbn [a_answer a_confidence a_sources a_citations].
  destruct a; intros [= <- <-];
    try (split; [reflexivity | right; now right]).
  cbn [rs_question rs_sources documents embeddings qa_history rs_response_time_ms].
  repeat split. exact Hsources.
Qed.

(** [X24] Trouble with the generation model never fails the question
    endpoint. For a stored document the caller may read: when the model's
    reply is not JSON the endpoint answers with the fixed fallback text,
    confidence 0.3, at most three sources and no citations; when the model
    raises it answers with the second fallback text, confidence 0.2 and no
    sources. Both answers are recorded in the history. *)
Theorem answer_question_degraded
    (fs : Firestore) (request : QARequest) (current_user : option string)
    (doc_data : Document) :
  documents fs !! rq_document_id request = Some doc_data ->
  access_denied current_user doc_data = false ->
  (forall prompt,
      (exists reply, generate_text prompt = Ok reply /\ json_loads reply = None)
      \/ (exists e, generate_text prompt = Raise e /\ e <> JSONDecodeError)) ->
  exists response fs',
    ask fs request current_user = (Ok response, fs')
    /\ rs_citations response = []
    /\ length (rs_sources response) <= 3
    /\ ((rs_answer response = unparsed_answer /\ rs_confidence response = 0.3%float)
        \/ (rs_answer response
            = failed_answer (get_or (d_document_type doc_data) "legal document")
            /\ rs_confidence response = 0.2%float
            /\ rs_sources response = []))
    /\ qa_history fs'
       = (qa_history fs ++ [history_record request response server_timestamp])%list.
Proof.
  intros Hdoc Hacc Hmodel. unfold ask, answer_question. rewrite Hdoc, Hacc.
  match goal with
  | |- context [generate_answer ?g ?j ?fi ?fs ?fmt ?q ?t ?dc ?lc ?cl] =>
      destruct (Hmodel (answer_prompt q t dc lc cl))
        as [(reply & Hgen & Hloads) | (e & Hgen & Hne)];
      [ pose proof (generate_answer_unparsed q t reply dc lc cl Hgen Hloads) as Hanswer
      | pose proof (generate_answer_failed q t e dc lc cl Hgen Hne) as Hanswer ];
      unfold answer in Hanswer; rewrite Hanswer
  end; cbn [make_response a_answer a_confidence a_sources a_citations];
    eexists; eexists; (split; [reflexivity|]);
    cbn [rs_citations rs_sources rs_answer rs_confidence qa_history];
    (split; [reflexivity|]).
  - split; [rewrite length_firstn; lia|]. split; [left; split; reflexivity | reflexivity].
  - split; [cbn; lia|]. split; [right; repeat split | reflexivity].
Qed.

End Answers.

Section WithCorpus.

Variable generate_text : Prompt -> result string.
Variable json_loads : string -> option json.
Variable float_of_int : Z -> result float.
Variable float_of_str : string -> result float.
Variable format_2f : float -> string.
Variable get_embeddings : string -> result (list float).
Variable lower : string -> string.
Variable SEARCH_ENGINE_ID : option string.
Variable discovery_search : string -> Z -> result (list LegalCorpus.DiscoveryHit).
Variable str_of_exn : exn -> string.
Variable server_timestamp response_time_ms : Z.

(** [X25] The question endpoint over the legal corpus of rag.py, when the
    search engine is not configured or its client raises. The endpoint asks
    for two legal results, the mock corpus returns three whatever the limit:
    for a document without knowledge base, a reply of the model that parses
    to an object with a textual answer and a numeric confidence is answered
    with three citations and three sources, each source a title of the mock
    table behind "Legal: ". *)
Theorem answer_with_mock_corpus
    (fs : Firestore) (request : QARequest) (current_user : option string)
    (doc_data : Document) (fields : list (string * json)) (text : string) (c : float) :
  documents fs !! rq_document_id request = Some doc_data ->
  access_denied current_user doc_data = false ->
  d_knowledge_base_created doc_data = false ->
  (LegalCorpus.engine_unset SEARCH_ENGINE_ID = true
   \/ exists e, discovery_search (rq_question request) 2 = Raise e) ->
  (forall prompt, exists reply,
      generate_text prompt = Ok reply /\ json_loads reply = Some (JObj fields)) ->
  assoc "answer" fields = Some (JStr text) ->
  assoc "confidence" fields = Some (JFloat c) ->
  exists response fs',
    answer_question generate_text json_loads float_of_int float_of_str format_2f
      get_embeddings
      (LegalCorpus.legal_results lower SEARCH_ENGINE_ID discovery_search str_of_exn)
      str_of_exn server_timestamp response_time_ms fs request current_user
    = (Ok response, fs')
    /\ rs_answer response = text ++ disclaimer
    /\ length (rs_citations response) = 3
    /\ rs_sources response
       = map (fun r => "Legal: " ++ l_title r)
             (LegalCorpus.get_mock_legal_knowledge lower (rq_question request)).
Proof.
  intros Hdoc Hacc Hflag Hengine Hmodel Htext Hconf.
  unfold answer_question. rewrite Hdoc, Hacc, Hflag.
  assert (Hlegal : LegalCorpus.legal_results lower SEARCH_ENGINE_ID discovery_search
                     str_of_exn (rq_question request) 2
                   = Ok (LegalCorpus.get_mock_legal_knowledge lower (rq_question request))).
  { unfold LegalCorpus.legal_results, LegalCorpus.search_legal_corpus.
    destruct Hengine as [-> | (e & ->)]; [reflexivity|].
    now destruct (LegalCorpus.engine_unset SEARCH_ENGINE_ID). }
  rewrite Hlegal.
  unfold generate_answer, generate_answer_body.
  match goal with
  | |- context [generate_text ?p] => destruct (Hmodel p) as (reply & -> & Hloads)
  end.
  cbn [bind]. rewrite Hloads. unfold dict_get. rewrite Htext, Hconf.
  cbn [py_float bind iadd_str make_response a_answer a_confidence a_sources a_citations].
  eexists. eexists. split; [reflexivity|].
  cbn [rs_answer rs_citations rs_sources].
  split; [reflexivity|].
  unfold create_citations, answer_sources. cbn [map app].
  rewrite length_map, (LegalCorpusSpec.mock_length lower).
  split; [reflexivity|].
  apply firstn_all2. rewrite length_map, (LegalCorpusSpec.mock_length lower). lia.
Qed.

End WithCorpus.

Lemma answer_question_effect_witness :
  exists response fs',
    answer_question nan_model plain_loads no_float_of_int no_float_of_str plain_2f
      RetrieverSamples.unit_embedding no_results (fun _ => "error") 50%Z 120%Z
      ocr_store lease_question (Some "alice")
    = (Ok response, fs')
    /\ length (qa_history fs') = 1.
Proof.
  destruct (answer_question nan_model plain_loads no_float_of_int no_float_of_str plain_2f
              RetrieverSamples.unit_embedding no_results (fun _ => "error") 50%Z 120%Z
              ocr_store lease_question (Some "alice"))
    as [[response|e] fs'] eqn:Hcall; [|exfalso; vm_compute in Hcall; discriminate Hcall].
  exists response, fs'. split; [reflexivity|].
  pose proof (answer_question_effect nan_model plain_loads no_float_of_int no_float_of_str
                plain_2f RetrieverSamples.unit_embedding no_results (fun _ => "error")
                50%Z 120%Z ocr_store fs' lease_question (Some "alice") (Ok response) Hcall)
    as (_ & _ & _ & _ & Hhistory & _).
  now rewrite Hhistory.
Defined.

Lemma answer_question_degraded_witness :
  exists response fs',
    answer_question prose_answer_model sample_loads no_float_of_int no_float_of_str plain_2f
      RetrieverSamples.unit_embedding no_results (fun _ => "error") 50%Z 120%Z
      ocr_store lease_question (Some "alice")
    = (Ok response, fs')
    /\ rs_citations response = []
    /\ length (rs_sources response) <= 3.
Proof.
  destruct (answer_question_degraded prose_answer_model sample_loads no_float_of_int
              no_float_of_str plain_2f RetrieverSamples.unit_embedding no_results
              (fun _ => "error") 50%Z 120%Z ocr_store lease_question (Some "alice")
              ocr_document)
    as (response & fs' & Hcall & Hcitations & Hsources & _).
  - apply lookup_singleton_eq.
  - reflexivity.
  - intros prompt. left. exists "Sorry, I cannot help.". split; reflexivity.
  - exists response, fs'. repeat split; assumption.
Defined.

Lemma answer_with_mock_corpus_witness :
  exists response fs',
    answer_question nan_model plain_loads no_float_of_int no_float_of_str plain_2f
      RetrieverSamples.unit_embedding
      (LegalCorpus.legal_results id None no_discovery (fun _ => "error"))
      (fun _ => "error") 50%Z 120%Z ocr_store lease_question (Some "alice")
    = (Ok response, fs')
    /\ length (rs_citations response) = 3.
Proof.
  destruct (answer_with_mock_corpus nan_model plain_loads no_float_of_int no_float_of_str
              plain_2f RetrieverSamples.unit_embedding id None no_discovery
              (fun _ => "error") 50%Z 120%Z ocr_store lease_question (Some "alice")
              ocr_document
              [ ("answer", JStr "Yes, with 30 days notice.");
                ("confidence", JFloat 0.85%float);
                ("reasoning", JStr "Clause 4.");
                ("limitations", JStr "None.") ]
              "Yes, with 30 days notice." 0.85%float)
    as (response & fs' & Hcall & _ & Hcitations & _).
  - apply lookup_singleton_eq.
  - reflexivity.
  - reflexivity.
  - left. reflexivity.
  - intros prompt. exists "reply". split; reflexivity.
  - reflexivity.
  - reflexivity.
  - exists response, fs'. split; assumption.
Defined.

End QAMoreSpec.
